(** * The Amplifier chat provider (src-extension/provider.ts)

    A shallow embedding of [AmplifierChatProvider]: the line decoder
    [handleBridgeResponse], the pending-call slot [pendingResponses], the
    two bridge calls [initializeBridge] and [executeOnBridge], the output
    sanitizer [cleanAmplifierOutput] and the prompt extraction
    [extractUserPrompt].

    JavaScript strings are sequences of UTF-16 code units, modelled as
    [list Z]; a Node [Buffer] is a [list byte].  The provider object and the
    part of the runtime its closures live in (timers, promises, cancellation
    listeners) are one record [state]; each callback of the event loop is a
    total function on it. *)

From Stdlib Require Import ZArith Lia Bool Ascii String.
From Stdlib.Strings Require Import Byte.
From stdpp Require Import gmap strings list.

Local Open Scope Z_scope.

Set Warnings "-register-all".

(** ** JavaScript strings *)

Module JS.

Abbreviation jsstring := (list Z).

(** An ASCII literal of the source as code units. *)
Definition lit (s : string) : jsstring :=
  map (fun a => Z.of_N (N_of_ascii a)) (list_ascii_of_string s).

Definition NL : Z := 10.

Fixpoint jsstring_eqb (a b : jsstring) : bool :=
  match a, b with
  | [], [] => true
  | x :: a', y :: b' => (x =? y) && jsstring_eqb a' b'
  | _, _ => false
  end.

(** [s.split(sep)] for a separator of one code unit. *)
Fixpoint split_on (sep : Z) (s : jsstring) : list jsstring :=
  match s with
  | [] => [[]]
  | c :: r =>
      if c =? sep then [] :: split_on sep r
      else match split_on sep r with
           | l :: ls => (c :: l) :: ls
           | [] => [[c]]
           end
  end.

(** [ls.join(sep)]. *)
Fixpoint join (sep : jsstring) (ls : list jsstring) : jsstring :=
  match ls with
  | [] => []
  | [l] => l
  | l :: r => l ++ sep ++ join sep r
  end.

(** WhiteSpace and LineTerminator code units: what [trim] removes and what
    [\s] matches. *)
Definition is_ws (c : Z) : bool :=
  (c =? 9) || (c =? 10) || (c =? 11) || (c =? 12) || (c =? 13) || (c =? 32)
  || (c =? 160) || (c =? 5760) || ((8192 <=? c) && (c <=? 8202))
  || (c =? 8232) || (c =? 8233) || (c =? 8239) || (c =? 8287)
  || (c =? 12288) || (c =? 65279).

Fixpoint drop_while (p : Z -> bool) (s : jsstring) : jsstring :=
  match s with
  | [] => []
  | c :: r => if p c then drop_while p r else s
  end.

Fixpoint take_while (p : Z -> bool) (s : jsstring) : jsstring :=
  match s with
  | [] => []
  | c :: r => if p c then c :: take_while p r else []
  end.

Definition trimStart (s : jsstring) : jsstring := drop_while is_ws s.
Definition trimEnd (s : jsstring) : jsstring := rev (drop_while is_ws (rev s)).
Definition trim (s : jsstring) : jsstring := trimEnd (trimStart s).

(** Truthiness of a string: [!s] holds exactly for the empty string. *)
Definition is_empty (s : jsstring) : bool :=
  match s with [] => true | _ => false end.

Fixpoint starts_with (p s : jsstring) : bool :=
  match p, s with
  | [], _ => true
  | x :: p', y :: s' => (x =? y) && starts_with p' s'
  | _ :: _, [] => false
  end.

(** [s.includes(sub)]. *)
Fixpoint includes (sub s : jsstring) : bool :=
  starts_with sub s ||
  match s with
  | [] => false
  | _ :: r => includes sub r
  end.

(** [s.replace(re, rep)] for a global regular expression [re] that never
    matches the empty string.  [m s] is the length of the match of [re]
    anchored at the head of [s], if there is one; the scan goes left to
    right and resumes behind each match.  [skip] counts the code units of
    the current match still to be passed over. *)
Fixpoint replace_from (m : jsstring -> option nat) (rep : jsstring)
    (skip : nat) (s : jsstring) : jsstring :=
  match s with
  | [] => []
  | c :: r =>
      match skip with
      | S k => replace_from m rep k r
      | O =>
          match m s with
          | Some (S k) => rep ++ replace_from m rep k r
          | _ => c :: replace_from m rep 0 r
          end
      end
  end.

Definition replace_all (m : jsstring -> option nat) (rep s : jsstring) : jsstring :=
  replace_from m rep 0 s.

End JS.

Import JS.

(** ** Output sanitizer: [cleanAmplifierOutput] *)

Module Sanitizer.

(** [/\x1b\[[0-9;]*m/]: ESC, an opening bracket, a greedy run of digits and
    semicolons, the letter m.  The run is followed by something outside the
    class, so no shorter run can match. *)
Definition is_sgr_param (c : Z) : bool :=
  ((48 <=? c) && (c <=? 57)) || (c =? 59).

Definition ansi_match (s : jsstring) : option nat :=
  match s with
  | 27 :: 91 :: r =>
      let params := take_while is_sgr_param r in
      match drop_while is_sgr_param r with
      | 109 :: _ => Some (3 + length params)%nat
      | _ => None
      end
  | _ => None
  end.

Definition strip_ansi (text : jsstring) : jsstring :=
  replace_all ansi_match [] text.

(** [/\n{3,}/]: a greedy run of at least three newlines. *)
Definition newlines_match (s : jsstring) : option nat :=
  let n := length (take_while (Z.eqb NL) s) in
  if (3 <=? n)%nat then Some n else None.

Definition collapse_newlines (s : jsstring) : jsstring :=
  replace_all newlines_match [NL; NL] s.

(** The non-ASCII literals of the filter, as UTF-16 code units. *)
Definition brain_emoji : jsstring := [55358; 56800].      (* U+1F9E0 *)
Definition chart_emoji : jsstring := [55357; 56522].      (* U+1F4CA *)
Definition box_vertical : Z := 9474.                      (* U+2502 *)
Definition box_corner : Z := 9492.                        (* U+2514 *)
Definition box_horizontal : Z := 9472.                    (* U+2500 *)

Definition rule_equals : jsstring := repeat 61 60.
Definition rule_dashes : jsstring := repeat 45 60.

(** [/^[│└─\s]+$/] on a string. *)
Definition is_box_char (c : Z) : bool :=
  (c =? box_vertical) || (c =? box_corner) || (c =? box_horizontal) || is_ws c.

Definition box_only (s : jsstring) : bool :=
  negb (is_empty s) && forallb is_box_char s.

(** The "Skip metadata" disjunction of the filter, on the trimmed line. *)
Definition is_banner (trimmed : jsstring) : bool :=
  includes (lit "Preparing bundle") trimmed
  || includes (lit "prepared successfully") trimmed
  || includes (lit "Session ID:") trimmed
  || (includes (lit "Bundle:") trimmed && includes (lit "Provider:") trimmed)
  || includes (brain_emoji ++ lit " Thinking") trimmed
  || jsstring_eqb trimmed rule_equals
  || jsstring_eqb trimmed rule_dashes
  || jsstring_eqb trimmed (lit "Thinking:")
  || includes (lit "Token Usage") trimmed
  || includes chart_emoji trimmed
  || box_only trimmed.

(** The predicate handed to [lines.filter]. *)
Definition keep_line (line : jsstring) : bool :=
  let trimmed := trim line in
  if is_empty trimmed then false
  else if is_banner trimmed then false
  else true.

Definition cleanAmplifierOutput (text : jsstring) : jsstring :=
  let cleaned := strip_ansi text in
  let lines := split_on NL cleaned in
  let filtered := List.filter keep_line lines in
  let cleaned := join [NL] filtered in
  collapse_newlines cleaned.

End Sanitizer.

Import Sanitizer.

(** ** [Buffer.prototype.toString()]

    The UTF-8 decoder behind [data.toString()]: every maximal ill-formed
    subsequence of the buffer, and a sequence cut off by the end of the
    buffer, becomes one U+FFFD; a code point above the BMP becomes a
    surrogate pair. *)

Module Utf8.

Abbreviation Buffer := (list byte).

Record decoder := Decoder {
  code_point : Z;
  bytes_seen : Z;
  bytes_needed : Z;
  lower_boundary : Z;
  upper_boundary : Z
}.

Definition idle : decoder := Decoder 0 0 0 128 191.

Definition REPLACEMENT : Z := 65533.

Definition utf16 (cp : Z) : jsstring :=
  if cp <? 65536 then [cp]
  else let c := cp - 65536 in [55296 + Z.shiftr c 10; 56320 + Z.land c 1023].

(** A byte read when no sequence is open. *)
Definition lead (b : Z) : decoder * jsstring :=
  if b <=? 127 then (idle, [b])
  else if (194 <=? b) && (b <=? 223) then
    (Decoder (Z.land b 31) 0 1 128 191, [])
  else if (224 <=? b) && (b <=? 239) then
    (Decoder (Z.land b 15) 0 2
       (if b =? 224 then 160 else 128) (if b =? 237 then 159 else 191), [])
  else if (240 <=? b) && (b <=? 244) then
    (Decoder (Z.land b 7) 0 3
       (if b =? 240 then 144 else 128) (if b =? 244 then 143 else 191), [])
  else (idle, [REPLACEMENT]).

Definition feed (d : decoder) (b : Z) : decoder * jsstring :=
  if bytes_needed d =? 0 then lead b
  else if negb ((lower_boundary d <=? b) && (b <=? upper_boundary d)) then
    let '(d', out) := lead b in (d', REPLACEMENT :: out)
  else
    let cp := Z.lor (Z.shiftl (code_point d) 6) (Z.land b 63) in
    if bytes_seen d + 1 =? bytes_needed d then (idle, utf16 cp)
    else (Decoder cp (bytes_seen d + 1) (bytes_needed d) 128 191, []).

Fixpoint decode_from (d : decoder) (data : Buffer) : jsstring :=
  match data with
  | [] => if bytes_needed d =? 0 then [] else [REPLACEMENT]
  | b :: r =>
      let '(d', out) := feed d (Z.of_N (Byte.to_N b)) in
      out ++ decode_from d' r
  end.

Definition toString (data : Buffer) : jsstring := decode_from idle data.

(** The decoder state a buffer ends in. *)
Fixpoint final_state (d : decoder) (data : Buffer) : decoder :=
  match data with
  | [] => d
  | b :: r => final_state (fst (feed d (Z.of_N (Byte.to_N b)))) r
  end.

(** The buffer does not end inside a multi-byte sequence. *)
Definition ends_complete (data : Buffer) : bool :=
  bytes_needed (final_state idle data) =? 0.

(** The bytes of an ASCII literal. *)
Definition bytes (s : string) : Buffer := list_byte_of_string s.

End Utf8.

Import Utf8.

(** ** [JSON.parse] *)

Module JSON.

Inductive json :=
| JNull
| JBool (b : bool)
| JNumber (lexeme : jsstring)
| JString (s : jsstring)
| JArray (items : list json)
| JObject (fields : list (jsstring * json)).

Definition is_json_ws (c : Z) : bool :=
  (c =? 32) || (c =? 9) || (c =? 10) || (c =? 13).

Definition skip_ws (s : jsstring) : jsstring := drop_while is_json_ws s.

Definition is_digit (c : Z) : bool := (48 <=? c) && (c <=? 57).

Definition hex_value (c : Z) : option Z :=
  if (48 <=? c) && (c <=? 57) then Some (c - 48)
  else if (65 <=? c) && (c <=? 70) then Some (c - 55)
  else if (97 <=? c) && (c <=? 102) then Some (c - 87)
  else None.

Definition hex4 (a b c d : Z) : option Z :=
  match hex_value a, hex_value b, hex_value c, hex_value d with
  | Some x, Some y, Some z, Some w => Some (((x * 16 + y) * 16 + z) * 16 + w)
  | _, _, _, _ => None
  end.

Definition cons_char (c : Z) (r : option (jsstring * jsstring)) :
    option (jsstring * jsstring) :=
  match r with
  | Some (body, rest) => Some (c :: body, rest)
  | None => None
  end.

(** The rest of a string token, behind its opening quote. *)
Fixpoint string_body (s : jsstring) : option (jsstring * jsstring) :=
  match s with
  | [] => None
  | 34 :: r => Some ([], r)
  | 92 :: e :: r =>
      if e =? 34 then cons_char 34 (string_body r)
      else if e =? 92 then cons_char 92 (string_body r)
      else if e =? 47 then cons_char 47 (string_body r)
      else if e =? 98 then cons_char 8 (string_body r)
      else if e =? 102 then cons_char 12 (string_body r)
      else if e =? 110 then cons_char 10 (string_body r)
      else if e =? 114 then cons_char 13 (string_body r)
      else if e =? 116 then cons_char 9 (string_body r)
      else if e =? 117 then
        match r with
        | a :: b :: c :: d :: r' =>
            match hex4 a b c d with
            | Some u => cons_char u (string_body r')
            | None => None
            end
        | _ => None
        end
      else None
  | c :: r => if c <? 32 then None else cons_char c (string_body r)
  end.

(** A run of at least one digit. *)
Definition digits1 (s : jsstring) : option (jsstring * jsstring) :=
  match take_while is_digit s with
  | [] => None
  | ds => Some (ds, drop_while is_digit s)
  end.

Definition number_token (s : jsstring) : option (jsstring * jsstring) :=
  let '(sign, s1) := match s with 45 :: r => ([45], r) | _ => ([], s) end in
  let int_part :=
    match s1 with
    | 48 :: r => Some ([48], r)
    | _ => digits1 s1
    end in
  match int_part with
  | None => None
  | Some (ip, s2) =>
      let frac :=
        match s2 with
        | 46 :: r =>
            match digits1 r with
            | Some (fs, r') => Some (46 :: fs, r')
            | None => None
            end
        | _ => Some ([], s2)
        end in
      match frac with
      | None => None
      | Some (fp, s3) =>
          match s3 with
          | e :: r =>
              if (e =? 101) || (e =? 69) then
                let '(esign, r1) :=
                  match r with
                  | c :: r' => if (c =? 43) || (c =? 45) then ([c], r') else ([], r)
                  | [] => ([], r)
                  end in
                match digits1 r1 with
                | Some (es, r2) => Some (sign ++ ip ++ fp ++ [e] ++ esign ++ es, r2)
                | None => None
                end
              else Some (sign ++ ip ++ fp, s3)
          | [] => Some (sign ++ ip ++ fp, s3)
          end
      end
  end.

Definition keyword (k : string) (v : json) (s : jsstring) : option (json * jsstring) :=
  if starts_with (lit k) s then Some (v, drop (length (lit k)) s) else None.

(** Recursive descent; at most two calls are made per consumed code unit,
    so the nesting is bounded by twice the length of the text. *)
Fixpoint parse_value (fuel : nat) (s : jsstring) : option (json * jsstring) :=
  match fuel with
  | O => None
  | S f =>
      match s with
      | 123 :: r =>
          match skip_ws r with
          | 125 :: r' => Some (JObject [], r')
          | r' => parse_members f r' []
          end
      | 91 :: r =>
          match skip_ws r with
          | 93 :: r' => Some (JArray [], r')
          | r' => parse_elements f r' []
          end
      | 34 :: r =>
          match string_body r with
          | Some (str, r') => Some (JString str, r')
          | None => None
          end
      | 116 :: _ => keyword "true" (JBool true) s
      | 102 :: _ => keyword "false" (JBool false) s
      | 110 :: _ => keyword "null" JNull s
      | _ =>
          match number_token s with
          | Some (lx, r') => Some (JNumber lx, r')
          | None => None
          end
      end
  end
with parse_members (fuel : nat) (s : jsstring) (acc : list (jsstring * json)) :
    option (json * jsstring) :=
  match fuel with
  | O => None
  | S f =>
      match s with
      | 34 :: r =>
          match string_body r with
          | Some (key, r1) =>
              match skip_ws r1 with
              | 58 :: r2 =>
                  match parse_value f (skip_ws r2) with
                  | Some (v, r3) =>
                      match skip_ws r3 with
                      | 44 :: r4 => parse_members f (skip_ws r4) (acc ++ [(key, v)])
                      | 125 :: r4 => Some (JObject (acc ++ [(key, v)]), r4)
                      | _ => None
                      end
                  | None => None
                  end
              | _ => None
              end
          | None => None
          end
      | _ => None
      end
  end
with parse_elements (fuel : nat) (s : jsstring) (acc : list json) :
    option (json * jsstring) :=
  match fuel with
  | O => None
  | S f =>
      match parse_value f s with
      | Some (v, r1) =>
          match skip_ws r1 with
          | 44 :: r2 => parse_elements f (skip_ws r2) (acc ++ [v])
          | 93 :: r2 => Some (JArray (acc ++ [v]), r2)
          | _ => None
          end
      | None => None
      end
  end.

(** [JSON.parse(text)]: [None] stands for the SyntaxError it throws. *)
Definition parse (text : jsstring) : option json :=
  match parse_value (2 * length text + 2) (skip_ws text) with
  | Some (v, r) => if is_empty (skip_ws r) then Some v else None
  | None => None
  end.

(** [obj[key]] on a parsed object: the last member of that name wins. *)
Fixpoint field (key : jsstring) (fields : list (jsstring * json)) : option json :=
  match fields with
  | [] => None
  | (k, v) :: r =>
      match field key r with
      | Some w => Some w
      | None => if jsstring_eqb k key then Some v else None
      end
  end.

End JSON.

Import JSON.

(** ** The provider *)

Module Provider.

(** *** Messages of the chat request *)

Inductive part :=
| LanguageModelTextPart (value : jsstring)
| OtherPart (kind : nat).

Record message := Message { role : nat; content : list part }.

(** *** What the provider writes and reports *)

(** The object handed to [JSON.stringify]; the line written to the worker's
    stdin is its JSON text and a newline. *)
Inductive command :=
| CmdInitialize (workspace_root bundle_path : jsstring)
| CmdExecute (prompt : jsstring)
| CmdShutdown.

Inductive error :=
| Error (message : string)          (* new Error('...') *)
| ErrorOf (value : option json)     (* new Error(response.error) *)
| SyntaxError                       (* thrown by JSON.parse *)
| TypeError.                        (* a property of null, a call of a non-function *)

(** The text parts given to [progress.report]. *)
Inductive report :=
| NoWorkspaceNotice
| NoPromptNotice
| InitializingNotice
| Chunk (cleaned : jsstring)
| ErrorNotice (e : error).

Inductive log_entry :=
| LogResponse (response : json)                 (* '[Bridge response]:' *)
| LogParseError (e : error) (line : jsstring)   (* '[Bridge parse error]:' *)
| LogStderr (text : jsstring)                   (* '[Bridge stderr]:' *)
| LogBridgeError                                (* '[Bridge error]:' *)
| LogClosed (code : option Z).                  (* '[Bridge closed] Exit code:' *)

(** *** Closures, as data *)

(** The callbacks stored in [pendingResponses]: the one of
    [initializeBridge] closes over its promise and its timer, the one of
    [executeOnBridge] also over [hasReceivedResponse] and [progress]. *)
Inductive resolver :=
| InitCallback (promise timeout : nat)
| ExecCallback (promise timeout hasReceivedResponse progress : nat).

Inductive listener :=
| ExecCancel (promise timeout : nat).

Inductive timer_action :=
| InitTimeout (promise : nat)
| ExecTimeout (promise hasReceivedResponse : nat)
| ShutdownKill (promise : nat)
| CancelledShortcut (l : listener).

Inductive settlement := Pending | Fulfilled | Rejected (e : error).

Inductive outcome := Returned | Thrown (e : error).

(** What is left of [provideLanguageModelChatResponse] behind each of its
    two [await]s. *)
Inductive continuation :=
| AfterInitialize (userPrompt : jsstring) (progress token : nat)
| AfterExecute (progress : nat).

Record process := Process { pid : nat; stdin : bool }.

Record extension_context := ExtensionContext { extensionPath : jsstring }.

(** What the host answers when asked: [vscode.workspace.workspaceFolders]
    (the [fsPath] of each), the configured [amplifier.pythonPath], whether
    the spawned child has a stdin stream, and [require('path').join] of the
    platform the extension host runs on, which joins three segments with
    the separator of the platform and normalises the result. *)
Record host := Host {
  workspaceFolders : option (list jsstring);
  configuredPythonPath : option jsstring;
  spawnedStdin : bool;
  path_join : jsstring -> jsstring -> jsstring -> jsstring
}.

(** *** The provider object and the runtime its closures live in

    The first six fields are the fields of [AmplifierChatProvider].
    [timers] holds the armed [setTimeout] handles, [promises] every promise
    made by the two bridge calls and by [shutdown], [waiters] the
    continuation awaiting a promise, [microtasks] the continuations ready to
    run, [cells] the [hasReceivedResponse] variable of each
    [executeOnBridge] activation, [listeners] the cancellation listeners of
    the tokens not yet cancelled.  The last three fields record what was
    written to the worker, reported to the chat and logged. *)
Record state := State {
  bridgeProcess : option process;
  isInitialized : bool;
  pendingResponses : gmap string resolver;
  responseBuffer : jsstring;
  pythonPath : option jsstring;
  context : option extension_context;
  timers : gmap nat timer_action;
  promises : gmap nat settlement;
  waiters : gmap nat continuation;
  microtasks : list (continuation * outcome);
  cells : gmap nat bool;
  listeners : list (nat * listener);
  cancelled : gset nat;
  next_handle : nat;
  stdin_log : list command;
  reported : list (nat * report);
  console : list log_entry
}.

(** One update function per field. *)

Definition upd_bridgeProcess (f : option process -> option process) (s : state) : state :=
  State (f (bridgeProcess s)) (isInitialized s) (pendingResponses s)
    (responseBuffer s) (pythonPath s) (context s) (timers s) (promises s)
    (waiters s) (microtasks s) (cells s) (listeners s) (cancelled s)
    (next_handle s) (stdin_log s) (reported s) (console s).

Definition upd_isInitialized (f : bool -> bool) (s : state) : state :=
  State (bridgeProcess s) (f (isInitialized s)) (pendingResponses s)
    (responseBuffer s) (pythonPath s) (context s) (timers s) (promises s)
    (waiters s) (microtasks s) (cells s) (listeners s) (cancelled s)
    (next_handle s) (stdin_log s) (reported s) (console s).

Definition upd_pendingResponses (f : gmap string resolver -> gmap string resolver) (s : state) : state :=
  State (bridgeProcess s) (isInitialized s) (f (pendingResponses s))
    (responseBuffer s) (pythonPath s) (context s) (timers s) (promises s)
    (waiters s) (microtasks s) (cells s) (listeners s) (cancelled s)
    (next_handle s) (stdin_log s) (reported s) (console s).

Definition upd_responseBuffer (f : jsstring -> jsstring) (s : state) : state :=
  State (bridgeProcess s) (isInitialized s) (pendingResponses s) (f
    (responseBuffer s)) (pythonPath s) (context s) (timers s) (promises s)
    (waiters s) (microtasks s) (cells s) (listeners s) (cancelled s)
    (next_handle s) (stdin_log s) (reported s) (console s).

Definition upd_pythonPath (f : option jsstring -> option jsstring) (s : state) : state :=
  State (bridgeProcess s) (isInitialized s) (pendingResponses s)
    (responseBuffer s) (f (pythonPath s)) (context s) (timers s) (promises
    s) (waiters s) (microtasks s) (cells s) (listeners s) (cancelled s)
    (next_handle s) (stdin_log s) (reported s) (console s).

Definition upd_context (f : option extension_context -> option extension_context) (s : state) : state :=
  State (bridgeProcess s) (isInitialized s) (pendingResponses s)
    (responseBuffer s) (pythonPath s) (f (context s)) (timers s) (promises
    s) (waiters s) (microtasks s) (cells s) (listeners s) (cancelled s)
    (next_handle s) (stdin_log s) (reported s) (console s).

Definition upd_timers (f : gmap nat timer_action -> gmap nat timer_action) (s : state) : state :=
  State (bridgeProcess s) (isInitialized s) (pendingResponses s)
    (responseBuffer s) (pythonPath s) (context s) (f (timers s)) (promises
    s) (waiters s) (microtasks s) (cells s) (listeners s) (cancelled s)
    (next_handle s) (stdin_log s) (reported s) (console s).

Definition upd_promises (f : gmap nat settlement -> gmap nat settlement) (s : state) : state :=
  State (bridgeProcess s) (isInitialized s) (pendingResponses s)
    (responseBuffer s) (pythonPath s) (context s) (timers s) (f (promises
    s)) (waiters s) (microtasks s) (cells s) (listeners s) (cancelled s)
    (next_handle s) (stdin_log s) (reported s) (console s).

Definition upd_waiters (f : gmap nat continuation -> gmap nat continuation) (s : state) : state :=
  State (bridgeProcess s) (isInitialized s) (pendingResponses s)
    (responseBuffer s) (pythonPath s) (context s) (timers s) (promises s) (f
    (waiters s)) (microtasks s) (cells s) (listeners s) (cancelled s)
    (next_handle s) (stdin_log s) (reported s) (console s).

Definition upd_microtasks (f : list (continuation * outcome) -> list (continuation * outcome)) (s : state) : state :=
  State (bridgeProcess s) (isInitialized s) (pendingResponses s)
    (responseBuffer s) (pythonPath s) (context s) (timers s) (promises s)
    (waiters s) (f (microtasks s)) (cells s) (listeners s) (cancelled s)
    (next_handle s) (stdin_log s) (reported s) (console s).

Definition upd_cells (f : gmap nat bool -> gmap nat bool) (s : state) : state :=
  State (bridgeProcess s) (isInitialized s) (pendingResponses s)
    (responseBuffer s) (pythonPath s) (context s) (timers s) (promises s)
    (waiters s) (microtasks s) (f (cells s)) (listeners s) (cancelled s)
    (next_handle s) (stdin_log s) (reported s) (console s).

Definition upd_listeners (f : list (nat * listener) -> list (nat * listener)) (s : state) : state :=
  State (bridgeProcess s) (isInitialized s) (pendingResponses s)
    (responseBuffer s) (pythonPath s) (context s) (timers s) (promises s)
    (waiters s) (microtasks s) (cells s) (f (listeners s)) (cancelled s)
    (next_handle s) (stdin_log s) (reported s) (console s).

Definition upd_cancelled (f : gset nat -> gset nat) (s : state) : state :=
  State (bridgeProcess s) (isInitialized s) (pendingResponses s)
    (responseBuffer s) (pythonPath s) (context s) (timers s) (promises s)
    (waiters s) (microtasks s) (cells s) (listeners s) (f (cancelled s))
    (next_handle s) (stdin_log s) (reported s) (console s).

Definition upd_next_handle (f : nat -> nat) (s : state) : state :=
  State (bridgeProcess s) (isInitialized s) (pendingResponses s)
    (responseBuffer s) (pythonPath s) (context s) (timers s) (promises s)
    (waiters s) (microtasks s) (cells s) (listeners s) (cancelled s) (f
    (next_handle s)) (stdin_log s) (reported s) (console s).

Definition upd_stdin_log (f : list command -> list command) (s : state) : state :=
  State (bridgeProcess s) (isInitialized s) (pendingResponses s)
    (responseBuffer s) (pythonPath s) (context s) (timers s) (promises s)
    (waiters s) (microtasks s) (cells s) (listeners s) (cancelled s)
    (next_handle s) (f (stdin_log s)) (reported s) (console s).

Definition upd_reported (f : list (nat * report) -> list (nat * report)) (s : state) : state :=
  State (bridgeProcess s) (isInitialized s) (pendingResponses s)
    (responseBuffer s) (pythonPath s) (context s) (timers s) (promises s)
    (waiters s) (microtasks s) (cells s) (listeners s) (cancelled s)
    (next_handle s) (stdin_log s) (f (reported s)) (console s).

Definition upd_console (f : list log_entry -> list log_entry) (s : state) : state :=
  State (bridgeProcess s) (isInitialized s) (pendingResponses s)
    (responseBuffer s) (pythonPath s) (context s) (timers s) (promises s)
    (waiters s) (microtasks s) (cells s) (listeners s) (cancelled s)
    (next_handle s) (stdin_log s) (reported s) (f (console s)).

Definition initial (ctx : option extension_context) : state :=
  State None false ∅ [] None ctx ∅ ∅ ∅ [] ∅ [] ∅ 0 [] [] [].

(** *** Runtime primitives *)

Definition log (e : log_entry) : state -> state :=
  upd_console (fun l => l ++ [e]).

(** [progress.report(new vscode.LanguageModelTextPart(...))]. *)
Definition progress_report (progress : nat) (r : report) : state -> state :=
  upd_reported (fun l => l ++ [(progress, r)]).

(** [this.bridgeProcess.stdin.write(JSON.stringify(c) + '\n')]. *)
Definition write (c : command) : state -> state :=
  upd_stdin_log (fun l => l ++ [c]).

Definition setTimeout (a : timer_action) (s : state) : nat * state :=
  let t := next_handle s in
  (t, upd_next_handle S (upd_timers (insert t a) s)).

Definition clearTimeout (t : nat) : state -> state :=
  upd_timers (delete t).

(** [new Promise(...)]: pending, and nothing awaits it yet. *)
Definition new_promise (s : state) : nat * state :=
  let p := next_handle s in
  (p, upd_next_handle S (upd_waiters (delete p) (upd_promises (insert p Pending) s))).

(** [let hasReceivedResponse = false]. *)
Definition new_cell (s : state) : nat * state :=
  let c := next_handle s in
  (c, upd_next_handle S (upd_cells (insert c false) s)).

Definition outcome_of (r : settlement) : outcome :=
  match r with
  | Rejected e => Thrown e
  | _ => Returned
  end.

(** Settling a promise: only the first settlement counts, and it makes the
    awaiting continuation ready. *)
Definition settle (p : nat) (r : settlement) (s : state) : state :=
  match promises s !! p with
  | Some Pending =>
      let s1 := upd_promises (insert p r) s in
      match waiters s !! p with
      | Some k =>
          upd_microtasks (fun q => q ++ [(k, outcome_of r)])
            (upd_waiters (delete p) s1)
      | None => s1
      end
  | _ => s
  end.

Definition resolve (p : nat) : state -> state := settle p Fulfilled.
Definition reject (p : nat) (e : error) : state -> state := settle p (Rejected e).

(** [await promise], the rest of the function being [k]. *)
Definition await (p : nat) (k : continuation) (s : state) : state :=
  match promises s !! p with
  | Some Fulfilled => upd_microtasks (fun q => q ++ [(k, Returned)]) s
  | Some (Rejected e) => upd_microtasks (fun q => q ++ [(k, Thrown e)]) s
  | _ => upd_waiters (insert p k) s
  end.

(** [token.onCancellationRequested(l)]; on a token that is cancelled
    already the listener is called from a timer of its own. *)
Definition onCancellationRequested (token : nat) (l : listener) (s : state) : state :=
  if decide (token ∈ cancelled s) then snd (setTimeout (CancelledShortcut l) s)
  else upd_listeners (fun ls => ls ++ [(token, l)]) s.

(** *** Code that can throw *)

Inductive completion (A : Type) :=
| Normal (a : A)
| Abrupt (e : error).

Arguments Normal {A} a.
Arguments Abrupt {A} e.

Definition M (A : Type) : Type := state -> completion A * state.

Definition ret {A} (a : A) : M A := fun s => (Normal a, s).

Definition throw {A} (e : error) : M A := fun s => (Abrupt e, s).

Definition bind {A B} (m : M A) (k : A -> M B) : M B :=
  fun s =>
    match m s with
    | (Normal a, s') => k a s'
    | (Abrupt e, s') => (Abrupt e, s')
    end.

Definition effect (f : state -> state) : M unit := fun s => (Normal tt, f s).

Definition read {A} (f : state -> A) : M A := fun s => (Normal (f s), s).

(** [try { body } catch (e) { handler }]. *)
Definition try_catch (body : M unit) (handler : error -> M unit) : M unit :=
  fun s =>
    match body s with
    | (Normal a, s') => (Normal a, s')
    | (Abrupt e, s') => handler e s'
    end.

(** [for (const x of l) { body }]: a throw leaves the loop. *)
Fixpoint for_of {A} (l : list A) (body : A -> M unit) : M unit :=
  match l with
  | [] => ret tt
  | x :: r => bind (body x) (fun _ => for_of r body)
  end.

Notation "'let*' x ':=' m 'in' k" := (bind m (fun x => k))
  (at level 10, x name, m at level 100, k at level 200).
Notation "m '>>' k" := (bind m (fun _ => k))
  (at level 90, right associativity).

Definition JSON_parse (line : jsstring) : M json :=
  match JSON.parse line with
  | Some v => ret v
  | None => throw SyntaxError
  end.

(** [response.key]: null has no properties; only an object of the parsed
    text has the ones read here. *)
Definition property (key : string) (response : json) : M (option json) :=
  match response with
  | JNull => throw TypeError
  | JObject fs => ret (field (lit key) fs)
  | _ => ret None
  end.

(** [v === 'expected']. *)
Definition is_string (expected : string) (v : option json) : bool :=
  match v with
  | Some (JString x) => jsstring_eqb x (lit expected)
  | _ => false
  end.

(** [this.cleanAmplifierOutput(v)] on whatever the message carries: only a
    string has [replace]. *)
Definition cleanAmplifierOutput_of (v : option json) : M jsstring :=
  match v with
  | Some (JString text) => ret (cleanAmplifierOutput text)
  | _ => throw TypeError
  end.

(** *** The provider's methods *)

Definition delete_current : state -> state :=
  upd_pendingResponses (delete "current").

(** The two callbacks put into [pendingResponses]. *)
Definition call (r : resolver) (response : json) : M unit :=
  match r with
  | InitCallback p timeout =>
      effect (clearTimeout timeout) >>
      effect delete_current >>
      let* status := property "status" response in
      if is_string "initialized" status then
        effect (upd_isInitialized (fun _ => true)) >>
        effect (resolve p)
      else if is_string "error" status then
        let* err := property "error" response in
        effect (reject p (ErrorOf err))
      else
        effect (reject p (Error "Unexpected initialization response"))
  | ExecCallback p timeout hasReceivedResponse progress =>
      let* type := property "type" response in
      if is_string "response" type then
        effect (upd_cells (insert hasReceivedResponse true)) >>
        let* content := property "content" response in
        let* cleaned := cleanAmplifierOutput_of content in
        if is_empty (trim cleaned) then ret tt
        else effect (progress_report progress (Chunk cleaned))
      else if is_string "error" type then
        effect (clearTimeout timeout) >>
        effect delete_current >>
        let* err := property "error" response in
        effect (reject p (ErrorOf err))
      else if is_string "done" type then
        effect (clearTimeout timeout) >>
        effect delete_current >>
        effect (resolve p)
      else ret tt
  end.

(** The body of the loop over the complete lines. *)
Definition process_line (line : jsstring) : M unit :=
  if is_empty (trim line) then ret tt
  else
    try_catch
      (let* response := JSON_parse line in
       effect (log (LogResponse response)) >>
       let* resolver := read (fun s => pendingResponses s !! "current") in
       match resolver with
       | Some r => call r response
       | None => ret tt
       end)
      (fun e => effect (log (LogParseError e line))).

Definition handleBridgeResponse (data : Buffer) : M unit :=
  let text := toString data in
  effect (upd_responseBuffer (fun b => b ++ text)) >>
  let* buffer := read responseBuffer in
  let lines := split_on NL buffer in
  effect (upd_responseBuffer (fun _ => default [] (last lines))) >>
  for_of (removelast lines) process_line.

Definition is_letter (c : Z) : bool :=
  ((65 <=? c) && (c <=? 90)) || ((97 <=? c) && (c <=? 122)).

Definition toLowerCase_letter (c : Z) : Z :=
  if (65 <=? c) && (c <=? 90) then c + 32 else c.

(** [winPath.replace(/\\/g, '/').replace(/^([A-Za-z]):/, ...)]. *)
Definition to_wsl (winPath : jsstring) : jsstring :=
  let slashed := map (fun c => if c =? 92 then 47 else c) winPath in
  match slashed with
  | d :: 58 :: r =>
      if is_letter d then lit "/mnt/" ++ [toLowerCase_letter d] ++ r else slashed
  | _ => slashed
  end.

Definition convertToWslPath (s : state) (winPath : jsstring) : jsstring :=
  match pythonPath s with
  | Some py =>
      if negb (is_empty py)
         && (includes ([92] ++ lit "wsl.localhost" ++ [92]) py
             || includes ([92; 92] ++ lit "wsl$" ++ [92]) py)
      then to_wsl winPath
      else winPath
  | None => winPath
  end.

Definition has_stdin (s : state) : bool :=
  match bridgeProcess s with
  | Some proc => stdin proc
  | None => false
  end.

Definition initializeBridge (h : host) (workspaceRoot : jsstring) (s : state) :
    nat * state :=
  let '(p, s) := new_promise s in
  let '(timeout, s) := setTimeout (InitTimeout p) s in
  let s := upd_pendingResponses (insert "current" (InitCallback p timeout)) s in
  let bundlePath :=
    match context s with
    | Some ctx =>
        if is_empty (extensionPath ctx) then []
        else path_join h (extensionPath ctx) (lit "src-amplifier")
               (lit "amplifier_bundle.yaml")
    | None => []
    end in
  let command :=
    CmdInitialize (convertToWslPath s workspaceRoot) (convertToWslPath s bundlePath) in
  if has_stdin s then (p, write command s)
  else (p, reject p (Error "Bridge stdin not available") s).

Definition executeOnBridge (prompt : jsstring) (progress token : nat) (s : state) :
    nat * state :=
  let '(p, s) := new_promise s in
  let '(hasReceivedResponse, s) := new_cell s in
  let '(timeout, s) := setTimeout (ExecTimeout p hasReceivedResponse) s in
  let s := onCancellationRequested token (ExecCancel p timeout) s in
  let s :=
    upd_pendingResponses
      (insert "current" (ExecCallback p timeout hasReceivedResponse progress)) s in
  let command := CmdExecute prompt in
  if has_stdin s then (p, write command s)
  else (p, reject p (Error "Bridge stdin not available") s).

Definition getWorkspaceRoot (h : host) : option jsstring :=
  match workspaceFolders h with
  | None => None
  | Some [] => None
  | Some (folder :: _) => Some folder
  end.

Fixpoint text_parts (content : list part) : list jsstring :=
  match content with
  | [] => []
  | LanguageModelTextPart value :: r => value :: text_parts r
  | OtherPart _ :: r => text_parts r
  end.

Definition messageToString (m : message) : jsstring :=
  join [NL] (text_parts (content m)).

Definition extractUserPrompt (messages : list message) : jsstring :=
  match last messages with
  | None => []
  | Some lastMessage => messageToString lastMessage
  end.

(** [ensureBridgeProcess]: the child is spawned at most once while
    [bridgeProcess] is set. *)
Definition ensureBridgeProcess (h : host) (s : state) : state :=
  match bridgeProcess s, context s with
  | Some _, _ => s
  | None, None => s
  | None, Some _ =>
      let python :=
        match configuredPythonPath h with
        | Some py => if is_empty py then lit "python3" else py
        | None => lit "python3"
        end in
      let s := upd_pythonPath (fun _ => Some python) s in
      let proc := Process (next_handle s) (spawnedStdin h) in
      upd_next_handle S (upd_bridgeProcess (fun _ => Some proc) s)
  end.

(** [provideLanguageModelChatResponse] up to its first [await]. *)
Definition provideLanguageModelChatResponse (h : host) (messages : list message)
    (progress token : nat) (s : state) : state :=
  match getWorkspaceRoot h with
  | None => progress_report progress NoWorkspaceNotice s
  | Some workspaceRoot =>
      if is_empty workspaceRoot then progress_report progress NoWorkspaceNotice s
      else
        let userPrompt := extractUserPrompt messages in
        if is_empty userPrompt then progress_report progress NoPromptNotice s
        else
          let s := ensureBridgeProcess h s in
          match bridgeProcess s with
          | None =>
              progress_report progress
                (ErrorNotice (Error "Failed to start bridge process")) s
          | Some _ =>
              if isInitialized s then
                let '(p, s) := executeOnBridge userPrompt progress token s in
                await p (AfterExecute progress) s
              else
                let s := progress_report progress InitializingNotice s in
                let '(p, s) := initializeBridge h workspaceRoot s in
                await p (AfterInitialize userPrompt progress token) s
          end
  end.

Definition progress_of (k : continuation) : nat :=
  match k with
  | AfterInitialize _ progress _ => progress
  | AfterExecute progress => progress
  end.

(** The function goes on behind an [await]: a rejection lands in its
    [catch], a fulfilment in the next statement. *)
Definition resume (k : continuation) (o : outcome) (s : state) : state :=
  match o with
  | Thrown e => progress_report (progress_of k) (ErrorNotice e) s
  | Returned =>
      match k with
      | AfterInitialize userPrompt progress token =>
          let '(p, s) := executeOnBridge userPrompt progress token s in
          await p (AfterExecute progress) s
      | AfterExecute _ => s
      end
  end.

Definition run_listener (l : listener) (s : state) : state :=
  match l with
  | ExecCancel p timeout =>
      reject p (Error "Request cancelled by user")
        (delete_current (clearTimeout timeout s))
  end.

Definition run_timer (a : timer_action) (s : state) : state :=
  match a with
  | InitTimeout p =>
      reject p (Error "Bridge initialization timeout - try again or check connection") s
  | ExecTimeout p hasReceivedResponse =>
      if default false (cells s !! hasReceivedResponse) then s
      else reject p (Error "Bridge execution timeout") s
  | ShutdownKill p =>
      resolve p
        (upd_isInitialized (fun _ => false) (upd_bridgeProcess (fun _ => None) s))
  | CancelledShortcut l => run_listener l s
  end.

(** [shutdown]. *)
Definition shutdown (s : state) : state :=
  match bridgeProcess s with
  | Some proc =>
      let '(p, s) := new_promise s in
      let s := if stdin proc then write CmdShutdown s else s in
      snd (setTimeout (ShutdownKill p) s)
  | None => s
  end.

(** The handler of the child's 'close' event. *)
Definition on_close (code : option Z) (s : state) : state :=
  upd_isInitialized (fun _ => false)
    (upd_bridgeProcess (fun _ => None) (log (LogClosed code) s)).

(** *** The event loop *)

Inductive event :=
| Request (h : host) (messages : list message) (progress token : nat)
| StdoutData (data : Buffer)
| StderrData (data : Buffer)
| ProcessError
| ProcessClose (code : option Z)
| TimerFired (t : nat)
| Cancel (token : nat)
| Shutdown.

Definition handle (e : event) (s : state) : state :=
  match e with
  | Request h messages progress token =>
      provideLanguageModelChatResponse h messages progress token s
  | StdoutData data => snd (handleBridgeResponse data s)
  | StderrData data => log (LogStderr (toString data)) s
  | ProcessError => log LogBridgeError s
  | ProcessClose code => on_close code s
  | TimerFired t =>
      match timers s !! t with
      | Some a => run_timer a (upd_timers (delete t) s)
      | None => s
      end
  | Cancel token =>
      if decide (token ∈ cancelled s) then s
      else
        let mine := List.filter (fun tl => Nat.eqb (fst tl) token) (listeners s) in
        let rest := List.filter (fun tl => negb (Nat.eqb (fst tl) token)) (listeners s) in
        let s := upd_cancelled (fun c => {[token]} ∪ c) (upd_listeners (fun _ => rest) s) in
        fold_left (fun s tl => run_listener (snd tl) s) mine s
  | Shutdown => shutdown s
  end.

(** The continuations that are ready run in order; those they make ready
    run behind them. *)
Definition flush (s : state) : state :=
  fold_left (fun s m => resume (fst m) (snd m) s) (microtasks s)
    (upd_microtasks (fun _ => []) s).

Definition drain (s : state) : state := flush (flush s).

(** One turn of the event loop: the handler, then the ready continuations. *)
Definition dispatch (e : event) (s : state) : state := drain (handle e s).

Definition run (es : list event) (s : state) : state :=
  fold_left (fun s e => dispatch e s) es s.

Definition status (s : state) (p : nat) : option settlement := promises s !! p.

Definition slot (s : state) : option resolver := pendingResponses s !! "current".

End Provider.

Import Provider.

(** ** The command line of the bridge and the token estimate *)

Module Launch.

(** [s.replace(/\\/g, '/')]. *)
Definition slashes (s : jsstring) : jsstring :=
  map (fun c => if c =? 92 then 47 else c) s.

(** [s.replace(/^literal/, '')]. *)
Definition strip_prefix (literal s : jsstring) : jsstring :=
  if starts_with literal s then drop (length literal) s else s.

(** The test of [ensureBridgeProcess] for a Python inside WSL. *)
Definition is_wsl_python (pythonPath : jsstring) : bool :=
  includes (lit "wsl.localhost") pythonPath || includes (lit "wsl$") pythonPath.

(** The UNC path of the interpreter as a path inside the distribution. *)
Definition wslPythonPath (pythonPath : jsstring) : jsstring :=
  let p :=
    strip_prefix (lit "//wsl$/Ubuntu")
      (strip_prefix (lit "//wsl.localhost/Ubuntu") (slashes pythonPath)) in
  if starts_with [47] p then p else 47 :: p.

(** [command] and [args] of the spawn in [ensureBridgeProcess];
    [bridgePath] is the joined path of the bridge script. *)
Definition spawn_command (pythonPath bridgePath : jsstring) : jsstring * list jsstring :=
  if is_wsl_python pythonPath then
    (lit "wsl", [lit "--exec"; wslPythonPath pythonPath; to_wsl bridgePath])
  else (pythonPath, [bridgePath]).

(** [provideTokenCount]: [Math.ceil(content.length / 4)], the length being
    an integer. *)
Definition provideTokenCount (text : jsstring + message) : Z :=
  let content :=
    match text with
    | inl s => s
    | inr m => messageToString m
    end in
  (Z.of_nat (length content) + 3) / 4.

End Launch.

(** ** The API key of the extension (extension.ts) *)

Module Extension.

(** The secret storage of the extension context, the environment of the
    process, the [amplifier.provider] setting and the information messages
    shown. *)
Record world := World {
  secret_store : gmap jsstring jsstring;
  process_env : gmap jsstring jsstring;
  provider_setting : option jsstring;
  shown : list jsstring
}.

(** [`amplifier.${providerType}.apiKey`]. *)
Definition secretKey (providerType : jsstring) : jsstring :=
  lit "amplifier." ++ providerType ++ lit ".apiKey".

(** [envKeyNames[providerType]], on the members the literal defines. *)
Definition envKeyNames (providerType : jsstring) : option jsstring :=
  if jsstring_eqb providerType (lit "anthropic") then Some (lit "ANTHROPIC_API_KEY")
  else if jsstring_eqb providerType (lit "openai") then Some (lit "OPENAI_API_KEY")
  else if jsstring_eqb providerType (lit "azure") then Some (lit "AZURE_OPENAI_API_KEY")
  else None.

(** A string that passes [if (v)]: present and not empty. *)
Definition truthy (v : option jsstring) : option jsstring :=
  match v with
  | Some k => if is_empty k then None else Some k
  | None => None
  end.

(** [getApiKey]: the stored secret first, the environment second.  A name
    the literal does not define indexes the environment as "undefined". *)
Definition getApiKey (w : world) (providerType : jsstring) : option jsstring :=
  match truthy (secret_store w !! secretKey providerType) with
  | Some storedKey => Some storedKey
  | None =>
      truthy (process_env w !! default (lit "undefined") (envKeyNames providerType))
  end.

(** [promptForApiKey]; [entered] is what the input box returns. *)
Definition promptForApiKey (providerType : jsstring) (entered : option jsstring)
    (w : world) : option jsstring * world :=
  match truthy entered with
  | Some apiKey =>
      (Some apiKey,
       World (<[secretKey providerType := apiKey]> (secret_store w)) (process_env w)
         (provider_setting w) (shown w ++ [lit "API key saved securely!"]))
  | None => (None, w)
  end.

(** [get<string>('provider') || 'anthropic']. *)
Definition current_provider (w : world) : jsstring :=
  default (lit "anthropic") (truthy (provider_setting w)).

(** The command [amplifier.setApiKey]. *)
Definition setApiKey (entered : option jsstring) (w : world) : world :=
  snd (promptForApiKey (current_provider w) entered w).

(** The command [amplifier.clearApiKey]. *)
Definition clearApiKey (w : world) : world :=
  World (delete (secretKey (current_provider w)) (secret_store w)) (process_env w)
    (provider_setting w) (shown w ++ [lit "API key cleared"]).

End Extension.

(** * Notions used in the statements *)

(** ** Texts *)

(** Two newlines in a row somewhere in the text. *)
Fixpoint has_double_newline (s : jsstring) : bool :=
  match s with
  | [] => false
  | c :: r =>
      ((c =? NL) && match r with d :: _ => d =? NL | [] => false end)
      || has_double_newline r
  end.

(** A line of whitespace only: what the filter calls empty. *)
Definition is_blank (line : jsstring) : bool := is_empty (trim line).

(** The text of a sequence of lines, each ended by a newline. *)
Definition text_of_lines (lines : list jsstring) : jsstring :=
  concat (map (fun l => l ++ [NL]) lines).

(** What a buffer decodes to before the end of the buffer is seen. *)
Fixpoint emitted (d : decoder) (data : Buffer) : jsstring :=
  match data with
  | [] => []
  | b :: r =>
      let '(d', out) := feed d (Z.of_N (Byte.to_N b)) in
      out ++ emitted d' r
  end.

(** ** The decoder *)

Definition preserves (P : state -> Prop) (f : state -> state) : Prop :=
  forall s, P s -> P (f s).

Definition preservesM {A} (P : state -> Prop) (m : M A) : Prop :=
  forall s, P s -> P (snd (m s)).

(** The responses the decoder has logged, in order. *)
Definition decoded (s : state) : list json :=
  omap (fun e => match e with LogResponse r => Some r | _ => None end) (console s).

(** What the complete lines of a text decode to. *)
Definition messages_of (lines : list jsstring) : list json :=
  omap JSON.parse (List.filter (fun l => negb (is_blank l)) lines).

(** The provider fed chunk by chunk, nothing else happening in between. *)
Definition feed_chunks (chunks : list Buffer) (s : state) : state :=
  fold_left (fun s data => snd (handleBridgeResponse data s)) chunks s.

(** The [type] of a message, as the execute callback reads it. *)
Definition type_of (response : json) : option json :=
  match response with
  | JObject fs => field (lit "type") fs
  | _ => None
  end.

(** The two kinds of message an execute call distinguishes. *)
Definition is_terminal (response : json) : bool :=
  is_string "error" (type_of response) || is_string "done" (type_of response).

Definition is_partial_response (response : json) : bool :=
  is_string "response" (type_of response).

(** The state without what only the decoder writes. *)
Definition erase_decoder (s : state) : state :=
  upd_responseBuffer (fun _ => []) (upd_console (fun _ => []) s).

(** ** The bridge calls *)

(** The state [executeOnBridge] leaves, field by field. *)
Record exec_effect (prompt : jsstring) (progress token : nat) (s s' : state) : Prop := {
  exec_bridgeProcess : bridgeProcess s' = bridgeProcess s;
  exec_isInitialized : isInitialized s' = isInitialized s;
  exec_pendingResponses :
    pendingResponses s' =
      <["current" := ExecCallback (next_handle s) (S (S (next_handle s)))
                       (S (next_handle s)) progress]> (pendingResponses s);
  exec_responseBuffer : responseBuffer s' = responseBuffer s;
  exec_promises :
    promises s' =
      <[next_handle s :=
          if has_stdin s then Pending
          else Rejected (Error "Bridge stdin not available")]> (promises s);
  exec_waiters : waiters s' = delete (next_handle s) (waiters s);
  exec_microtasks : microtasks s' = microtasks s;
  exec_cells : cells s' = <[S (next_handle s) := false]> (cells s);
  exec_timers :
    timers s' =
      if decide (token ∈ cancelled s) then
        <[S (S (S (next_handle s))) :=
            CancelledShortcut (ExecCancel (next_handle s) (S (S (next_handle s))))]>
          (<[S (S (next_handle s)) :=
               ExecTimeout (next_handle s) (S (next_handle s))]> (timers s))
      else
        <[S (S (next_handle s)) :=
            ExecTimeout (next_handle s) (S (next_handle s))]> (timers s);
  exec_listeners :
    listeners s' =
      if decide (token ∈ cancelled s) then listeners s
      else listeners s
           ++ [(token, ExecCancel (next_handle s) (S (S (next_handle s))))];
  exec_cancelled : cancelled s' = cancelled s;
  exec_next_handle : (next_handle s < next_handle s')%nat;
  exec_stdin_log :
    stdin_log s' =
      stdin_log s ++ (if has_stdin s then [CmdExecute prompt] else []);
  exec_reported : reported s' = reported s;
  exec_console : console s' = console s
}.

(** An execute call is in flight: its callback is in the slot, its timer is
    armed, its promise is pending, and [received] is the value of its
    [hasReceivedResponse]. *)
Record execute_pending (p t c g : nat) (received : bool) (s : state) : Prop := {
  pending_slot : pendingResponses s !! "current" = Some (ExecCallback p t c g);
  pending_timer : timers s !! t = Some (ExecTimeout p c);
  pending_status : promises s !! p = Some Pending;
  pending_cell : cells s !! c = Some received;
  pending_idle : microtasks s = [];
  pending_old : (p < next_handle s)%nat
}.

(** The messages a sequence of chunks makes the decoder log. *)
Fixpoint arrivals (chunks : list Buffer) (s : state) : list json :=
  match chunks with
  | [] => []
  | data :: rest =>
      messages_of (removelast (split_on NL (responseBuffer s ++ toString data)))
      ++ arrivals rest (dispatch (StdoutData data) s)
  end.

Definition is_AfterExecute (m : continuation * outcome) : Prop :=
  match fst m with
  | AfterExecute _ => True
  | AfterInitialize _ _ _ => False
  end.




(** ** Prompts *)








(** ** Events *)




(** ** Scenarios *)

Module Scenario.

Definition nl : string := String (ascii_of_nat 10) EmptyString.

(** The JSON texts of the scenarios are written with an apostrophe for
    the double quote. *)
Fixpoint quoted (s : string) : string :=
  match s with
  | EmptyString => EmptyString
  | String a r =>
      String (if Ascii.eqb a (ascii_of_nat 39) then ascii_of_nat 34 else a) (quoted r)
  end.

Definition json_text (text : string) : jsstring := lit (quoted text).

(** The bytes of one line of the worker's output. *)
Definition json_line (text : string) : Buffer := bytes (quoted text ++ nl).

(** [path.join] where the separator is a slash, for segments that need no
    normalisation. *)
Definition slash_join (a b c : jsstring) : jsstring :=
  a ++ [47] ++ b ++ [47] ++ c.

Definition host0 : host := Host (Some [lit "/ws"]) None true slash_join.

Definition start : state := initial (Some (ExtensionContext (lit "/ext"))).

Definition hi : list message := [Message 1 [LanguageModelTextPart (lit "hi")]].


(** A first request on progress 7 with token 9: the bridge is spawned and
    [initialize] is pending on promise 1 with timer 2. *)
Definition initializing : state := run [Request host0 hi 7 9] start.

(** The worker answers; [execute] is pending on promise 3 with
    [hasReceivedResponse] in cell 4 and timer 5. *)
Definition executing : state :=
  run [StdoutData (json_line "{'status':'initialized'}")] initializing.

Definition hello : Buffer := json_line "{'type':'response','content':'Hello'}".

(** A response whose content is U+00E9, in UTF-8 the bytes C3 A9, cut
    between the two. *)
Definition accent_head : Buffer :=
  bytes (quoted "{'type':'response','content':'") ++ [xc3].

Definition accent_tail : Buffer :=
  [xa9] ++ bytes (quoted "'}" ++ nl).

Definition response_with (content : jsstring) : json :=
  JObject [(lit "type", JString (lit "response")); (lit "content", JString content)].

(** Red text, a blank line, plain text. *)
Definition colored : jsstring :=
  [27; 91; 51; 49; 109] ++ lit "failed" ++ [27; 91; 48; 109] ++ [NL; NL] ++ lit "done".

End Scenario.

(** ** Proof steps *)

Ltac unfold_runtime :=
  unfold resolve, reject, settle, await, clearTimeout, delete_current,
    progress_report, log, write, setTimeout, new_promise, new_cell,
    onCancellationRequested in *.

Ltac simpl_state :=
  cbn [bridgeProcess isInitialized pendingResponses responseBuffer pythonPath
       context timers promises waiters microtasks cells listeners cancelled
       next_handle stdin_log reported console
       upd_bridgeProcess upd_isInitialized upd_pendingResponses
       upd_responseBuffer upd_pythonPath upd_context upd_timers upd_promises
       upd_waiters upd_microtasks upd_cells upd_listeners upd_cancelled
       upd_next_handle upd_stdin_log upd_reported upd_console
       stdin pid fst snd] in *.

Ltac simpl_lookups :=
  rewrite ?lookup_insert_eq, ?lookup_delete_eq in *.

(** ** Messages and calls *)

(** The members of a message the callbacks read. *)
Definition member (key : string) (response : json) : option json :=
  match response with
  | JObject fs => field (lit key) fs
  | _ => None
  end.

(** The chunk an execute call reports for a message, if it reports one. *)
Definition chunk_of (response : json) : option jsstring :=
  if is_partial_response response then
    match member "content" response with
    | Some (JString text) =>
        if is_empty (trim (cleanAmplifierOutput text)) then None
        else Some (cleanAmplifierOutput text)
    | _ => None
    end
  else None.

(** An initialize call is in flight, awaited by the request that goes on
    with [userPrompt]. *)
Record initialize_pending (p t : nat) (userPrompt : jsstring) (g token : nat)
    (s : state) : Prop := {
  init_slot : pendingResponses s !! "current" = Some (InitCallback p t);
  init_status : promises s !! p = Some Pending;
  init_waiter : waiters s !! p = Some (AfterInitialize userPrompt g token);
  init_idle : microtasks s = [];
  init_old_promise : (p < next_handle s)%nat;
  init_old_timer : (t < next_handle s)%nat
}.

(** The error an initialize call fails with on a reply that is not
    [initialized]. *)
Definition initialize_error (response : json) : error :=
  if is_string "error" (member "status" response) then ErrorOf (member "error" response)
  else Error "Unexpected initialization response".

(** From an equation between erased states, the equation between one of
    their other fields. *)
Ltac erased He proj H :=
  pose proof (f_equal proj He) as H; unfold erase_decoder in H; simpl_state.

(** What a message that is not terminal does to an execute call. *)
Definition deliver (c g : nat) (response : json) (s : state) : state :=
  if is_partial_response response then
    let s1 := upd_cells <[c := true]> s in
    match chunk_of response with
    | Some cleaned => progress_report g (Chunk cleaned) s1
    | None => s1
    end
  else s.

(** The reports of an execute call for a sequence of messages. *)
Definition chunks_of (g : nat) (arrived : list json) : list (nat * report) :=
  map (fun cleaned => (g, Chunk cleaned)) (omap chunk_of arrived).

(** ** Requests *)

(** The interpreter a spawn uses. *)
Definition python_of (h : host) : jsstring :=
  match configuredPythonPath h with
  | Some py => if is_empty py then lit "python3" else py
  | None => lit "python3"
  end.

(** The bundle the initialize command names. *)
Definition bundle_of (h : host) (ctx : extension_context) : jsstring :=
  if is_empty (extensionPath ctx) then []
  else path_join h (extensionPath ctx) (lit "src-amplifier") (lit "amplifier_bundle.yaml").

(** A request that gets as far as the bridge. *)
Record admissible (h : host) (messages : list message) (workspaceRoot : jsstring) : Prop := {
  has_workspace : getWorkspaceRoot h = Some workspaceRoot;
  workspace_named : is_empty workspaceRoot = false;
  has_prompt : is_empty (extractUserPrompt messages) = false
}.

(** The provider has a context and no worker. *)
Record unstarted (ctx : extension_context) (s : state) : Prop := {
  has_context : context s = Some ctx;
  no_process : bridgeProcess s = None;
  not_initialized : isInitialized s = false;
  unstarted_idle : microtasks s = []
}.

Import Scenario.

(** * Properties *)

Section Lines.

Variable sep : Z.

Lemma split_on_nonempty (s : jsstring) : split_on sep s <> [].
Proof.
  destruct s as [|c r]; simpl; [discriminate|].
  destruct (c =? sep); [discriminate|].
  destruct (split_on sep r); discriminate.
Qed.

(** No piece contains the separator. *)
Lemma split_on_no_sep (s : jsstring) :
  Forall (fun l => ~ In sep l) (split_on sep s).
Proof.
  induction s as [|c r IH]; simpl.
  - constructor; [intros []|constructor].
  - destruct (Z.eqb_spec c sep) as [->|Hne].
    + constructor; [intros []|exact IH].
    + destruct (split_on sep r) as [|l ls]; inversion IH; subst.
      * constructor; [|constructor]. intros [H|[]]; congruence.
      * constructor; [|assumption]. intros [H|H]; [congruence|tauto].
Qed.

Lemma split_on_app (a b : jsstring) :
  split_on sep (a ++ b) =
    removelast (split_on sep a)
    ++ split_on sep (default [] (last (split_on sep a)) ++ b).
Proof.
  induction a as [|c r IH]; [reflexivity|].
  assert (Hr := split_on_nonempty r).
  simpl. destruct (c =? sep) eqn:Ec.
  - rewrite IH. destruct (split_on sep r) as [|l ls]; [congruence|]. reflexivity.
  - rewrite IH. destruct (split_on sep r) as [|l [|l' ls']]; [congruence| |].
    + simpl. rewrite Ec. reflexivity.
    + reflexivity.
Qed.

Lemma join_split_on (s : jsstring) : join [sep] (split_on sep s) = s.
Proof.
  induction s as [|c r IH]; [reflexivity|].
  assert (Hr := split_on_nonempty r).
  simpl. destruct (c =? sep) eqn:Ec.
  - apply Z.eqb_eq in Ec. subst c.
    destruct (split_on sep r) as [|l ls]; [congruence|].
    change (join [sep] ([] :: l :: ls)) with ([] ++ [sep] ++ join [sep] (l :: ls)).
    rewrite IH. reflexivity.
  - destruct (split_on sep r) as [|l [|l' ls']]; [congruence| |].
    + simpl in *. congruence.
    + change (join [sep] ((c :: l) :: l' :: ls')) with (c :: (l ++ [sep] ++ join [sep] (l' :: ls'))).
      f_equal. exact IH.
Qed.

Lemma split_on_no_sep_id (l : jsstring) : ~ In sep l -> split_on sep l = [l].
Proof.
  induction l as [|c r IH]; [reflexivity|].
  intros H. simpl.
  destruct (Z.eqb_spec c sep) as [->|Hne]; [exfalso; apply H; left; reflexivity|].
  rewrite IH; [reflexivity|]. intros Hin. apply H. right. exact Hin.
Qed.

Lemma split_on_line (l r : jsstring) :
  ~ In sep l -> split_on sep (l ++ sep :: r) = l :: split_on sep r.
Proof.
  induction l as [|c l IH]; intros H; simpl.
  - rewrite Z.eqb_refl. reflexivity.
  - destruct (Z.eqb_spec c sep) as [->|Hne]; [exfalso; apply H; left; reflexivity|].
    rewrite IH; [reflexivity|]. intros Hin. apply H. right. exact Hin.
Qed.

Lemma split_on_join (ls : list jsstring) :
  ls <> [] -> Forall (fun l => ~ In sep l) ls -> split_on sep (join [sep] ls) = ls.
Proof.
  induction ls as [|l ls IH]; [congruence|].
  intros _ Hall. inversion Hall as [|? ? Hl Hls]; subst.
  destruct ls as [|l' ls'].
  - simpl. apply split_on_no_sep_id. exact Hl.
  - change (join [sep] (l :: l' :: ls')) with (l ++ sep :: join [sep] (l' :: ls')).
    rewrite (split_on_line _ _ Hl), IH; [reflexivity|discriminate|exact Hls].
Qed.

End Lines.

(** ** The sanitizer *)

Section Sanitizing.

Lemma newlines_match_none (s : jsstring) :
  has_double_newline s = false -> newlines_match s = None.
Proof.
  unfold newlines_match. intros H.
  destruct s as [|c [|d r]]; cbn [take_while].
  - reflexivity.
  - destruct (NL =? c); reflexivity.
  - cbn [has_double_newline] in H.
    rewrite (Z.eqb_sym NL c), (Z.eqb_sym NL d).
    destruct (c =? NL); [|reflexivity].
    destruct (d =? NL); [discriminate|reflexivity].
Qed.

(** Without two newlines in a row there is no run to collapse. *)
Lemma collapse_newlines_id (s : jsstring) :
  has_double_newline s = false -> collapse_newlines s = s.
Proof.
  unfold collapse_newlines, replace_all.
  induction s as [|c r IH]; intros H; [reflexivity|].
  cbn [replace_from]. rewrite (newlines_match_none _ H).
  f_equal. apply IH. simpl in H. apply orb_false_iff in H. tauto.
Qed.

Lemma has_double_newline_line (l r : jsstring) :
  ~ In NL l -> l <> [] ->
  has_double_newline (l ++ NL :: r) =
    match r with d :: _ => d =? NL | [] => false end || has_double_newline r.
Proof.
  induction l as [|c l IH]; [congruence|]. intros Hin _.
  assert (Hc : (c =? NL) = false).
  { apply Z.eqb_neq. intros ->. apply Hin. left. reflexivity. }
  destruct l as [|c' l'].
  - simpl. rewrite Hc. simpl. reflexivity.
  - change ((c :: c' :: l') ++ NL :: r) with (c :: ((c' :: l') ++ NL :: r)).
    cbn [has_double_newline]. rewrite Hc. cbn [andb orb].
    apply IH; [|discriminate]. intros H. apply Hin. right. exact H.
Qed.

Lemma has_double_newline_free (l : jsstring) :
  ~ In NL l -> has_double_newline l = false.
Proof.
  induction l as [|c l IH]; [reflexivity|]. intros Hin. simpl.
  assert (Hc : (c =? NL) = false).
  { apply Z.eqb_neq. intros ->. apply Hin. left. reflexivity. }
  rewrite Hc. simpl. apply IH. intros H. apply Hin. right. exact H.
Qed.

(** Joining non-empty lines leaves no two newlines in a row. *)
Lemma join_no_double_newline (ls : list jsstring) :
  Forall (fun l => ~ In NL l) ls -> Forall (fun l => l <> []) ls ->
  has_double_newline (join [NL] ls) = false
  /\ match join [NL] ls with d :: _ => d =? NL | [] => false end = false.
Proof.
  induction ls as [|l ls IH]; [split; reflexivity|].
  intros Hfree Hne. inversion Hfree as [|? ? Hl Hls]; subst.
  inversion Hne as [|? ? Hl' Hls']; subst.
  destruct ls as [|l2 ls2].
  - simpl. split; [apply has_double_newline_free; exact Hl|].
    destruct l as [|c r]; [congruence|]. apply Z.eqb_neq. intros ->.
    apply Hl. left. reflexivity.
  - change (join [NL] (l :: l2 :: ls2)) with (l ++ NL :: join [NL] (l2 :: ls2)).
    destruct (IH Hls Hls') as [IH1 IH2]. split.
    + rewrite has_double_newline_line by assumption. rewrite IH1, IH2. reflexivity.
    + destruct l as [|c r]; [congruence|]. simpl. apply Z.eqb_neq. intros ->.
      apply Hl. left. reflexivity.
Qed.

Lemma keep_line_not_blank (l : jsstring) : keep_line l = true -> is_blank l = false.
Proof.
  unfold keep_line, is_blank. destruct (is_empty (trim l)); [discriminate|reflexivity].
Qed.

Lemma not_blank_nonempty (l : jsstring) : is_blank l = false -> l <> [].
Proof. intros H ->. discriminate. Qed.

Lemma kept_lines (text : jsstring) :
  let filtered := List.filter keep_line (split_on NL (strip_ansi text)) in
  Forall (fun l => ~ In NL l) filtered /\ Forall (fun l => is_blank l = false) filtered.
Proof.
  intros filtered. split.
  - apply List.Forall_forall. intros l Hl. apply filter_In in Hl as [Hl _].
    pose proof (split_on_no_sep NL (strip_ansi text)) as H.
    rewrite List.Forall_forall in H. apply H. exact Hl.
  - apply List.Forall_forall. intros l Hl. apply filter_In in Hl as [_ Hl].
    apply keep_line_not_blank. exact Hl.
Qed.

(** The last step of the sanitizer never finds a run to collapse. *)
Lemma cleanAmplifierOutput_join (text : jsstring) :
  cleanAmplifierOutput text =
    join [NL] (List.filter keep_line (split_on NL (strip_ansi text))).
Proof.
  unfold cleanAmplifierOutput. cbv zeta.
  destruct (kept_lines text) as [Hfree Hnb].
  apply collapse_newlines_id.
  apply join_no_double_newline; [exact Hfree|].
  eapply Forall_impl; [exact Hnb|]. intros l. apply not_blank_nonempty.
Qed.

End Sanitizing.

(** C9: the sanitizer's output never holds two newlines in a row, and,
    unless it is empty, none of its lines is empty or whitespace only. *)
Theorem cleanAmplifierOutput_no_blank_line (text : jsstring) :
  has_double_newline (cleanAmplifierOutput text) = false
  /\ (cleanAmplifierOutput text = []
      \/ Forall (fun line => is_blank line = false)
           (split_on NL (cleanAmplifierOutput text))).
Proof.
  rewrite cleanAmplifierOutput_join.
  destruct (kept_lines text) as [Hfree Hnb]. cbv zeta in *.
  set (filtered := List.filter keep_line (split_on NL (strip_ansi text))) in *.
  split.
  - apply join_no_double_newline; [exact Hfree|].
    eapply Forall_impl; [exact Hnb|]. intros l. apply not_blank_nonempty.
  - destruct filtered as [|l ls] eqn:E; [left; reflexivity|right].
    rewrite split_on_join; [exact Hnb|discriminate|exact Hfree].
Qed.

(** C7, as amended: when no line of the text, the colour sequences
    removed, matches a banner pattern, the output is that text without its
    blank lines, each dropped with its newline; without blank lines
    either, the output is the text with the colour sequences removed. *)
Theorem cleanAmplifierOutput_without_banners (text : jsstring) :
  Forall (fun line => is_banner (trim line) = false) (split_on NL (strip_ansi text)) ->
  cleanAmplifierOutput text =
    join [NL] (List.filter (fun line => negb (is_blank line)) (split_on NL (strip_ansi text)))
  /\ (Forall (fun line => is_blank line = false) (split_on NL (strip_ansi text)) ->
      cleanAmplifierOutput text = strip_ansi text).
Proof.
  intros Hban. rewrite cleanAmplifierOutput_join.
  assert (Hfilter : List.filter keep_line (split_on NL (strip_ansi text)) =
    List.filter (fun line => negb (is_blank line)) (split_on NL (strip_ansi text))).
  { induction (split_on NL (strip_ansi text)) as [|l ls IH]; [reflexivity|].
    inversion Hban as [|? ? Hl Hls]; subst. simpl.
    rewrite (IH Hls). unfold keep_line at 1, is_blank. rewrite Hl.
    destruct (is_empty (trim l)); reflexivity. }
  split; [rewrite Hfilter; reflexivity|].
  intros Hnb. rewrite Hfilter.
  rewrite <- (join_split_on NL (strip_ansi text)) at 2. f_equal.
  clear Hban Hfilter.
  induction (split_on NL (strip_ansi text)) as [|l ls IH]; [reflexivity|].
  inversion Hnb as [|? ? Hl Hls]; subst.
  simpl. rewrite Hl. simpl. f_equal. apply IH. exact Hls.
Qed.

Lemma no_banner_check (lines : list jsstring) :
  forallb (fun line => negb (is_banner (trim line))) lines = true ->
  Forall (fun line => is_banner (trim line) = false) lines.
Proof.
  intros H. apply List.Forall_forall. intros line Hin.
  rewrite forallb_forall in H. specialize (H line Hin).
  destruct (is_banner (trim line)); [discriminate|reflexivity].
Qed.

(** C7 as stated fails: a blank line is dropped, not kept. *)
Lemma blank_line_is_dropped :
  let text := lit "a" ++ [NL; NL] ++ lit "b" in
  Forall (fun line => is_banner (trim line) = false) (split_on NL (strip_ansi text))
  /\ cleanAmplifierOutput text = lit "a" ++ [NL] ++ lit "b"
  /\ cleanAmplifierOutput text <> collapse_newlines (strip_ansi text).
Proof.
  cbn zeta. split; [apply no_banner_check; vm_compute; reflexivity|].
  split; vm_compute; [reflexivity|discriminate].
Qed.

Lemma cleanAmplifierOutput_without_banners_witness :
  cleanAmplifierOutput colored =
    join [NL] (List.filter (fun line => negb (is_blank line))
                 (split_on NL (strip_ansi colored)))
  /\ (Forall (fun line => is_blank line = false) (split_on NL (strip_ansi colored)) ->
      cleanAmplifierOutput colored = strip_ansi colored).
Proof.
  apply (cleanAmplifierOutput_without_banners colored).
  apply no_banner_check. vm_compute. reflexivity.
Defined.

(** ** What the decoder can change *)

Section Monad.

Context {A B : Type} (P : state -> Prop).

Lemma preservesM_ret (a : A) : preservesM P (ret a).
Proof. intros s H. exact H. Qed.

Lemma preservesM_throw (e : error) : preservesM P (@throw A e).
Proof. intros s H. exact H. Qed.

Lemma preservesM_read (f : state -> A) : preservesM P (read f).
Proof. intros s H. exact H. Qed.

Lemma preservesM_effect (f : state -> state) : preserves P f -> preservesM P (effect f).
Proof. intros Hf s H. apply Hf, H. Qed.

Lemma preservesM_bind (m : M A) (k : A -> M B) :
  preservesM P m -> (forall a, preservesM P (k a)) -> preservesM P (bind m k).
Proof.
  intros Hm Hk s H. unfold bind. specialize (Hm s H).
  destruct (m s) as [[a|e] s']; simpl in *; [apply Hk, Hm|exact Hm].
Qed.

Lemma preservesM_try_catch (body : M unit) (handler : error -> M unit) :
  preservesM P body -> (forall e, preservesM P (handler e)) ->
  preservesM P (try_catch body handler).
Proof.
  intros Hb Hh s H. unfold try_catch. specialize (Hb s H).
  destruct (body s) as [[a|e] s']; simpl in *; [exact Hb|apply Hh, Hb].
Qed.


End Monad.

Section DecoderFootprint.

Variable P : state -> Prop.

Hypothesis P_timers : forall t, preserves P (clearTimeout t).
Hypothesis P_pending : forall f, preserves P (upd_pendingResponses f).
Hypothesis P_settle : forall p r, preserves P (settle p r).
Hypothesis P_cells : forall f, preserves P (upd_cells f).
Hypothesis P_reported : forall f, preserves P (upd_reported f).
Hypothesis P_isInitialized : forall f, preserves P (upd_isInitialized f).
Hypothesis P_console : forall f, preserves P (upd_console f).
Hypothesis P_buffer : forall f, preserves P (upd_responseBuffer f).

Lemma property_preserves (key : string) (response : json) :
  preservesM P (property key response).
Proof. intros s H. destruct response; exact H. Qed.

Lemma cleanAmplifierOutput_of_preserves (v : option json) :
  preservesM P (cleanAmplifierOutput_of v).
Proof. intros s H. unfold cleanAmplifierOutput_of. repeat case_match; exact H. Qed.

Lemma call_preserves (r : resolver) (response : json) :
  preservesM P (call r response).
Proof.
  destruct r; unfold call;
    repeat match goal with
      | |- preservesM _ (bind _ _) => apply preservesM_bind; [|intros ?]
      | |- preservesM _ (effect _) => apply preservesM_effect
      | |- preservesM _ (ret _) => apply preservesM_ret
      | |- preservesM _ (property _ _) => apply property_preserves
      | |- preservesM _ (cleanAmplifierOutput_of _) =>
          apply cleanAmplifierOutput_of_preserves
      | |- preservesM _ (if ?b then _ else _) => destruct b
      | |- preserves _ (clearTimeout _) => apply P_timers
      | |- preserves _ delete_current => apply P_pending
      | |- preserves _ (resolve _) => apply P_settle
      | |- preserves _ (reject _ _) => apply P_settle
      | |- preserves _ (upd_isInitialized _) => apply P_isInitialized
      | |- preserves _ (upd_cells _) => apply P_cells
      | |- preserves _ (progress_report _ _) => apply P_reported
      end.
Qed.

Lemma process_line_preserves (line : jsstring) : preservesM P (process_line line).
Proof.
  unfold process_line. destruct (is_empty (trim line)); [apply preservesM_ret|].
  apply preservesM_try_catch.
  - apply preservesM_bind.
    { intros s H. unfold JSON_parse. destruct (parse line); exact H. }
    intros response. apply preservesM_bind; [apply preservesM_effect, P_console|].
    intros _. apply preservesM_bind; [apply preservesM_read|].
    intros [r|]; [apply call_preserves|apply preservesM_ret].
  - intros e. apply preservesM_effect, P_console.
Qed.


End DecoderFootprint.

Section Decoder.

Lemma process_line_returns (line : jsstring) (s : state) :
  fst (process_line line s) = Normal tt.
Proof.
  unfold process_line. destruct (is_empty (trim line)); [reflexivity|].
  unfold try_catch.
  match goal with |- context [match ?b s with _ => _ end] => destruct (b s) as [[[]|e] s'] end;
    reflexivity.
Qed.

Lemma for_of_returns {A} (l : list A) (body : A -> M unit) (s : state) :
  (forall x s, fst (body x s) = Normal tt) -> fst (for_of l body s) = Normal tt.
Proof.
  intros Hb. revert s. induction l as [|x r IH]; intros s; [reflexivity|].
  simpl. unfold bind. specialize (Hb x s).
  destruct (body x s) as [[[]|e] s']; simpl in *; [apply IH|discriminate].
Qed.

(** Nothing thrown while a chunk is handled gets past the handler. *)
Lemma handleBridgeResponse_returns (data : Buffer) (s : state) :
  fst (handleBridgeResponse data s) = Normal tt.
Proof.
  unfold handleBridgeResponse, bind, effect, read. cbn [fst snd].
  apply for_of_returns. intros line s'. apply process_line_returns.
Qed.

Lemma process_line_buffer (line : jsstring) (s : state) :
  responseBuffer (snd (process_line line s)) = responseBuffer s.
Proof.
  apply (process_line_preserves (fun s' => responseBuffer s' = responseBuffer s));
    try reflexivity; intros; intros [] H; try exact H.
  unfold settle; cbn. repeat case_match; exact H.
Qed.

Lemma call_console (r : resolver) (response : json) (s : state) :
  console (snd (call r response s)) = console s.
Proof.
  apply (call_preserves (fun s' => console s' = console s));
    try reflexivity; intros; intros [] H; try exact H.
  unfold settle; cbn. repeat case_match; exact H.
Qed.

Lemma decoded_log (e : log_entry) (s : state) :
  decoded (log e s) =
    decoded s ++ match e with LogResponse r => [r] | _ => [] end.
Proof.
  unfold decoded, log. destruct s; simpl. rewrite omap_app.
  destruct e; reflexivity.
Qed.

Lemma process_line_decoded (line : jsstring) (s : state) :
  decoded (snd (process_line line s)) =
    decoded s ++ (if is_blank line then [] else option_list (JSON.parse line)).
Proof.
  unfold process_line, is_blank.
  destruct (is_empty (trim line)); [symmetry; apply app_nil_r|].
  unfold try_catch, bind, JSON_parse, effect, read, ret, throw.
  destruct (JSON.parse line) as [v|]; cbn [fst snd option_list].
  - destruct (pendingResponses (log (LogResponse v) s) !! "current") as [r|].
    + pose proof (call_console r v (log (LogResponse v) s)) as Hc.
      destruct (call r v (log (LogResponse v) s)) as [[[]|e] s']; cbn [fst snd] in *.
      * unfold decoded. rewrite Hc. apply (decoded_log (LogResponse v)).
      * rewrite decoded_log, app_nil_r. unfold decoded. rewrite Hc.
        apply (decoded_log (LogResponse v)).
    + apply (decoded_log (LogResponse v)).
  - rewrite decoded_log. reflexivity.
Qed.

Lemma messages_of_app (l1 l2 : list jsstring) :
  messages_of (l1 ++ l2) = messages_of l1 ++ messages_of l2.
Proof. unfold messages_of. rewrite List.filter_app, omap_app. reflexivity. Qed.

Lemma messages_of_cons (l : jsstring) (ls : list jsstring) :
  messages_of (l :: ls) =
    (if is_blank l then [] else option_list (JSON.parse l)) ++ messages_of ls.
Proof.
  unfold messages_of. simpl. destruct (is_blank l); simpl; [reflexivity|].
  destruct (JSON.parse l); reflexivity.
Qed.

Lemma for_of_process_line (lines : list jsstring) (s : state) :
  let s' := snd (for_of lines process_line s) in
  responseBuffer s' = responseBuffer s
  /\ decoded s' = decoded s ++ messages_of lines.
Proof.
  revert s. induction lines as [|l ls IH]; intros s; cbn zeta.
  - split; [reflexivity|]. symmetry. apply app_nil_r.
  - simpl. unfold bind.
    pose proof (process_line_returns l s) as Hr.
    pose proof (process_line_buffer l s) as Hb.
    pose proof (process_line_decoded l s) as Hd.
    destruct (process_line l s) as [[[]|e] s1]; cbn [fst snd] in *; [|discriminate].
    destruct (IH s1) as [IHb IHd]. split.
    + rewrite IHb. exact Hb.
    + rewrite IHd, Hd, messages_of_cons, app_assoc. reflexivity.
Qed.

(** What one chunk does to the buffer and to the log of decoded messages. *)
Lemma handleBridgeResponse_spec (data : Buffer) (s : state) :
  let lines := split_on NL (responseBuffer s ++ toString data) in
  let s' := snd (handleBridgeResponse data s) in
  responseBuffer s' = default [] (last lines)
  /\ decoded s' = decoded s ++ messages_of (removelast lines).
Proof.
  cbn zeta. unfold handleBridgeResponse, bind, effect, read. cbn [fst snd].
  match goal with
  | |- context [for_of ?ls process_line ?s0] =>
      destruct (for_of_process_line ls s0) as [Hb Hd]
  end.
  cbn zeta in Hb, Hd. rewrite Hb, Hd. destruct s; split; reflexivity.
Qed.

(** The buffer kept is the last piece of a split. *)
Lemma buffer_without_newline (data : Buffer) (s : state) :
  ~ In NL (responseBuffer (snd (handleBridgeResponse data s))).
Proof.
  destruct (handleBridgeResponse_spec data s) as [Hb _]. cbn zeta in Hb.
  rewrite Hb.
  pose proof (split_on_no_sep NL (responseBuffer s ++ toString data)) as Hall.
  destruct (last (split_on NL (responseBuffer s ++ toString data))) as [l|] eqn:E;
    [|intros []].
  simpl. rewrite List.Forall_forall in Hall. apply Hall.
  apply list_elem_of_In. eapply last_Some_elem_of. exact E.
Qed.

End Decoder.

(** C8: after the decoder has handled a chunk, whatever the chunk and the
    state before, the retained buffer contains no newline. *)
Theorem responseBuffer_has_no_newline (data : Buffer) (s : state) :
  ~ In NL (responseBuffer (snd (handleBridgeResponse data s))).
Proof. apply buffer_without_newline. Qed.

(** ** Chunks *)

Section Chunks.

Lemma decode_from_app (d : decoder) (a b : Buffer) :
  decode_from d (a ++ b) = emitted d a ++ decode_from (final_state d a) b.
Proof.
  revert d. induction a as [|x a IH]; intros d; [reflexivity|].
  simpl. destruct (feed d (Z.of_N (Byte.to_N x))) as [d' out]. simpl.
  rewrite IH, app_assoc. reflexivity.
Qed.

Lemma decode_from_emitted (d : decoder) (a : Buffer) :
  bytes_needed (final_state d a) = 0 -> decode_from d a = emitted d a.
Proof.
  intros H. rewrite <- (app_nil_r a) at 1. rewrite decode_from_app.
  simpl. rewrite H. simpl. apply app_nil_r.
Qed.

Lemma decode_from_idle (d : decoder) (b : Buffer) :
  bytes_needed d = 0 -> decode_from d b = decode_from idle b.
Proof.
  intros H. destruct b as [|x r]; simpl.
  - rewrite H. reflexivity.
  - unfold feed. rewrite H. reflexivity.
Qed.

(** A chunk boundary between two characters does not show in the text. *)
Lemma toString_app (a b : Buffer) :
  ends_complete a = true -> toString (a ++ b) = toString a ++ toString b.
Proof.
  unfold ends_complete, toString. intros H. apply Z.eqb_eq in H.
  rewrite decode_from_app, (decode_from_emitted _ _ H).
  f_equal. apply decode_from_idle. exact H.
Qed.

Lemma complete_lines_app (b t1 t2 : jsstring) :
  let lines1 := split_on NL (b ++ t1) in
  let lines2 := split_on NL (default [] (last lines1) ++ t2) in
  removelast (split_on NL (b ++ t1 ++ t2)) = removelast lines1 ++ removelast lines2
  /\ last (split_on NL (b ++ t1 ++ t2)) = last lines2.
Proof.
  cbn zeta. rewrite app_assoc, split_on_app.
  pose proof (split_on_nonempty NL (default [] (last (split_on NL (b ++ t1))) ++ t2)) as Hne.
  split.
  - apply removelast_app. exact Hne.
  - rewrite last_app.
    destruct (last (split_on NL (default [] (last (split_on NL (b ++ t1))) ++ t2))) eqn:E;
      [reflexivity|].
    apply last_None in E. congruence.
Qed.

Lemma handleBridgeResponse_app (a b : Buffer) (s : state) :
  ends_complete a = true ->
  let whole := snd (handleBridgeResponse (a ++ b) s) in
  let parts := snd (handleBridgeResponse b (snd (handleBridgeResponse a s))) in
  decoded parts = decoded whole /\ responseBuffer parts = responseBuffer whole.
Proof.
  intros Ha. cbn zeta.
  destruct (handleBridgeResponse_spec (a ++ b) s) as [Wb Wd].
  destruct (handleBridgeResponse_spec a s) as [Ab Ad].
  destruct (handleBridgeResponse_spec b (snd (handleBridgeResponse a s))) as [Bb Bd].
  cbn zeta in *. rewrite Bb, Bd, Wb, Wd, Ab, Ad, (toString_app _ _ Ha).
  destruct (complete_lines_app (responseBuffer s) (toString a) (toString b)) as [Hl Ht].
  cbn zeta in Hl, Ht. rewrite Hl, Ht, messages_of_app, app_assoc. split; reflexivity.
Qed.

(** The chunks of a stream cut between characters decode to what the
    stream decodes to in one piece. *)
Lemma chunking_invariance (chunks : list Buffer) (s : state) :
  ~ In NL (responseBuffer s) ->
  Forall (fun chunk => ends_complete chunk = true) chunks ->
  let whole := snd (handleBridgeResponse (concat chunks) s) in
  let parts := feed_chunks chunks s in
  decoded parts = decoded whole /\ responseBuffer parts = responseBuffer whole.
Proof.
  cbn zeta. revert s. induction chunks as [|c cs IH]; intros s Hs Hall.
  - simpl. destruct (handleBridgeResponse_spec [] s) as [Wb Wd]. cbn zeta in *.
    rewrite Wb, Wd. change (toString []) with (@nil Z). rewrite app_nil_r.
    rewrite (split_on_no_sep_id NL _ Hs). simpl.
    unfold messages_of. simpl. rewrite app_nil_r. split; reflexivity.
  - inversion Hall as [|? ? Hc Hcs]; subst.
    change (feed_chunks (c :: cs) s)
      with (feed_chunks cs (snd (handleBridgeResponse c s))).
    change (concat (c :: cs)) with (c ++ concat cs).
    destruct (IH (snd (handleBridgeResponse c s))
                (buffer_without_newline c s) Hcs) as [IHd IHb].
    rewrite IHd, IHb. apply handleBridgeResponse_app. exact Hc.
Qed.

End Chunks.

(** C4 fails on a chunk boundary inside a character: each chunk is turned
    into text on its own, and the two halves of the character become two
    replacement characters. *)
Theorem chunk_boundary_inside_character :
  let whole := run [StdoutData (accent_head ++ accent_tail)] executing in
  let parts := run [StdoutData accent_head; StdoutData accent_tail] executing in
  decoded whole = decoded executing ++ [response_with [233]]
  /\ decoded parts = decoded executing ++ [response_with [65533; 65533]]
  /\ reported whole = reported executing ++ [(7%nat, Chunk [233])]
  /\ reported parts = reported executing ++ [(7%nat, Chunk [65533; 65533])]
  /\ decoded (feed_chunks [accent_head; accent_tail] start)
     <> decoded (snd (handleBridgeResponse (concat [accent_head; accent_tail]) start)).
Proof. vm_compute. repeat split. discriminate. Qed.

Section BlankLines.

Lemma drop_while_nil (p : Z -> bool) (s : jsstring) :
  drop_while p s = [] -> forallb p s = true.
Proof.
  induction s as [|c r IH]; [reflexivity|]. simpl.
  destruct (p c); [exact IH|discriminate].
Qed.

Lemma drop_while_head (p : Z -> bool) (s : jsstring) :
  match drop_while p s with c :: _ => p c = false | [] => True end.
Proof.
  induction s as [|c r IH]; [exact I|]. simpl.
  destruct (p c) eqn:E; [exact IH|exact E].
Qed.

Lemma drop_while_forallb (p q : Z -> bool) (s : jsstring) :
  forallb q s = true -> forallb q (drop_while p s) = true.
Proof.
  induction s as [|c r IH]; [reflexivity|]. simpl. intros H.
  apply andb_true_iff in H as [Hc Hr].
  destruct (p c); [apply IH, Hr|]. simpl. rewrite Hc, Hr. reflexivity.
Qed.

Lemma blank_all_ws (l : jsstring) : is_blank l = true -> forallb is_ws l = true.
Proof.
  unfold is_blank, trim, trimEnd, trimStart. intros H.
  destruct (rev (drop_while is_ws (rev (drop_while is_ws l)))) eqn:E; [|discriminate].
  apply (f_equal (@rev Z)) in E. rewrite rev_involutive in E. simpl in E.
  apply drop_while_nil in E.
  pose proof (drop_while_head is_ws l) as Hh.
  destruct (drop_while is_ws l) as [|c r] eqn:Ed; [apply drop_while_nil, Ed|].
  exfalso. rewrite forallb_forall in E.
  assert (is_ws c = true) as Hc.
  { apply E. apply in_rev. rewrite rev_involutive. left. reflexivity. }
  congruence.
Qed.

Lemma is_ws_cases (c : Z) :
  is_ws c = true -> is_json_ws c = false ->
  In c [11; 12; 160; 5760; 8192; 8193; 8194; 8195; 8196; 8197; 8198; 8199; 8200;
        8201; 8202; 8232; 8233; 8239; 8287; 12288; 65279].
Proof.
  unfold is_ws, is_json_ws. intros H J.
  repeat (apply orb_false_iff in J as [J ?]).
  repeat match goal with H : (_ =? _) = false |- _ => apply Z.eqb_neq in H end.
  repeat (apply orb_true_iff in H as [H|H]);
    try (apply andb_true_iff in H as [H1 H2]; apply Z.leb_le in H1, H2);
    try apply Z.eqb_eq in H; simpl; lia.
Qed.

(** A line of whitespace is no JSON text. *)
Lemma parse_blank (l : jsstring) : is_blank l = true -> JSON.parse l = None.
Proof.
  intros H. apply blank_all_ws in H. unfold JSON.parse, skip_ws.
  replace (2 * length l + 2)%nat with (S (2 * length l + 1)) by lia.
  pose proof (drop_while_head is_json_ws l) as Hh.
  pose proof (drop_while_forallb is_json_ws is_ws l H) as Hw.
  destruct (drop_while is_json_ws l) as [|c r]; [reflexivity|].
  simpl in Hw. apply andb_true_iff in Hw as [Hc _].
  pose proof (is_ws_cases c Hc Hh) as Hin.
  assert (forall f, parse_value (S f) (c :: r) = None) as Hp.
  { intros f. simpl in Hin.
    repeat (destruct Hin as [<-|Hin]; [reflexivity|]). destruct Hin. }
  rewrite Hp. reflexivity.
Qed.

End BlankLines.

Section Malformed.

Lemma split_on_text_of_lines (lines : list jsstring) :
  Forall (fun l => ~ In NL l) lines ->
  split_on NL (text_of_lines lines) = lines ++ [[]].
Proof.
  induction lines as [|l ls IH]; intros Hall; [reflexivity|].
  inversion Hall as [|? ? Hl Hls]; subst.
  unfold text_of_lines. simpl. rewrite <- app_assoc. simpl.
  rewrite (split_on_line NL _ _ Hl). f_equal. apply IH, Hls.
Qed.

Lemma messages_of_valid (lines : list jsstring) (values : list json) :
  Forall2 (fun l v => ~ In NL l /\ JSON.parse l = Some v) lines values ->
  messages_of lines = values /\ Forall (fun l => ~ In NL l) lines.
Proof.
  induction 1 as [|l v ls vs [Hl Hp] _ [IH1 IH2]]; [split; [reflexivity|constructor]|].
  split; [|constructor; assumption].
  rewrite messages_of_cons, IH1, Hp.
  destruct (is_blank l) eqn:Eb; [|reflexivity].
  rewrite (parse_blank l Eb) in Hp. discriminate.
Qed.

End Malformed.

(** C6: a malformed line between valid lines is skipped, the valid lines
    are decoded, and the handler returns. *)
Theorem malformed_line_is_skipped
    (before after : list jsstring) (bad : jsstring)
    (values_before values_after : list json) (data : Buffer) (s : state) :
  responseBuffer s = [] ->
  toString data = text_of_lines (before ++ bad :: after) ->
  Forall2 (fun l v => ~ In NL l /\ JSON.parse l = Some v) before values_before ->
  Forall2 (fun l v => ~ In NL l /\ JSON.parse l = Some v) after values_after ->
  ~ In NL bad ->
  JSON.parse bad = None ->
  fst (handleBridgeResponse data s) = Normal tt
  /\ decoded (snd (handleBridgeResponse data s)) =
       decoded s ++ values_before ++ values_after
  /\ responseBuffer (snd (handleBridgeResponse data s)) = [].
Proof.
  intros Hbuf Htext Hbefore Hafter Hbad Hparse.
  split; [apply handleBridgeResponse_returns|].
  destruct (handleBridgeResponse_spec data s) as [Hb Hd]. cbn zeta in Hb, Hd.
  destruct (messages_of_valid _ _ Hbefore) as [Mb Fb].
  destruct (messages_of_valid _ _ Hafter) as [Ma Fa].
  rewrite Hbuf, Htext in Hb, Hd. simpl in Hb, Hd.
  rewrite split_on_text_of_lines in Hb, Hd
    by (apply Forall_app; split; [exact Fb|constructor; [exact Hbad|exact Fa]]).
  rewrite removelast_last in Hd. rewrite last_snoc in Hb.
  split; [|exact Hb].
  rewrite Hd, messages_of_app, messages_of_cons, Mb, Ma, Hparse.
  destruct (is_blank bad); reflexivity.
Qed.

Lemma no_newline_check (l : jsstring) :
  forallb (fun c => negb (c =? NL)) l = true -> ~ In NL l.
Proof.
  intros H Hin. rewrite forallb_forall in H. specialize (H NL Hin).
  rewrite Z.eqb_refl in H. discriminate.
Qed.

Lemma malformed_line_is_skipped_witness :
  let data :=
    json_line "{'type':'response','content':'a'}" ++ json_line "not json"
    ++ json_line "{'type':'done'}" in
  fst (handleBridgeResponse data start) = Normal tt
  /\ decoded (snd (handleBridgeResponse data start)) =
       decoded start ++ [response_with (lit "a")]
       ++ [JObject [(lit "type", JString (lit "done"))]]
  /\ responseBuffer (snd (handleBridgeResponse data start)) = [].
Proof.
  apply (malformed_line_is_skipped
           [json_text "{'type':'response','content':'a'}"]
           [json_text "{'type':'done'}"]
           (json_text "not json")).
  - reflexivity.
  - vm_compute. reflexivity.
  - constructor; [|constructor].
    split; [apply no_newline_check|]; vm_compute; reflexivity.
  - constructor; [|constructor].
    split; [apply no_newline_check|]; vm_compute; reflexivity.
  - apply no_newline_check. vm_compute. reflexivity.
  - vm_compute. reflexivity.
Defined.

(** ** The bridge calls and the event loop *)

Lemma executeOnBridge_effect (prompt : jsstring) (progress token : nat) (s : state) :
  fst (executeOnBridge prompt progress token s) = next_handle s
  /\ exec_effect prompt progress token s (snd (executeOnBridge prompt progress token s)).
Proof.
  unfold executeOnBridge, has_stdin. unfold_runtime. simpl_state.
  destruct (decide (token ∈ cancelled s)) as [Hc|Hc]; unfold_runtime; simpl_state;
    destruct (bridgeProcess s) as [[pid0 []]|] eqn:Hs;
    simpl_state; simpl_lookups; simpl_state.
  all: split; [reflexivity|].
  all: constructor; unfold has_stdin; simpl_state; rewrite ?Hs; simpl_state;
    rewrite ?app_nil_r; try reflexivity; try lia.
  all: try apply insert_insert_eq.
  all: destruct (decide (token ∈ cancelled s));
    first [reflexivity | contradiction].
Qed.

Section Continuations.

Lemma status_fresh_promise (prompt : jsstring) (progress token : nat) (s : state) :
  let r := executeOnBridge prompt progress token s in
  promises (snd r) !! fst r =
    Some (if has_stdin s then Pending
          else Rejected (Error "Bridge stdin not available")).
Proof.
  cbn zeta. destruct (executeOnBridge_effect prompt progress token s) as [-> E].
  rewrite (exec_promises _ _ _ _ _ E). apply lookup_insert_eq.
Qed.

(** Issued while the child has a stdin and the token is not cancelled, an
    execute call is in flight and its cancellation listener is in place. *)
Lemma executeOnBridge_issued (prompt : jsstring) (progress token : nat) (s : state) :
  has_stdin s = true -> token ∉ cancelled s -> microtasks s = [] ->
  let p := next_handle s in
  let s' := snd (executeOnBridge prompt progress token s) in
  execute_pending p (S (S p)) (S p) progress false s'
  /\ In (token, ExecCancel p (S (S p))) (listeners s').
Proof.
  intros Hs Hc Hm. cbn zeta.
  destruct (executeOnBridge_effect prompt progress token s) as [_ E].
  split; [constructor|].
  - rewrite (exec_pendingResponses _ _ _ _ _ E). apply lookup_insert_eq.
  - rewrite (exec_timers _ _ _ _ _ E).
    destruct (decide (token ∈ cancelled s)); [contradiction|apply lookup_insert_eq].
  - rewrite (exec_promises _ _ _ _ _ E), Hs. apply lookup_insert_eq.
  - rewrite (exec_cells _ _ _ _ _ E). apply lookup_insert_eq.
  - rewrite (exec_microtasks _ _ _ _ _ E). exact Hm.
  - apply (exec_next_handle _ _ _ _ _ E).
  - rewrite (exec_listeners _ _ _ _ _ E).
    destruct (decide (token ∈ cancelled s)); [contradiction|].
    apply in_or_app. right. left. reflexivity.
Qed.

(** Resuming a continuation makes ready at most the tail of the same
    request, and leaves the promises made before alone. *)
Lemma resume_effect (k : continuation) (o : outcome) (s : state) :
  (exists extra, microtasks (resume k o s) = microtasks s ++ extra
                 /\ Forall is_AfterExecute extra)
  /\ (next_handle s <= next_handle (resume k o s))%nat
  /\ (forall p, (p < next_handle s)%nat ->
        promises (resume k o s) !! p = promises s !! p).
Proof.
  destruct o as [|e].
  2:{ unfold resume, progress_report. simpl_state.
      split; [exists []; rewrite app_nil_r; split; [reflexivity|constructor]|].
      split; [lia|reflexivity]. }
  destruct k as [q g tok|g].
  2:{ simpl. split; [exists []; rewrite app_nil_r; split; [reflexivity|constructor]|].
      split; [lia|reflexivity]. }
  unfold resume.
  pose proof (status_fresh_promise q g tok s) as Hst. cbn zeta in Hst.
  destruct (executeOnBridge_effect q g tok s) as [Hp E].
  destruct (executeOnBridge q g tok s) as [p s1]. cbn [fst snd] in *. subst p.
  unfold await. rewrite Hst.
  destruct (has_stdin s); simpl_state.
  - split; [exists []; rewrite app_nil_r; split; [apply E|constructor]|].
    split; [pose proof (exec_next_handle _ _ _ _ _ E); lia|].
    intros p Hlt. rewrite (exec_promises _ _ _ _ _ E).
    apply lookup_insert_ne. lia.
  - split.
    + eexists. split; [rewrite (exec_microtasks _ _ _ _ _ E); reflexivity|].
      constructor; [exact I|constructor].
    + split; [pose proof (exec_next_handle _ _ _ _ _ E); lia|].
      intros p Hlt. rewrite (exec_promises _ _ _ _ _ E).
      apply lookup_insert_ne. lia.
Qed.

Lemma resume_all_effect (q : list (continuation * outcome)) (s : state) :
  let s' := fold_left (fun s m => resume (fst m) (snd m) s) q s in
  (exists extra, microtasks s' = microtasks s ++ extra
                 /\ Forall is_AfterExecute extra)
  /\ (next_handle s <= next_handle s')%nat
  /\ (forall p, (p < next_handle s)%nat -> promises s' !! p = promises s !! p).
Proof.
  cbn zeta. revert s. induction q as [|[k o] q IH]; intros s.
  - simpl. split; [exists []; rewrite app_nil_r; split; [reflexivity|constructor]|].
    split; [lia|reflexivity].
  - simpl.
    destruct (resume_effect k o s) as [[x1 [M1 F1]] [N1 P1]].
    destruct (IH (resume k o s)) as [[x2 [M2 F2]] [N2 P2]].
    split; [|split].
    + exists (x1 ++ x2). rewrite M2, M1, app_assoc. split; [reflexivity|].
      apply Forall_app; split; assumption.
    + lia.
    + intros p Hlt. rewrite P2 by lia. apply P1, Hlt.
Qed.






Lemma flush_idle (s : state) : microtasks s = [] -> flush s = s.
Proof. unfold flush. intros H. rewrite H. destruct s; simpl in *. subst. reflexivity. Qed.

Lemma drain_idle (s : state) : microtasks s = [] -> drain s = s.
Proof. intros H. unfold drain. rewrite (flush_idle s H). apply flush_idle, H. Qed.

(** The promises made before a turn are settled by its handler only. *)
Lemma drain_status (s : state) (p : nat) :
  (p < next_handle s)%nat -> status (drain s) p = status s p.
Proof.
  intros Hlt. unfold drain, status.
  assert (forall s0, (p < next_handle s0)%nat ->
            promises (flush s0) !! p = promises s0 !! p
            /\ (p < next_handle (flush s0))%nat) as Hflush.
  { intros s0 H0. unfold flush.
    destruct (resume_all_effect (microtasks s0) (upd_microtasks (fun _ => []) s0))
      as [_ [N P]]. cbn zeta in N, P. simpl_state.
    split; [apply P, H0|lia]. }
  destruct (Hflush s Hlt) as [H1 H2].
  destruct (Hflush (flush s) H2) as [H3 _]. rewrite H3. exact H1.
Qed.

End Continuations.

Section Timeouts.

Lemma handle_timer_next_handle (t : nat) (s : state) (p c : nat) :
  timers s !! t = Some (ExecTimeout p c) ->
  next_handle (handle (TimerFired t) s) = next_handle s.
Proof.
  intros H. unfold handle. rewrite H. unfold run_timer. simpl_state.
  destruct (default false (cells s !! c)); [reflexivity|].
  unfold reject, settle. simpl_state.
  destruct (promises s !! p) as [[| |]|]; try reflexivity.
  destruct (waiters s !! p); reflexivity.
Qed.

End Timeouts.

(** What the timer of an execute call does when it elapses. *)
Lemma execute_timer_fires (s : state) (t p c : nat) :
  timers s !! t = Some (ExecTimeout p c) ->
  status s p = Some Pending ->
  (p < next_handle s)%nat ->
  status (dispatch (TimerFired t) s) p =
    Some (if default false (cells s !! c) then Pending
          else Rejected (Error "Bridge execution timeout")).
Proof.
  intros Ht Hp Hlt. unfold dispatch.
  rewrite drain_status by (rewrite (handle_timer_next_handle t s p c Ht); exact Hlt).
  unfold status in *. unfold handle. rewrite Ht. unfold run_timer. simpl_state.
  destruct (default false (cells s !! c)); [exact Hp|].
  unfold reject, settle. simpl_state. rewrite Hp.
  destruct (waiters s !! p); simpl_state; apply lookup_insert_eq.
Qed.

Section Cells.

(** [hasReceivedResponse] becomes true exactly on a partial response. *)
Lemma hasReceivedResponse_set (p t c g : nat) (response : json) (s : state) :
  response <> JNull ->
  cells (snd (call (ExecCallback p t c g) response s)) !! c =
    if is_string "response" (type_of response) then Some true else cells s !! c.
Proof.
  intros Hnn. unfold call.
  assert (property "type" response s = (Normal (type_of response), s)) as Hty.
  { destruct response; try reflexivity. congruence. }
  unfold bind at 1. rewrite Hty.
  destruct (is_string "response" (type_of response)).
  - unfold bind, effect. simpl_state.
    match goal with |- context [property "content" response ?s0] =>
      destruct (property "content" response s0) as [[content|e] s1] eqn:E end.
    + assert (s1 = upd_cells <[c:=true]> s) as ->.
      { destruct response; unfold property, ret, throw in E; congruence. }
      unfold cleanAmplifierOutput_of.
      destruct content as [[]|]; unfold throw, ret; simpl_state;
        try apply lookup_insert_eq.
      destruct (is_empty (trim (cleanAmplifierOutput s0))); unfold progress_report;
        simpl_state; apply lookup_insert_eq.
    + destruct response; unfold property, ret, throw in E; congruence.
  - destruct (is_string "error" (type_of response)).
    + unfold bind, effect, clearTimeout, delete_current. simpl_state.
      match goal with |- context [property "error" response ?s0] =>
        destruct (property "error" response s0) as [[err|e] s1] eqn:E end.
      * assert (cells s1 = cells s) as Hc.
        { destruct response; unfold property, ret, throw in E; inversion E;
            reflexivity. }
        unfold reject, settle. simpl_state.
        destruct (promises s1 !! p) as [[| |]|]; simpl_state; rewrite ?Hc; try reflexivity.
        destruct (waiters s1 !! p); simpl_state; rewrite Hc; reflexivity.
      * destruct response; unfold property, ret, throw in E; congruence.
    + destruct (is_string "done" (type_of response)); [|reflexivity].
      unfold bind, effect, clearTimeout, delete_current, resolve, settle. simpl_state.
      destruct (promises s !! p) as [[| |]|]; simpl_state; try reflexivity.
      destruct (waiters s !! p); reflexivity.
Qed.

End Cells.

Section Window.

Variables p t c g : nat.

(** A message that is not terminal leaves the call as it is, but for
    [hasReceivedResponse] and the chunk reported. *)
Lemma call_nonterminal (response : json) (s : state) :
  is_terminal response = false ->
  let s' := snd (call (ExecCallback p t c g) response s) in
  (is_partial_response response = false /\ s' = s)
  \/ (is_partial_response response = true
      /\ (s' = upd_cells <[c:=true]> s
          \/ exists cleaned,
               s' = progress_report g (Chunk cleaned) (upd_cells <[c:=true]> s))).
Proof.
  unfold is_terminal, is_partial_response. intros Ht. cbn zeta.
  apply orb_false_iff in Ht as [He Hd].
  remember (snd (call (ExecCallback p t c g) response s)) as s' eqn:Hs'.
  unfold call in Hs'.
  assert (response = JNull \/ response <> JNull) as [->|Hnn]
    by (destruct response; [left; reflexivity|right; discriminate..]).
  { left. split; [reflexivity|exact Hs']. }
  assert (property "type" response s = (Normal (type_of response), s)) as Hty.
  { destruct response; try reflexivity. congruence. }
  unfold bind at 1 in Hs'. rewrite Hty in Hs'.
  destruct (is_string "response" (type_of response)).
  - right. split; [reflexivity|]. unfold bind, effect in Hs'. simpl_state.
    assert (property "content" response (upd_cells <[c:=true]> s)
            = (Normal (match response with
                       | JObject fs => field (lit "content") fs
                       | _ => None
                       end), upd_cells <[c:=true]> s)) as Hco.
    { destruct response; try reflexivity. congruence. }
    rewrite Hco in Hs'. unfold cleanAmplifierOutput_of in Hs'.
    destruct (match response with JObject fs => field (lit "content") fs | _ => None end)
      as [[]|]; unfold throw, ret in Hs'; simpl_state; try (left; exact Hs').
    destruct (is_empty (trim (cleanAmplifierOutput s0)));
      [left; exact Hs'|right; eexists; exact Hs'].
  - rewrite He, Hd in Hs'. left. split; [reflexivity|exact Hs'].
Qed.

Lemma pending_call (received : bool) (response : json) (s : state) :
  is_terminal response = false ->
  execute_pending p t c g received s ->
  execute_pending p t c g (received || is_partial_response response)
    (snd (call (ExecCallback p t c g) response s))
  /\ console (snd (call (ExecCallback p t c g) response s)) = console s.
Proof.
  intros Ht [H1 H2 H3 H4 H5 H6].
  destruct (call_nonterminal response s Ht) as [[Hp ->]|[Hp [->| [cleaned ->]]]];
    rewrite Hp.
  - rewrite orb_false_r. split; [constructor; assumption|reflexivity].
  - rewrite orb_true_r. split; [|reflexivity].
    constructor; simpl_state; try assumption. apply lookup_insert_eq.
  - rewrite orb_true_r. split; [|reflexivity].
    constructor; unfold progress_report; simpl_state; try assumption.
    apply lookup_insert_eq.
Qed.

Lemma pending_log (received : bool) (e : log_entry) (s : state) :
  execute_pending p t c g received s -> execute_pending p t c g received (log e s).
Proof. intros [H1 H2 H3 H4 H5 H6]. constructor; assumption. Qed.

Lemma pending_process_line (received : bool) (line : jsstring) (s : state) :
  let arrived := if is_blank line then [] else option_list (JSON.parse line) in
  Forall (fun m => is_terminal m = false) arrived ->
  execute_pending p t c g received s ->
  execute_pending p t c g (received || existsb is_partial_response arrived)
    (snd (process_line line s)).
Proof.
  cbn zeta. unfold process_line, is_blank. intros Hall K.
  destruct (is_empty (trim line)); [simpl; rewrite orb_false_r; exact K|].
  unfold try_catch, bind, JSON_parse, effect, read, ret, throw.
  destruct (JSON.parse line) as [v|].
  2:{ change (option_list None) with (@nil json). cbn [fst snd existsb].
      rewrite orb_false_r. apply pending_log, K. }
  change (option_list (Some v)) with [v] in *. cbn [fst snd existsb].
  rewrite orb_false_r. inversion Hall as [|? ? Hv _]; subst.
  change (pendingResponses (log (LogResponse v) s)) with (pendingResponses s).
  rewrite (pending_slot _ _ _ _ _ _ K).
  destruct (pending_call received v (log (LogResponse v) s) Hv (pending_log _ _ _ K))
    as [K' _].
  destruct (call (ExecCallback p t c g) v (log (LogResponse v) s)) as [[[]|e] s'];
    cbn [fst snd] in *; [exact K'|apply pending_log, K'].
Qed.

Lemma pending_for_of (lines : list jsstring) (received : bool) (s : state) :
  Forall (fun m => is_terminal m = false) (messages_of lines) ->
  execute_pending p t c g received s ->
  execute_pending p t c g (received || existsb is_partial_response (messages_of lines))
    (snd (for_of lines process_line s)).
Proof.
  revert received s. induction lines as [|l ls IH]; intros received s Hall K.
  - simpl. rewrite orb_false_r. exact K.
  - rewrite messages_of_cons in *. apply Forall_app in Hall as [Hl Hls].
    simpl. unfold bind.
    pose proof (process_line_returns l s) as Hr.
    pose proof (pending_process_line received l s Hl K) as K1.
    destruct (process_line l s) as [[[]|e] s1]; cbn [fst snd] in *; [|discriminate].
    rewrite existsb_app, orb_assoc. apply IH; assumption.
Qed.

Lemma pending_dispatch (data : Buffer) (received : bool) (s : state) :
  let arrived :=
    messages_of (removelast (split_on NL (responseBuffer s ++ toString data))) in
  Forall (fun m => is_terminal m = false) arrived ->
  execute_pending p t c g received s ->
  execute_pending p t c g (received || existsb is_partial_response arrived)
    (dispatch (StdoutData data) s).
Proof.
  cbn zeta. intros Hall K. unfold dispatch.
  assert (execute_pending p t c g
            (received || existsb is_partial_response
               (messages_of (removelast (split_on NL (responseBuffer s ++ toString data)))))
            (handle (StdoutData data) s)) as K'.
  { unfold handle, handleBridgeResponse, bind, effect, read. cbn [fst snd].
    apply pending_for_of; [exact Hall|].
    destruct K as [H1 H2 H3 H4 H5 H6]. constructor; assumption. }
  rewrite drain_idle; [exact K'|apply K'].
Qed.

(** While no terminal message arrives the call stays in flight, and
    [hasReceivedResponse] tells whether a partial response has arrived. *)
Lemma pending_run (chunks : list Buffer) (received : bool) (s : state) :
  Forall (fun m => is_terminal m = false) (arrivals chunks s) ->
  execute_pending p t c g received s ->
  execute_pending p t c g
    (received || existsb is_partial_response (arrivals chunks s))
    (run (map StdoutData chunks) s).
Proof.
  revert received s. induction chunks as [|data rest IH]; intros received s Hall K.
  - simpl. rewrite orb_false_r. exact K.
  - cbn [arrivals] in *. apply Forall_app in Hall as [H1 H2].
    change (run (map StdoutData (data :: rest)) s)
      with (run (map StdoutData rest) (dispatch (StdoutData data) s)).
    rewrite existsb_app, orb_assoc. apply IH; [exact H2|].
    apply pending_dispatch; assumption.
Qed.

End Window.

Section Arrivals.

Lemma resume_console (k : continuation) (o : outcome) (s : state) :
  console (resume k o s) = console s.
Proof.
  destruct o as [|e]; [|reflexivity].
  destruct k as [q g tok|g]; [|reflexivity].
  unfold resume.
  destruct (executeOnBridge_effect q g tok s) as [_ E].
  destruct (executeOnBridge q g tok s) as [p1 s1]. cbn [snd] in E.
  unfold await. rewrite <- (exec_console _ _ _ _ _ E).
  destruct (promises s1 !! p1) as [[| |]|]; reflexivity.
Qed.

Lemma flush_console (s : state) : console (flush s) = console s.
Proof.
  unfold flush.
  assert (forall q s0, console (fold_left (fun s m => resume (fst m) (snd m) s) q s0)
                       = console s0) as Hfold.
  { induction q as [|m q IH]; intros s0; [reflexivity|].
    simpl. rewrite IH. apply resume_console. }
  rewrite Hfold. reflexivity.
Qed.

Lemma dispatch_data_decoded (data : Buffer) (s : state) :
  decoded (dispatch (StdoutData data) s) =
    decoded s
    ++ messages_of (removelast (split_on NL (responseBuffer s ++ toString data))).
Proof.
  destruct (handleBridgeResponse_spec data s) as [_ Hd]. cbn zeta in Hd.
  rewrite <- Hd. unfold dispatch, drain, decoded.
  rewrite !flush_console. reflexivity.
Qed.

(** The log of decoded messages grows by the arrivals. *)
Lemma run_data_decoded (chunks : list Buffer) (s : state) :
  decoded (run (map StdoutData chunks) s) = decoded s ++ arrivals chunks s.
Proof.
  revert s. induction chunks as [|data rest IH]; intros s.
  - simpl. symmetry. apply app_nil_r.
  - change (run (map StdoutData (data :: rest)) s)
      with (run (map StdoutData rest) (dispatch (StdoutData data) s)).
    rewrite IH, dispatch_data_decoded. cbn [arrivals]. symmetry. apply app_assoc.
Qed.

End Arrivals.

(** C1, as amended: an execute call is in flight and the messages
    [arrived] are decoded before its timer elapses, none of them terminal.
    If none of them is a partial response the call is rejected with the
    timeout error; if one is, the elapsed timer does nothing and the call
    stays pending. *)
Theorem execute_timeout (s : state) (p t c g : nat) (chunks : list Buffer)
    (arrived : list json) :
  execute_pending p t c g false s ->
  decoded (run (map StdoutData chunks) s) = decoded s ++ arrived ->
  Forall (fun m => is_terminal m = false) arrived ->
  status (dispatch (TimerFired t) (run (map StdoutData chunks) s)) p =
    Some (if existsb is_partial_response arrived then Pending
          else Rejected (Error "Bridge execution timeout")).
Proof.
  intros K Hd Hall.
  rewrite run_data_decoded in Hd. apply app_inv_head in Hd. subst arrived.
  pose proof (pending_run p t c g chunks false s Hall K) as K'.
  rewrite (execute_timer_fires _ t p c);
    [|apply K'|apply K'|apply K'].
  rewrite (pending_cell _ _ _ _ _ _ K'). reflexivity.
Qed.

Lemma execute_timeout_witness :
  status (dispatch (TimerFired 5) (run (map StdoutData [hello]) executing)) 3 =
    Some Pending.
Proof.
  apply (execute_timeout executing 3 5 4 7 [hello] [response_with (lit "Hello")]).
  - constructor; try reflexivity. vm_compute. lia.
  - vm_compute. reflexivity.
  - constructor; [vm_compute; reflexivity|constructor].
Defined.

(** C1 as stated fails: a partial response disarms the timeout. *)
Lemma execute_timeout_after_partial_response :
  let s := run [StdoutData hello; TimerFired 5] executing in
  slot executing = Some (ExecCallback 3 5 4 7)
  /\ timers executing !! 5%nat = Some (ExecTimeout 3 4)
  /\ status s 3 = Some Pending
  /\ ~ (exists e, status s 3 = Some (Rejected e)).
Proof.
  vm_compute. repeat split; intros [e H]; discriminate.
Qed.

(** C2 fails on the timeout paths: the call is rejected and its callback
    stays in the slot. *)
Theorem timeout_leaves_slot_occupied :
  (let s := run [TimerFired 5] executing in
   status s 3 = Some (Rejected (Error "Bridge execution timeout"))
   /\ slot s = Some (ExecCallback 3 5 4 7))
  /\ (let s := run [TimerFired 2] initializing in
      status s 1 =
        Some (Rejected
                (Error "Bridge initialization timeout - try again or check connection"))
      /\ slot s = Some (InitCallback 1 2)).
Proof. vm_compute. repeat split. Qed.

Section SiblingPaths.

(** The other two ways an execute call fails do clear the slot. *)
Lemma worker_error_clears_slot :
  let s := run [StdoutData (json_line "{'type':'error','error':'model unavailable'}")]
             executing in
  status s 3 = Some (Rejected (ErrorOf (Some (JString (lit "model unavailable")))))
  /\ slot s = None.
Proof. vm_compute. split; reflexivity. Qed.

Lemma timer_keeps_slot (t : nat) (s : state) (a : timer_action) :
  timers s !! t = Some a ->
  match a with InitTimeout _ | ExecTimeout _ _ => True | _ => False end ->
  pendingResponses (handle (TimerFired t) s) = pendingResponses s.
Proof.
  intros Ht Ha. unfold handle. rewrite Ht.
  destruct a as [p|p c|p|l]; try contradiction; unfold run_timer; simpl_state.
  - unfold reject, settle. simpl_state.
    destruct (promises s !! p) as [[| |]|]; try reflexivity.
    destruct (waiters s !! p); reflexivity.
  - destruct (default false (cells s !! c)); [reflexivity|].
    unfold reject, settle. simpl_state.
    destruct (promises s !! p) as [[| |]|]; try reflexivity.
    destruct (waiters s !! p); reflexivity.
Qed.

End SiblingPaths.

(** C3, as amended: the exit of the worker clears the initialized flag and
    drops the process; the pending call, its slot and its timer are left
    as they are. *)
Theorem process_exit (code : option Z) (s : state) :
  microtasks s = [] ->
  let s' := dispatch (ProcessClose code) s in
  isInitialized s' = false
  /\ bridgeProcess s' = None
  /\ promises s' = promises s
  /\ pendingResponses s' = pendingResponses s
  /\ timers s' = timers s.
Proof.
  intros H. cbn zeta. unfold dispatch. rewrite drain_idle by exact H.
  repeat split.
Qed.

Lemma process_exit_witness :
  let s' := dispatch (ProcessClose (Some 1)) executing in
  isInitialized s' = false
  /\ bridgeProcess s' = None
  /\ promises s' = promises executing
  /\ pendingResponses s' = pendingResponses executing
  /\ timers s' = timers executing.
Proof. apply (process_exit (Some 1) executing). reflexivity. Defined.

(** C3 as stated fails: the exit rejects nothing. *)
Lemma process_exit_rejects_nothing :
  let s := run [ProcessClose (Some 1)] executing in
  slot executing = Some (ExecCallback 3 5 4 7)
  /\ status executing 3 = Some Pending
  /\ ~ (isInitialized s = false /\ bridgeProcess s = None
        /\ exists e, status s 3 = Some (Rejected e)).
Proof.
  vm_compute. repeat split. intros [_ [_ [e H]]]. discriminate.
Qed.

(** ** Cancellation *)

Section Cancellation.








Lemma process_line_idle (line : jsstring) (s : state) :
  slot s = None -> erase_decoder (snd (process_line line s)) = erase_decoder s.
Proof.
  unfold slot, process_line. intros H.
  destruct (is_empty (trim line)); [reflexivity|].
  unfold try_catch, bind, JSON_parse, effect, read, ret, throw.
  destruct (JSON.parse line) as [v|]; cbn [fst snd]; [|reflexivity].
  change (pendingResponses (log (LogResponse v) s)) with (pendingResponses s).
  rewrite H. reflexivity.
Qed.

Lemma erase_decoder_slot (s s' : state) :
  erase_decoder s' = erase_decoder s -> slot s' = slot s.
Proof.
  intros H. apply (f_equal pendingResponses) in H. unfold slot.
  change (pendingResponses s' = pendingResponses s) in H. rewrite H. reflexivity.
Qed.

Lemma for_of_process_line_idle (lines : list jsstring) (s : state) :
  slot s = None ->
  erase_decoder (snd (for_of lines process_line s)) = erase_decoder s.
Proof.
  revert s. induction lines as [|l ls IH]; intros s H; [reflexivity|].
  simpl. unfold bind.
  pose proof (process_line_returns l s) as Hr.
  pose proof (process_line_idle l s H) as He.
  destruct (process_line l s) as [[[]|e] s1]; cbn [fst snd] in *; [|discriminate].
  rewrite IH; [exact He|]. rewrite (erase_decoder_slot _ _ He). exact H.
Qed.

(** With the slot empty a chunk changes the buffer and the log only. *)
Lemma dispatch_data_idle (data : Buffer) (s : state) :
  slot s = None -> microtasks s = [] ->
  erase_decoder (dispatch (StdoutData data) s) = erase_decoder s.
Proof.
  intros Hs Hm. unfold dispatch.
  assert (erase_decoder (handle (StdoutData data) s) = erase_decoder s) as He.
  { unfold handle, handleBridgeResponse, bind, effect, read. cbn [fst snd].
    rewrite for_of_process_line_idle; [reflexivity|exact Hs]. }
  rewrite drain_idle; [exact He|].
  apply (f_equal microtasks) in He.
  change (microtasks (handle (StdoutData data) s) = microtasks s) in He.
  rewrite He. exact Hm.
Qed.


End Cancellation.

(** ** The prompt of the execute command *)

Section Prompts.

Variable P : nat -> jsstring -> Prop.












End Prompts.

Section Requests.













End Requests.

(** * Further properties *)

(** ** More on the sanitizer *)

Section Stripping.

Lemma ansi_match_no_escape (c : Z) (r : jsstring) :
  c <> 27 -> ansi_match (c :: r) = None.
Proof.
  intros H. unfold ansi_match.
  destruct c as [|q|q]; try reflexivity.
  do 5 (destruct q as [q|q|]; try reflexivity). congruence.
Qed.

Lemma replace_from_skip (m : jsstring -> option nat) (rep x b : jsstring) :
  replace_from m rep (length x) (x ++ b) = replace_from m rep 0 b.
Proof. induction x as [|c x IH]; [reflexivity|]. simpl. destruct b; exact IH. Qed.

Lemma strip_ansi_plain (a b : jsstring) :
  ~ In 27 a -> strip_ansi (a ++ b) = a ++ strip_ansi b.
Proof.
  unfold strip_ansi, replace_all. induction a as [|c a IH]; intros H; [reflexivity|].
  change ((c :: a) ++ b) with (c :: (a ++ b)). cbn [replace_from].
  rewrite ansi_match_no_escape by (intros ->; apply H; left; reflexivity).
  change ((c :: a) ++ replace_from ansi_match [] 0 b)
    with (c :: (a ++ replace_from ansi_match [] 0 b)).
  f_equal. apply IH. intros Hin. apply H. right. exact Hin.
Qed.

Lemma take_while_all (p : Z -> bool) (x : jsstring) (c : Z) (b : jsstring) :
  forallb p x = true -> p c = false ->
  take_while p (x ++ c :: b) = x /\ drop_while p (x ++ c :: b) = c :: b.
Proof.
  intros Hx Hc. induction x as [|d x IH]; simpl.
  - rewrite Hc. split; reflexivity.
  - simpl in Hx. apply andb_true_iff in Hx as [Hd Hx]. rewrite Hd.
    destruct (IH Hx) as [-> ->]. split; reflexivity.
Qed.

Lemma strip_ansi_sequence (params b : jsstring) :
  forallb is_sgr_param params = true ->
  strip_ansi ([27; 91] ++ params ++ [109] ++ b) = strip_ansi b.
Proof.
  intros Hp. unfold strip_ansi, replace_all.
  change ([27; 91] ++ params ++ [109] ++ b) with (27 :: 91 :: (params ++ 109 :: b)).
  cbn [replace_from].
  assert (ansi_match (27 :: 91 :: params ++ 109 :: b) = Some (S (S (S (length params)))))
    as ->.
  { unfold ansi_match.
    destruct (take_while_all is_sgr_param params 109 b Hp eq_refl) as [-> ->].
    reflexivity. }
  cbn [app replace_from].
  replace (params ++ 109 :: b) with ((params ++ [109]) ++ b)
    by (rewrite <- app_assoc; reflexivity).
  replace (S (length params)) with (length (params ++ [109]))
    by (rewrite length_app; simpl; lia).
  apply replace_from_skip.
Qed.

End Stripping.

Section KeptLines.

Lemma filter_sublist (f : jsstring -> bool) (ls : list jsstring) :
  sublist (List.filter f ls) ls.
Proof.
  induction ls as [|l ls IH]; simpl; [constructor|].
  destruct (f l); [apply sublist_skip|apply sublist_cons]; exact IH.
Qed.

Lemma filter_nil_iff (f : jsstring -> bool) (ls : list jsstring) :
  List.filter f ls = [] <-> Forall (fun l => f l = false) ls.
Proof.
  induction ls as [|l ls IH]; simpl; [split; [constructor|reflexivity]|].
  destruct (f l) eqn:E; split.
  - discriminate.
  - intros H. inversion H; congruence.
  - intros H. constructor; [exact E|apply IH, H].
  - intros H. inversion H; subst. apply IH. assumption.
Qed.

Lemma filter_all (f : jsstring -> bool) (ls : list jsstring) :
  Forall (fun l => f l = true) ls -> List.filter f ls = ls.
Proof.
  induction 1 as [|l ls Hl _ IH]; simpl; [reflexivity|]. rewrite Hl, IH. reflexivity.
Qed.

Lemma join_nil (ls : list jsstring) :
  Forall (fun l => l <> []) ls -> join [NL] ls = [] -> ls = [].
Proof.
  intros Hall H. destruct ls as [|l [|l' ls]]; [reflexivity| |].
  - inversion Hall; subst. simpl in H. congruence.
  - inversion Hall; subst. simpl in H. destruct l; [congruence|discriminate].
Qed.

Lemma in_split_on (sep x : Z) (s l : jsstring) :
  In l (split_on sep s) -> In x l -> In x s.
Proof.
  revert l. induction s as [|c r IH]; intros l Hl Hx.
  - destruct Hl as [<-|[]]. exact Hx.
  - simpl in Hl. destruct (c =? sep).
    + destruct Hl as [<-|Hl]; [destruct Hx|]. right. eapply IH; eassumption.
    + pose proof (split_on_nonempty sep r) as Hne.
      destruct (split_on sep r) as [|l0 ls]; [congruence|].
      destruct Hl as [<-|Hl].
      * destruct Hx as [<-|Hx]; [left; reflexivity|].
        right. apply (IH l0); [left; reflexivity|exact Hx].
      * right. apply (IH l); [right; exact Hl|exact Hx].
Qed.

Lemma in_join (x : Z) (ls : list jsstring) :
  In x (join [NL] ls) -> x = NL \/ exists l, In l ls /\ In x l.
Proof.
  induction ls as [|l ls IH]; [intros []|].
  destruct ls as [|l' ls'].
  - simpl. intros H. right. exists l. split; [left; reflexivity|exact H].
  - change (join [NL] (l :: l' :: ls')) with (l ++ NL :: join [NL] (l' :: ls')).
    intros H. apply in_app_or in H as [H|[H|H]].
    + right. exists l. split; [left; reflexivity|exact H].
    + left. symmetry. exact H.
    + destruct (IH H) as [->|[l0 [H1 H2]]]; [left; reflexivity|].
      right. exists l0. split; [right; exact H1|exact H2].
Qed.

Lemma kept_lines_keep (text : jsstring) :
  Forall (fun l => keep_line l = true)
    (List.filter keep_line (split_on NL (strip_ansi text))).
Proof. apply List.Forall_forall. intros l H. apply filter_In in H. tauto. Qed.

End KeptLines.

(** X1: [strip_ansi] keeps the text in front of the first escape
    character, removes a colour sequence (ESC, bracket, digits and
    semicolons, m) and goes on behind it; text without an escape character
    is returned as it is. *)
Theorem strip_ansi_removes_sequences (plain params rest : jsstring) :
  ~ In 27 plain ->
  forallb is_sgr_param params = true ->
  strip_ansi (plain ++ [27; 91] ++ params ++ [109] ++ rest) = plain ++ strip_ansi rest
  /\ strip_ansi plain = plain.
Proof.
  intros Hplain Hparams. split.
  - rewrite strip_ansi_plain by exact Hplain. f_equal.
    apply strip_ansi_sequence, Hparams.
  - rewrite <- (app_nil_r plain) at 1. rewrite strip_ansi_plain by exact Hplain.
    apply app_nil_r.
Qed.

Lemma strip_ansi_removes_sequences_witness :
  strip_ansi (lit "ok " ++ [27; 91] ++ lit "1;32" ++ [109] ++ lit "done")
    = lit "ok " ++ strip_ansi (lit "done")
  /\ strip_ansi (lit "ok ") = lit "ok ".
Proof.
  apply (strip_ansi_removes_sequences (lit "ok ") (lit "1;32") (lit "done")).
  - vm_compute. intros H. repeat (destruct H as [H|H]; [discriminate H|]). exact H.
  - vm_compute. reflexivity.
Defined.

(** X2: the lines of the sanitizer's output are lines of the input (colour
    sequences removed), unaltered and in the same order. *)
Theorem cleanAmplifierOutput_keeps_lines (text : jsstring) :
  cleanAmplifierOutput text = []
  \/ sublist (split_on NL (cleanAmplifierOutput text)) (split_on NL (strip_ansi text)).
Proof.
  rewrite cleanAmplifierOutput_join.
  destruct (kept_lines text) as [Hfree Hnb]. cbv zeta in *.
  destruct (List.filter keep_line (split_on NL (strip_ansi text))) as [|l ls] eqn:E;
    [left; reflexivity|right].
  rewrite split_on_join; [|discriminate|exact Hfree].
  rewrite <- E. apply filter_sublist.
Qed.

(** X3: the output is empty exactly when every line of the input is blank
    or matches a banner pattern. *)
Theorem cleanAmplifierOutput_empty_iff (text : jsstring) :
  cleanAmplifierOutput text = []
  <-> Forall (fun line => is_blank line = true \/ is_banner (trim line) = true)
        (split_on NL (strip_ansi text)).
Proof.
  rewrite cleanAmplifierOutput_join.
  destruct (kept_lines text) as [_ Hnb]. cbv zeta in Hnb.
  assert (forall l, keep_line l = false
                    <-> is_blank l = true \/ is_banner (trim l) = true) as Hk.
  { intros l. unfold keep_line, is_blank.
    destruct (is_empty (trim l)); [split; [left; reflexivity|reflexivity]|].
    destruct (is_banner (trim l)); split; intros H; try reflexivity;
      try (right; reflexivity); try discriminate.
    destruct H; discriminate. }
  split.
  - intros H. apply join_nil in H.
    + apply filter_nil_iff in H. eapply Forall_impl; [exact H|]. intros l. apply Hk.
    + eapply Forall_impl; [exact Hnb|]. intros l. apply not_blank_nonempty.
  - intros H.
    assert (List.filter keep_line (split_on NL (strip_ansi text)) = []) as ->;
      [|reflexivity].
    apply filter_nil_iff. eapply Forall_impl; [exact H|]. intros l. apply Hk.
Qed.

(** X4: on a text without escape characters the sanitizer is idempotent:
    cleaning its own output changes nothing. *)
Theorem cleanAmplifierOutput_idempotent (text : jsstring) :
  ~ In 27 text ->
  cleanAmplifierOutput (cleanAmplifierOutput text) = cleanAmplifierOutput text.
Proof.
  intros Hesc.
  assert (strip_ansi text = text) as Hs.
  { rewrite <- (app_nil_r text) at 1. rewrite strip_ansi_plain by exact Hesc.
    apply app_nil_r. }
  rewrite (cleanAmplifierOutput_join text), Hs.
  pose proof (kept_lines text) as [Hfree Hnb]. cbv zeta in Hfree, Hnb.
  pose proof (kept_lines_keep text) as Hkeep.
  rewrite Hs in Hfree, Hnb, Hkeep.
  set (kept := List.filter keep_line (split_on NL text)) in *.
  assert (~ In 27 (join [NL] kept)) as Hout.
  { intros Hin. apply in_join in Hin as [Hin|[l [Hl Hx]]]; [discriminate|].
    apply Hesc. apply (in_split_on NL 27 text l); [|exact Hx].
    subst kept. apply filter_In in Hl. tauto. }
  rewrite cleanAmplifierOutput_join.
  assert (strip_ansi (join [NL] kept) = join [NL] kept) as ->.
  { rewrite <- (app_nil_r (join [NL] kept)) at 1.
    rewrite strip_ansi_plain by exact Hout. apply app_nil_r. }
  destruct kept as [|l ls] eqn:E; [reflexivity|].
  rewrite split_on_join; [|discriminate|exact Hfree].
  rewrite filter_all by exact Hkeep. reflexivity.
Qed.

Lemma cleanAmplifierOutput_idempotent_witness :
  cleanAmplifierOutput (cleanAmplifierOutput (lit "a" ++ [NL; NL] ++ lit "Thinking:"))
    = cleanAmplifierOutput (lit "a" ++ [NL; NL] ++ lit "Thinking:").
Proof.
  apply cleanAmplifierOutput_idempotent.
  vm_compute. intros H. repeat (destruct H as [H|H]; [discriminate H|]). exact H.
Defined.

(** ** More on the decoder *)

Section Ascii.

Lemma final_state_ascii (data : Buffer) :
  Forall (fun b => (Byte.to_N b < 128)%N) data -> final_state idle data = idle.
Proof.
  induction 1 as [|b r Hb _ IH]; [reflexivity|].
  simpl. unfold feed, lead. simpl.
  assert ((Z.of_N (Byte.to_N b) <=? 127) = true) as -> by (apply Z.leb_le; lia).
  exact IH.
Qed.

Lemma ends_complete_ascii (data : Buffer) :
  Forall (fun b => (Byte.to_N b < 128)%N) data -> ends_complete data = true.
Proof. intros H. unfold ends_complete. rewrite final_state_ascii by exact H. reflexivity. Qed.

Lemma Forall_concat_each (P : byte -> Prop) (chunks : list Buffer) :
  Forall P (concat chunks) -> Forall (Forall P) chunks.
Proof.
  induction chunks as [|c cs IH]; [constructor|].
  simpl. intros H. apply Forall_app in H as [H1 H2].
  constructor; [exact H1|apply IH, H2].
Qed.

End Ascii.

(** X5: for a stream of ASCII bytes every way of cutting it into chunks
    decodes to the same messages and leaves the same buffer as the whole
    stream in one chunk. *)
Theorem ascii_chunking_invariance (chunks : list Buffer) (s : state) :
  ~ In NL (responseBuffer s) ->
  Forall (fun b => (Byte.to_N b < 128)%N) (concat chunks) ->
  decoded (feed_chunks chunks s) = decoded (snd (handleBridgeResponse (concat chunks) s))
  /\ responseBuffer (feed_chunks chunks s)
     = responseBuffer (snd (handleBridgeResponse (concat chunks) s)).
Proof.
  intros Hbuf Hascii. apply chunking_invariance; [exact Hbuf|].
  apply Forall_concat_each in Hascii.
  eapply Forall_impl; [exact Hascii|]. intros c. apply ends_complete_ascii.
Qed.

Lemma ascii_chunking_invariance_witness :
  let chunks :=
    [bytes (quoted "{'type':'resp"); bytes (quoted "onse','content':'Hi'}" ++ nl);
     bytes (quoted "{'ty")] in
  decoded (feed_chunks chunks start) = decoded (snd (handleBridgeResponse (concat chunks) start))
  /\ responseBuffer (feed_chunks chunks start)
     = responseBuffer (snd (handleBridgeResponse (concat chunks) start)).
Proof.
  apply ascii_chunking_invariance.
  - intros [].
  - apply Forall_forall. intros b Hb. vm_compute in Hb.
    repeat (apply elem_of_cons in Hb as [->|Hb]; [reflexivity|]).
    apply elem_of_nil in Hb. destruct Hb.
Defined.

(** X6: a chunk without a newline decodes nothing: it is appended to the
    buffer and the state is otherwise the same. *)
Theorem chunk_without_newline (data : Buffer) (s : state) :
  ~ In NL (responseBuffer s) ->
  ~ In NL (toString data) ->
  handleBridgeResponse data s
    = (Normal tt, upd_responseBuffer (fun b => b ++ toString data) s).
Proof.
  intros Hb Hd. unfold handleBridgeResponse, bind, effect, read. cbn [fst snd].
  assert (~ In NL (responseBuffer s ++ toString data)) as Hno.
  { intros H. apply in_app_or in H. tauto. }
  change (responseBuffer (upd_responseBuffer (fun b => b ++ toString data) s))
    with (responseBuffer s ++ toString data).
  rewrite (split_on_no_sep_id NL _ Hno). simpl. destruct s; reflexivity.
Qed.

Lemma chunk_without_newline_witness :
  handleBridgeResponse (bytes (quoted "{'type':'do")) start
    = (Normal tt,
       upd_responseBuffer (fun b => b ++ toString (bytes (quoted "{'type':'do"))) start).
Proof.
  apply chunk_without_newline.
  - intros [].
  - apply no_newline_check. vm_compute. reflexivity.
Defined.

(** X7: while no call is pending, the messages of a chunk are logged and
    discarded: the chunk changes the buffer and the log and nothing else. *)
Theorem message_without_pending_call (data : Buffer) (s : state) :
  slot s = None ->
  microtasks s = [] ->
  erase_decoder (dispatch (StdoutData data) s) = erase_decoder s
  /\ decoded (dispatch (StdoutData data) s)
     = decoded s
       ++ messages_of (removelast (split_on NL (responseBuffer s ++ toString data))).
Proof.
  intros Hs Hm. split; [apply dispatch_data_idle; assumption|].
  apply dispatch_data_decoded.
Qed.

Lemma message_without_pending_call_witness :
  erase_decoder (dispatch (StdoutData hello) start) = erase_decoder start
  /\ decoded (dispatch (StdoutData hello) start)
     = decoded start
       ++ messages_of (removelast (split_on NL (responseBuffer start ++ toString hello))).
Proof. apply message_without_pending_call; reflexivity. Defined.

(** ** One message for the pending call *)

Section Delivery.

Lemma jsstring_eqb_eq (a b : jsstring) : jsstring_eqb a b = true -> a = b.
Proof.
  revert b. induction a as [|x a IH]; intros [|y b] H; try discriminate; [reflexivity|].
  simpl in H. apply andb_true_iff in H as [H1 H2]. apply Z.eqb_eq in H1.
  f_equal; [exact H1|apply IH, H2].
Qed.

Lemma is_string_exclusive (a b : string) (v : option json) :
  is_string a v = true -> jsstring_eqb (lit a) (lit b) = false -> is_string b v = false.
Proof.
  unfold is_string. destruct v as [[]|]; try discriminate.
  intros Ha Hab. apply jsstring_eqb_eq in Ha. subst. exact Hab.
Qed.

Lemma is_string_not_null (a : string) (key : string) (m : json) :
  is_string a (member key m) = true -> m <> JNull.
Proof. intros H ->. discriminate. Qed.

Lemma property_member (key : string) (m : json) (s : state) :
  m <> JNull -> property key m s = (Normal (member key m), s).
Proof. intros H. destruct m; try reflexivity. congruence. Qed.

Lemma for_of_app (a b : list jsstring) (s : state) :
  snd (for_of (a ++ b) process_line s)
    = snd (for_of b process_line (snd (for_of a process_line s))).
Proof.
  revert s. induction a as [|l a IH]; intros s; [reflexivity|].
  simpl. unfold bind. pose proof (process_line_returns l s) as Hr.
  destruct (process_line l s) as [[[]|e] s1]; cbn [fst snd] in *; [|discriminate].
  apply IH.
Qed.

Lemma process_line_quiet (l : jsstring) (s : state) :
  (if is_blank l then [] else option_list (JSON.parse l)) = [] ->
  erase_decoder (snd (process_line l s)) = erase_decoder s.
Proof.
  unfold process_line, is_blank. destruct (is_empty (trim l)); [reflexivity|].
  unfold try_catch, bind, JSON_parse, effect, read, ret, throw.
  destruct (JSON.parse l); [discriminate|reflexivity].
Qed.

(** Lines that hold no message only add to the log. *)
Lemma quiet_lines (ls : list jsstring) (s : state) :
  messages_of ls = [] ->
  erase_decoder (snd (for_of ls process_line s)) = erase_decoder s.
Proof.
  revert s. induction ls as [|l ls IH]; intros s H; [reflexivity|].
  rewrite messages_of_cons in H. apply app_eq_nil in H as [H1 H2].
  simpl. unfold bind. pose proof (process_line_returns l s) as Hr.
  pose proof (process_line_quiet l s H1) as Hq.
  destruct (process_line l s) as [[[]|e] s1]; cbn [fst snd] in *; [|discriminate].
  rewrite IH by exact H2. exact Hq.
Qed.

Lemma messages_single (ls : list jsstring) (m : json) :
  messages_of ls = [m] ->
  exists pre l post,
    ls = pre ++ l :: post /\ messages_of pre = [] /\ is_blank l = false
    /\ JSON.parse l = Some m /\ messages_of post = [].
Proof.
  induction ls as [|l ls IH]; [discriminate|].
  rewrite messages_of_cons. intros H.
  destruct (is_blank l) eqn:Eb.
  - destruct (IH H) as (pre & l0 & post & -> & H1 & H2 & H3 & H4).
    exists (l :: pre), l0, post. repeat split; try assumption.
    rewrite messages_of_cons, Eb. exact H1.
  - destruct (JSON.parse l) as [v|] eqn:Ep.
    + injection H as -> H. exists [], l, ls. repeat split; assumption.
    + destruct (IH H) as (pre & l0 & post & -> & H1 & H2 & H3 & H4).
      exists (l :: pre), l0, post. repeat split; try assumption.
      rewrite messages_of_cons, Eb, Ep. exact H1.
Qed.

Lemma process_line_message (l : jsstring) (m : json) (r : resolver) (s : state) :
  is_blank l = false -> JSON.parse l = Some m ->
  pendingResponses s !! "current" = Some r ->
  erase_decoder (snd (process_line l s))
    = erase_decoder (snd (call r m (log (LogResponse m) s))).
Proof.
  unfold process_line, is_blank. intros -> Hp Hs.
  unfold try_catch, bind, JSON_parse, effect, read, ret, throw. rewrite Hp.
  cbn [fst snd].
  change (pendingResponses (log (LogResponse m) s)) with (pendingResponses s).
  rewrite Hs.
  destruct (call r m (log (LogResponse m) s)) as [[[]|e] s']; reflexivity.
Qed.

(** A chunk that completes exactly one message hands it to the callback in
    the slot; the other lines only add to the log. *)
Lemma deliver_one (data : Buffer) (m : json) (r : resolver) (s : state) :
  messages_of (removelast (split_on NL (responseBuffer s ++ toString data))) = [m] ->
  pendingResponses s !! "current" = Some r ->
  exists s1,
    erase_decoder s1 = erase_decoder s
    /\ erase_decoder (handle (StdoutData data) s) = erase_decoder (snd (call r m s1)).
Proof.
  intros Hm Hs.
  destruct (messages_single _ _ Hm) as (pre & l & post & Hl & Hpre & Hb & Hp & Hpost).
  unfold handle, handleBridgeResponse, bind, effect, read. cbn [fst snd].
  change (responseBuffer (upd_responseBuffer (fun b => b ++ toString data) s))
    with (responseBuffer s ++ toString data).
  rewrite Hl. set (s0 := upd_responseBuffer _ (upd_responseBuffer _ s)).
  assert (erase_decoder s0 = erase_decoder s) as H0 by reflexivity.
  rewrite for_of_app.
  pose proof (quiet_lines pre s0 Hpre) as H1.
  set (s1 := snd (for_of pre process_line s0)) in *.
  exists (log (LogResponse m) s1). split.
  { rewrite <- H0, <- H1. reflexivity. }
  simpl. unfold bind. pose proof (process_line_returns l s1) as Hr.
  assert (pendingResponses s1 !! "current" = Some r) as Hs1.
  { erased H1 pendingResponses E1. rewrite E1. exact Hs. }
  pose proof (process_line_message l m r s1 Hb Hp Hs1) as Hmsg.
  destruct (process_line l s1) as [[[]|e] s2]; cbn [fst snd] in *; [|discriminate].
  rewrite quiet_lines by exact Hpost. exact Hmsg.
Qed.

Lemma drain_one (k : continuation) (o : outcome) (s : state) :
  microtasks s = [(k, o)] ->
  drain s = flush (resume k o (upd_microtasks (fun _ => []) s)).
Proof. intros H. unfold drain. f_equal. unfold flush at 1. rewrite H. reflexivity. Qed.

(** The callback of an execute call on the two terminal messages. *)
Lemma call_done (p t c g : nat) (m : json) (s : state) :
  is_string "done" (member "type" m) = true ->
  snd (call (ExecCallback p t c g) m s) = resolve p (delete_current (clearTimeout t s)).
Proof.
  intros H. unfold call, bind at 1.
  rewrite (property_member "type" m s (is_string_not_null _ _ _ H)).
  rewrite (is_string_exclusive "done" "response" _ H eq_refl).
  rewrite (is_string_exclusive "done" "error" _ H eq_refl), H. reflexivity.
Qed.

Lemma call_error (p t c g : nat) (m : json) (s : state) :
  is_string "error" (member "type" m) = true ->
  snd (call (ExecCallback p t c g) m s)
    = reject p (ErrorOf (member "error" m)) (delete_current (clearTimeout t s)).
Proof.
  intros H. unfold call, bind at 1.
  pose proof (is_string_not_null _ _ _ H) as Hnn.
  rewrite (property_member "type" m s Hnn).
  rewrite (is_string_exclusive "error" "response" _ H eq_refl), H.
  unfold bind, effect. cbn [fst snd]. rewrite (property_member "error" m _ Hnn).
  reflexivity.
Qed.

End Delivery.

Section Terminal.

Variables (p t c g g' : nat) (received : bool) (s s1 : state).

Hypothesis K : execute_pending p t c g received s.
Hypothesis Hw : waiters s !! p = Some (AfterExecute g').
Hypothesis E1 : erase_decoder s1 = erase_decoder s.

(** Settling the call from a state that differs from [s] in the decoder's
    fields only. *)
Lemma settle_pending (r : settlement) :
  settle p r (delete_current (clearTimeout t s1))
    = upd_microtasks (fun q => q ++ [(AfterExecute g', outcome_of r)])
        (upd_waiters (delete p)
           (upd_promises (insert p r) (delete_current (clearTimeout t s1)))).
Proof.
  erased E1 promises HP. erased E1 waiters HW.
  unfold settle, delete_current, clearTimeout. simpl_state.
  rewrite HP, HW, (pending_status _ _ _ _ _ _ K), Hw. reflexivity.
Qed.

Lemma settled_fields (r : settlement) (data : Buffer) :
  erase_decoder (handle (StdoutData data) s)
    = erase_decoder (settle p r (delete_current (clearTimeout t s1))) ->
  let h := handle (StdoutData data) s in
  microtasks h = [(AfterExecute g', outcome_of r)]
  /\ promises h !! p = Some r
  /\ pendingResponses h !! "current" = None
  /\ timers h !! t = None
  /\ reported h = reported s
  /\ stdin_log h = stdin_log s
  /\ isInitialized h = isInitialized s.
Proof.
  intros E2. cbn zeta. rewrite settle_pending in E2.
  erased E2 microtasks H1. erased E2 promises H2. erased E2 pendingResponses H3.
  erased E2 timers H4. erased E2 reported H5. erased E2 stdin_log H6.
  erased E2 isInitialized H7.
  erased E1 microtasks G1. erased E1 reported G5. erased E1 stdin_log G6.
  erased E1 isInitialized G7.
  unfold delete_current, clearTimeout in *. simpl_state.
  rewrite H1, H2, H3, H4, H5, H6, H7, G1, G5, G6, G7, (pending_idle _ _ _ _ _ _ K).
  repeat split; try reflexivity.
  - apply lookup_insert_eq.
  - apply lookup_delete_eq.
  - apply lookup_delete_eq.
Qed.

End Terminal.

(** X8: a [done] message for the execute call in flight fulfils its
    promise, empties the slot and clears its timer; nothing is reported and
    nothing is written. *)
Theorem execute_done (s : state) (p t c g g' : nat) (received : bool)
    (data : Buffer) (m : json) :
  execute_pending p t c g received s ->
  waiters s !! p = Some (AfterExecute g') ->
  messages_of (removelast (split_on NL (responseBuffer s ++ toString data))) = [m] ->
  is_string "done" (member "type" m) = true ->
  let s' := dispatch (StdoutData data) s in
  status s' p = Some Fulfilled
  /\ slot s' = None
  /\ timers s' !! t = None
  /\ reported s' = reported s
  /\ stdin_log s' = stdin_log s.
Proof.
  intros K Hw Hm Hd. cbn zeta.
  destruct (deliver_one data m _ s Hm (pending_slot _ _ _ _ _ _ K)) as (s1 & E1 & E2).
  rewrite call_done in E2 by exact Hd.
  destruct (settled_fields p t c g g' received s s1 K Hw E1 Fulfilled data E2)
    as (H1 & H2 & H3 & H4 & H5 & H6 & _).
  unfold dispatch. rewrite (drain_one _ _ _ H1). cbn [outcome_of resume].
  rewrite flush_idle by reflexivity.
  unfold status, slot. simpl_state. repeat split; assumption.
Qed.

Lemma execute_done_witness :
  let s' := dispatch (StdoutData (json_line "{'type':'done'}")) executing in
  status s' 3 = Some Fulfilled
  /\ slot s' = None
  /\ timers s' !! 5%nat = None
  /\ reported s' = reported executing
  /\ stdin_log s' = stdin_log executing.
Proof.
  apply (execute_done executing 3 5 4 7 7 false _
           (JObject [(lit "type", JString (lit "done"))])).
  - constructor; try reflexivity. vm_compute. lia.
  - reflexivity.
  - vm_compute. reflexivity.
  - reflexivity.
Defined.

(** X9: an [error] message for the execute call in flight rejects its
    promise with the error the message carries, empties the slot, clears
    the timer, and the request reports that error once. *)
Theorem execute_error (s : state) (p t c g g' : nat) (received : bool)
    (data : Buffer) (m : json) :
  execute_pending p t c g received s ->
  waiters s !! p = Some (AfterExecute g') ->
  messages_of (removelast (split_on NL (responseBuffer s ++ toString data))) = [m] ->
  is_string "error" (member "type" m) = true ->
  let s' := dispatch (StdoutData data) s in
  status s' p = Some (Rejected (ErrorOf (member "error" m)))
  /\ slot s' = None
  /\ timers s' !! t = None
  /\ reported s' = reported s ++ [(g', ErrorNotice (ErrorOf (member "error" m)))]
  /\ stdin_log s' = stdin_log s.
Proof.
  intros K Hw Hm Hd. cbn zeta.
  destruct (deliver_one data m _ s Hm (pending_slot _ _ _ _ _ _ K)) as (s1 & E1 & E2).
  rewrite call_error in E2 by exact Hd.
  destruct (settled_fields p t c g g' received s s1 K Hw E1 (Rejected _) data E2)
    as (H1 & H2 & H3 & H4 & H5 & H6 & _).
  unfold dispatch. rewrite (drain_one _ _ _ H1). cbn [outcome_of resume progress_of].
  rewrite flush_idle by reflexivity.
  unfold status, slot, progress_report. simpl_state. rewrite H5.
  repeat split; assumption.
Qed.

Lemma execute_error_witness :
  let s' :=
    dispatch (StdoutData (json_line "{'type':'error','error':'model unavailable'}"))
      executing in
  status s' 3 = Some (Rejected (ErrorOf (Some (JString (lit "model unavailable")))))
  /\ slot s' = None
  /\ timers s' !! 5%nat = None
  /\ reported s'
     = reported executing
       ++ [(7%nat, ErrorNotice (ErrorOf (Some (JString (lit "model unavailable")))))]
  /\ stdin_log s' = stdin_log executing.
Proof.
  apply (execute_error executing 3 5 4 7 7 false _
           (JObject [(lit "type", JString (lit "error"));
                     (lit "error", JString (lit "model unavailable"))])).
  - constructor; try reflexivity. vm_compute. lia.
  - reflexivity.
  - vm_compute. reflexivity.
  - reflexivity.
Defined.

(** ** Partial responses *)

Section Partial.

Variables p t c g : nat.

Lemma call_deliver (m : json) (s : state) :
  is_terminal m = false ->
  snd (call (ExecCallback p t c g) m s) = deliver c g m s.
Proof.
  unfold is_terminal, deliver, chunk_of, is_partial_response. intros Ht.
  apply orb_false_iff in Ht as [He Hd]. unfold call.
  assert (m = JNull \/ m <> JNull) as [->|Hnn]
    by (destruct m; [left; reflexivity|right; discriminate..]).
  { reflexivity. }
  unfold bind at 1. rewrite (property_member "type" m s Hnn).
  change (member "type" m) with (type_of m).
  destruct (is_string "response" (type_of m)).
  - unfold bind, effect. cbn [fst snd].
    rewrite (property_member "content" m _ Hnn).
    unfold cleanAmplifierOutput_of.
    destruct (member "content" m) as [[]|]; try reflexivity.
    unfold ret. cbn [fst snd].
    destruct (is_empty (trim (cleanAmplifierOutput s0))); reflexivity.
  - rewrite He, Hd. reflexivity.
Qed.

Lemma deliver_reported (m : json) (s : state) :
  reported (deliver c g m s) = reported s ++ chunks_of g [m].
Proof.
  unfold deliver, chunks_of.
  change (omap chunk_of [m]) with (option_list (chunk_of m)).
  destruct (is_partial_response m) eqn:E.
  - destruct (chunk_of m); [reflexivity|symmetry; apply app_nil_r].
  - assert (chunk_of m = None) as -> by (unfold chunk_of; rewrite E; reflexivity).
    symmetry. apply app_nil_r.
Qed.

Lemma chunks_of_app (a b : list json) :
  chunks_of g (a ++ b) = chunks_of g a ++ chunks_of g b.
Proof. unfold chunks_of. rewrite omap_app, map_app. reflexivity. Qed.

Lemma reported_process_line (received : bool) (l : jsstring) (s : state) :
  let arrived := if is_blank l then [] else option_list (JSON.parse l) in
  Forall (fun m => is_terminal m = false) arrived ->
  execute_pending p t c g received s ->
  reported (snd (process_line l s)) = reported s ++ chunks_of g arrived.
Proof.
  cbn zeta. unfold process_line, is_blank. intros Hall K.
  destruct (is_empty (trim l)); [symmetry; apply app_nil_r|].
  unfold try_catch, bind, JSON_parse, effect, read, ret, throw.
  destruct (JSON.parse l) as [v|]; [|symmetry; apply app_nil_r].
  change (option_list (Some v)) with [v] in *. inversion Hall as [|? ? Hv _]; subst.
  cbn [fst snd].
  change (pendingResponses (log (LogResponse v) s)) with (pendingResponses s).
  rewrite (pending_slot _ _ _ _ _ _ K).
  pose proof (call_deliver v (log (LogResponse v) s) Hv) as Hc.
  destruct (call (ExecCallback p t c g) v (log (LogResponse v) s)) as [[[]|e] s'];
    cbn [fst snd] in *; subst s';
    repeat match goal with
    | |- context [reported (log ?a ?b)] => change (reported (log a b)) with (reported b)
    end; rewrite deliver_reported; reflexivity.
Qed.

Lemma reported_for_of (lines : list jsstring) (received : bool) (s : state) :
  Forall (fun m => is_terminal m = false) (messages_of lines) ->
  execute_pending p t c g received s ->
  reported (snd (for_of lines process_line s))
    = reported s ++ chunks_of g (messages_of lines).
Proof.
  revert received s. induction lines as [|l ls IH]; intros received s Hall K.
  - symmetry. apply app_nil_r.
  - rewrite messages_of_cons in *. apply Forall_app in Hall as [Hl Hls].
    simpl. unfold bind.
    pose proof (process_line_returns l s) as Hr.
    pose proof (pending_process_line p t c g received l s Hl K) as K1.
    pose proof (reported_process_line received l s Hl K) as R1.
    destruct (process_line l s) as [[[]|e] s1]; cbn [fst snd] in *; [|discriminate].
    rewrite (IH _ s1 Hls K1), R1, chunks_of_app, app_assoc. reflexivity.
Qed.

Lemma reported_dispatch (data : Buffer) (received : bool) (s : state) :
  let arrived :=
    messages_of (removelast (split_on NL (responseBuffer s ++ toString data))) in
  Forall (fun m => is_terminal m = false) arrived ->
  execute_pending p t c g received s ->
  reported (dispatch (StdoutData data) s) = reported s ++ chunks_of g arrived.
Proof.
  cbn zeta. intros Hall K. unfold dispatch.
  assert (execute_pending p t c g received
            (upd_responseBuffer
               (fun _ => default [] (last (split_on NL (responseBuffer s ++ toString data))))
               (upd_responseBuffer (fun b => b ++ toString data) s))) as K0
    by (destruct K as [H1 H2 H3 H4 H5 H6]; constructor; assumption).
  assert (microtasks (handle (StdoutData data) s) = []) as Hm.
  { unfold handle, handleBridgeResponse, bind, effect, read. cbn [fst snd].
    eapply pending_idle. apply pending_for_of; [exact Hall|]. exact K0. }
  rewrite drain_idle by exact Hm.
  unfold handle, handleBridgeResponse, bind, effect, read. cbn [fst snd].
  exact (reported_for_of _ received _ Hall K0).
Qed.

Lemma reported_run (chunks : list Buffer) (received : bool) (s : state) :
  Forall (fun m => is_terminal m = false) (arrivals chunks s) ->
  execute_pending p t c g received s ->
  reported (run (map StdoutData chunks) s)
    = reported s ++ chunks_of g (arrivals chunks s).
Proof.
  revert received s. induction chunks as [|data rest IH]; intros received s Hall K.
  - symmetry. apply app_nil_r.
  - cbn [arrivals] in *. apply Forall_app in Hall as [H1 H2].
    change (run (map StdoutData (data :: rest)) s)
      with (run (map StdoutData rest) (dispatch (StdoutData data) s)).
    rewrite (IH _ _ H2 (pending_dispatch p t c g data received s H1 K)).
    rewrite (reported_dispatch data received s H1 K), chunks_of_app, app_assoc.
    reflexivity.
Qed.

End Partial.

(** X10: while an execute call is in flight and no terminal message
    arrives, the chat receives exactly the sanitized contents of the partial
    responses that are not blank after sanitizing, in the order the
    messages were decoded. *)
Theorem partial_responses_in_order (s : state) (p t c g : nat) (received : bool)
    (chunks : list Buffer) (arrived : list json) :
  execute_pending p t c g received s ->
  decoded (run (map StdoutData chunks) s) = decoded s ++ arrived ->
  Forall (fun m => is_terminal m = false) arrived ->
  reported (run (map StdoutData chunks) s) = reported s ++ chunks_of g arrived.
Proof.
  intros K Hd Hall.
  rewrite run_data_decoded in Hd. apply app_inv_head in Hd. subst arrived.
  apply (reported_run p t c g chunks received s Hall K).
Qed.

Lemma partial_responses_in_order_witness :
  let chunks :=
    [hello; json_line "{'type':'response','content':'   '}";
     json_line "{'type':'response','content':'World'}"] in
  reported (run (map StdoutData chunks) executing)
    = reported executing
      ++ chunks_of 7 [response_with (lit "Hello"); response_with (lit "   ");
                      response_with (lit "World")].
Proof.
  apply (partial_responses_in_order executing 3 5 4 7 false).
  - constructor; try reflexivity. vm_compute. lia.
  - vm_compute. reflexivity.
  - repeat (constructor; [vm_compute; reflexivity|]). constructor.
Defined.

(** ** The reply to initialize *)

Lemma settle_waiting (p : nat) (r : settlement) (k : continuation) (s : state) :
  promises s !! p = Some Pending -> waiters s !! p = Some k ->
  settle p r s
    = upd_microtasks (fun q => q ++ [(k, outcome_of r)])
        (upd_waiters (delete p) (upd_promises (insert p r) s)).
Proof. unfold settle. intros -> ->. reflexivity. Qed.

Lemma call_initialized (p t : nat) (m : json) (s : state) :
  is_string "initialized" (member "status" m) = true ->
  snd (call (InitCallback p t) m s)
    = resolve p (upd_isInitialized (fun _ => true) (delete_current (clearTimeout t s))).
Proof.
  intros H. unfold call, bind, effect. cbn [fst snd].
  rewrite (property_member "status" m _ (is_string_not_null _ _ _ H)), H.
  reflexivity.
Qed.

Lemma call_not_initialized (p t : nat) (m : json) (s : state) :
  m <> JNull -> is_string "initialized" (member "status" m) = false ->
  snd (call (InitCallback p t) m s)
    = reject p (initialize_error m) (delete_current (clearTimeout t s)).
Proof.
  intros Hnn H. unfold call, bind, effect, initialize_error. cbn [fst snd].
  rewrite (property_member "status" m _ Hnn), H.
  destruct (is_string "error" (member "status" m)); [|reflexivity].
  rewrite (property_member "error" m _ Hnn). reflexivity.
Qed.

Lemma call_initialize_null (p t : nat) (s : state) :
  snd (call (InitCallback p t) JNull s) = delete_current (clearTimeout t s).
Proof. reflexivity. Qed.

Section Initialize.

Variables (p t g token : nat) (userPrompt : jsstring) (s s1 : state).

Hypothesis K : initialize_pending p t userPrompt g token s.
Hypothesis E1 : erase_decoder s1 = erase_decoder s.

Lemma initialize_settled (r : settlement) (f : bool -> bool) (data : Buffer) :
  erase_decoder (handle (StdoutData data) s)
    = erase_decoder
        (settle p r (upd_isInitialized f (delete_current (clearTimeout t s1)))) ->
  let h := handle (StdoutData data) s in
  microtasks h = [(AfterInitialize userPrompt g token, outcome_of r)]
  /\ promises h = <[p := r]> (promises s)
  /\ pendingResponses h = delete "current" (pendingResponses s)
  /\ timers h = delete t (timers s)
  /\ reported h = reported s
  /\ stdin_log h = stdin_log s
  /\ isInitialized h = f (isInitialized s)
  /\ bridgeProcess h = bridgeProcess s
  /\ next_handle h = next_handle s
  /\ cancelled h = cancelled s.
Proof.
  intros E2. cbn zeta.
  erased E1 promises HP. erased E1 waiters HW.
  rewrite (settle_waiting p r (AfterInitialize userPrompt g token)) in E2.
  2:{ unfold delete_current, clearTimeout. simpl_state. rewrite HP. apply K. }
  2:{ unfold delete_current, clearTimeout. simpl_state. rewrite HW. apply K. }
  erased E2 microtasks H1. erased E2 promises H2. erased E2 pendingResponses H3.
  erased E2 timers H4. erased E2 reported H5. erased E2 stdin_log H6.
  erased E2 isInitialized H7. erased E2 bridgeProcess H8. erased E2 next_handle H9.
  erased E2 cancelled H10.
  erased E1 microtasks G1. erased E1 pendingResponses G3. erased E1 timers G4.
  erased E1 reported G5. erased E1 stdin_log G6.
  erased E1 isInitialized G7. erased E1 bridgeProcess G8. erased E1 next_handle G9.
  erased E1 cancelled G10.
  unfold delete_current, clearTimeout in *. simpl_state.
  rewrite H1, H2, H3, H4, H5, H6, H7, H8, H9, H10, G1, HP, G3, G4, G5, G6, G7, G8, G9,
    G10, (init_idle _ _ _ _ _ _ K).
  repeat split; reflexivity.
Qed.

End Initialize.

(** X11: the reply [initialized] to the initialize call in flight marks
    the bridge initialized, fulfils the call and clears its timer; the
    request that awaited it then writes one execute command with its prompt
    and has an execute call in flight. *)
Theorem initialize_success (s : state) (p t g token : nat) (userPrompt : jsstring)
    (data : Buffer) (m : json) :
  initialize_pending p t userPrompt g token s ->
  has_stdin s = true ->
  messages_of (removelast (split_on NL (responseBuffer s ++ toString data))) = [m] ->
  is_string "initialized" (member "status" m) = true ->
  let s' := dispatch (StdoutData data) s in
  let n := next_handle s in
  isInitialized s' = true
  /\ status s' p = Some Fulfilled
  /\ timers s' !! t = None
  /\ stdin_log s' = stdin_log s ++ [CmdExecute userPrompt]
  /\ reported s' = reported s
  /\ slot s' = Some (ExecCallback n (S (S n)) (S n) g)
  /\ status s' n = Some Pending
  /\ waiters s' !! n = Some (AfterExecute g).
Proof.
  intros K Hs Hm Hi. cbn zeta.
  destruct (deliver_one data m _ s Hm (init_slot _ _ _ _ _ _ K)) as (s1 & E1 & E2).
  rewrite call_initialized in E2 by exact Hi.
  destruct (initialize_settled p t g token userPrompt s s1 K E1 Fulfilled
              (fun _ => true) data E2)
    as (H1 & H2 & H3 & H4 & H5 & H6 & H7 & H8 & H9 & H10).
  unfold dispatch. rewrite (drain_one _ _ _ H1). cbn [outcome_of resume].
  set (h0 := upd_microtasks (fun _ => []) (handle (StdoutData data) s)).
  destruct (executeOnBridge_effect userPrompt g token h0) as [Hp E].
  pose proof (status_fresh_promise userPrompt g token h0) as Hst. cbn zeta in Hst.
  destruct (executeOnBridge userPrompt g token h0) as [p1 s2]. cbn [fst snd] in *.
  assert (has_stdin h0 = true) as Hs0.
  { unfold has_stdin, h0. simpl_state. rewrite H8. exact Hs. }
  assert (next_handle h0 = next_handle s) as Hn by exact H9.
  rewrite Hs0 in Hst. unfold await. rewrite Hst.
  rewrite flush_idle by (simpl_state; rewrite (exec_microtasks _ _ _ _ _ E); reflexivity).
  unfold status, slot. simpl_state. subst p1. rewrite Hn in *.
  pose proof (init_old_promise _ _ _ _ _ _ K) as Op.
  pose proof (init_old_timer _ _ _ _ _ _ K) as Ot.
  repeat split.
  - rewrite (exec_isInitialized _ _ _ _ _ E). exact H7.
  - rewrite (exec_promises _ _ _ _ _ E), Hn, lookup_insert_ne by lia.
    unfold h0. simpl_state. rewrite H2. apply lookup_insert_eq.
  - rewrite (exec_timers _ _ _ _ _ E), Hn.
    destruct (decide (token ∈ cancelled h0));
      rewrite ?lookup_insert_ne by lia; unfold h0; simpl_state; rewrite H4;
      apply lookup_delete_eq.
  - rewrite (exec_stdin_log _ _ _ _ _ E), Hs0. unfold h0. simpl_state.
    rewrite H6. reflexivity.
  - rewrite (exec_reported _ _ _ _ _ E). exact H5.
  - rewrite (exec_pendingResponses _ _ _ _ _ E), Hn. apply lookup_insert_eq.
  - exact Hst.
  - apply lookup_insert_eq.
Qed.

Lemma initialize_success_witness :
  let s' := dispatch (StdoutData (json_line "{'status':'initialized'}")) initializing in
  isInitialized s' = true
  /\ status s' 1 = Some Fulfilled
  /\ timers s' !! 2%nat = None
  /\ stdin_log s' = stdin_log initializing ++ [CmdExecute (lit "hi")]
  /\ reported s' = reported initializing
  /\ slot s' = Some (ExecCallback 3 5 4 7)
  /\ status s' 3 = Some Pending
  /\ waiters s' !! 3%nat = Some (AfterExecute 7).
Proof.
  apply (initialize_success initializing 1 2 7 9 (lit "hi") _
           (JObject [(lit "status", JString (lit "initialized"))])).
  - constructor; try reflexivity; vm_compute; lia.
  - reflexivity.
  - vm_compute. reflexivity.
  - reflexivity.
Defined.

(** X12: any other reply than [initialized] that is not [null] rejects the
    initialize call, with the error the reply carries when its status is
    [error] and with 'Unexpected initialization response' otherwise; the
    slot is emptied and the timer cleared, the request reports the error
    and writes no execute command, and the bridge is not marked
    initialized. *)
Theorem initialize_failure (s : state) (p t g token : nat) (userPrompt : jsstring)
    (data : Buffer) (m : json) :
  initialize_pending p t userPrompt g token s ->
  messages_of (removelast (split_on NL (responseBuffer s ++ toString data))) = [m] ->
  m <> JNull ->
  is_string "initialized" (member "status" m) = false ->
  let s' := dispatch (StdoutData data) s in
  status s' p = Some (Rejected (initialize_error m))
  /\ slot s' = None
  /\ timers s' !! t = None
  /\ reported s' = reported s ++ [(g, ErrorNotice (initialize_error m))]
  /\ stdin_log s' = stdin_log s
  /\ isInitialized s' = isInitialized s.
Proof.
  intros K Hm Hnn Hi. cbn zeta.
  destruct (deliver_one data m _ s Hm (init_slot _ _ _ _ _ _ K)) as (s1 & E1 & E2).
  rewrite call_not_initialized in E2 by assumption.
  change (delete_current (clearTimeout t s1))
    with (upd_isInitialized (fun b => b) (delete_current (clearTimeout t s1))) in E2.
  destruct (initialize_settled p t g token userPrompt s s1 K E1 (Rejected _)
              (fun b => b) data E2)
    as (H1 & H2 & H3 & H4 & H5 & H6 & H7 & H8 & H9 & H10).
  unfold dispatch. rewrite (drain_one _ _ _ H1). cbn [outcome_of resume progress_of].
  rewrite flush_idle by reflexivity.
  unfold status, slot, progress_report. simpl_state. rewrite H2, H3, H4, H5.
  repeat split; try assumption.
  - apply lookup_insert_eq.
  - apply lookup_delete_eq.
  - apply lookup_delete_eq.
Qed.

Lemma initialize_failure_witness :
  let m := JObject [(lit "status", JString (lit "starting"))] in
  let s' := dispatch (StdoutData (json_line "{'status':'starting'}")) initializing in
  status s' 1 = Some (Rejected (initialize_error m))
  /\ slot s' = None
  /\ timers s' !! 2%nat = None
  /\ reported s' = reported initializing ++ [(7%nat, ErrorNotice (initialize_error m))]
  /\ stdin_log s' = stdin_log initializing
  /\ isInitialized s' = isInitialized initializing.
Proof.
  apply (initialize_failure initializing 1 2 7 9 (lit "hi")).
  - constructor; try reflexivity; vm_compute; lia.
  - vm_compute. reflexivity.
  - discriminate.
  - reflexivity.
Defined.

(** X13: the reply [null] to the initialize call in flight empties the
    slot and clears the timer, and leaves the promise pending with the
    request still waiting on it: neither a later message nor the timeout
    settles the call. *)
Theorem initialize_null_reply (s : state) (p t g token : nat) (userPrompt : jsstring)
    (data : Buffer) :
  initialize_pending p t userPrompt g token s ->
  messages_of (removelast (split_on NL (responseBuffer s ++ toString data))) = [JNull] ->
  let s' := dispatch (StdoutData data) s in
  status s' p = Some Pending
  /\ waiters s' !! p = Some (AfterInitialize userPrompt g token)
  /\ slot s' = None
  /\ timers s' !! t = None
  /\ reported s' = reported s.
Proof.
  intros K Hm. cbn zeta.
  destruct (deliver_one data JNull _ s Hm (init_slot _ _ _ _ _ _ K)) as (s1 & E1 & E2).
  rewrite call_initialize_null in E2.
  erased E2 microtasks H1. erased E2 promises H2. erased E2 pendingResponses H3.
  erased E2 timers H4. erased E2 reported H5. erased E2 waiters H6.
  erased E1 microtasks G1. erased E1 promises G2. erased E1 reported G5.
  erased E1 waiters G6.
  unfold delete_current, clearTimeout in *. simpl_state.
  unfold dispatch. rewrite drain_idle by (rewrite H1, G1; apply K).
  unfold status, slot. rewrite H2, H3, H4, H5, H6, G2, G5, G6.
  repeat split; try apply K; apply lookup_delete_eq.
Qed.

Lemma initialize_null_reply_witness :
  let s' := dispatch (StdoutData (json_line "null")) initializing in
  status s' 1 = Some Pending
  /\ waiters s' !! 1%nat = Some (AfterInitialize (lit "hi") 7 9)
  /\ slot s' = None
  /\ timers s' !! 2%nat = None
  /\ reported s' = reported initializing.
Proof.
  apply (initialize_null_reply initializing 1 2 7 9 (lit "hi")).
  - constructor; try reflexivity; vm_compute; lia.
  - vm_compute. reflexivity.
Defined.

(** ** The first request *)

Section FirstRequest.

Variables (h : host) (messages : list message) (workspaceRoot : jsstring)
  (ctx : extension_context) (g token : nat) (s : state).

Hypothesis A : admissible h messages workspaceRoot.
Hypothesis U : unstarted ctx s.

Lemma request_spawns :
  handle (Request h messages g token) s
    = let s1 :=
        progress_report g InitializingNotice
          (upd_next_handle S
             (upd_bridgeProcess
                (fun _ => Some (Process (next_handle s) (spawnedStdin h)))
                (upd_pythonPath (fun _ => Some (python_of h)) s))) in
      let r := initializeBridge h workspaceRoot s1 in
      await (fst r) (AfterInitialize (extractUserPrompt messages) g token) (snd r).
Proof.
  destruct A as [A1 A2 A3]. destruct U as [U1 U2 U3 U4].
  unfold handle, provideLanguageModelChatResponse. rewrite A1, A2, A3.
  unfold ensureBridgeProcess. rewrite U1, U2. simpl_state. rewrite U3.
  cbn zeta. fold (python_of h).
  destruct (initializeBridge h workspaceRoot _). reflexivity.
Qed.

End FirstRequest.

Lemma request_initializes (h : host) (messages : list message)
    (workspaceRoot : jsstring) (ctx : extension_context) (g token : nat) (s : state) :
  admissible h messages workspaceRoot ->
  unstarted ctx s ->
  spawnedStdin h = true ->
  let s' := dispatch (Request h messages g token) s in
  let n := next_handle s in
  bridgeProcess s' = Some (Process n true)
  /\ pythonPath s' = Some (python_of h)
  /\ reported s' = reported s ++ [(g, InitializingNotice)]
  /\ stdin_log s'
     = stdin_log s
       ++ [CmdInitialize (convertToWslPath s' workspaceRoot)
             (convertToWslPath s' (bundle_of h ctx))]
  /\ timers s' !! S (S n) = Some (InitTimeout (S n))
  /\ initialize_pending (S n) (S (S n)) (extractUserPrompt messages) g token s'.
Proof.
  intros A U Hs. cbn zeta. unfold dispatch.
  rewrite (request_spawns h messages workspaceRoot ctx g token s A U).
  destruct U as [U1 U2 U3 U4]. cbn zeta.
  unfold initializeBridge, has_stdin. unfold_runtime. simpl_state.
  rewrite Hs, U1. simpl_state. simpl_lookups. simpl_state.
  rewrite drain_idle by exact U4.
  unfold convertToWslPath, bundle_of. simpl_state.
  repeat split; simpl_state; simpl_lookups; try reflexivity; try assumption; try lia.
Qed.

(** X14: the first admissible request of a provider without a worker
    spawns one, announces the initialization, writes one initialize command
    for the workspace and the bundle, and leaves the initialize call in
    flight with the request waiting on it. *)
Theorem first_request_initializes (h : host) (messages : list message)
    (workspaceRoot : jsstring) (ctx : extension_context) (g token : nat) (s : state) :
  admissible h messages workspaceRoot ->
  unstarted ctx s ->
  spawnedStdin h = true ->
  let s' := dispatch (Request h messages g token) s in
  let n := next_handle s in
  bridgeProcess s' = Some (Process n true)
  /\ pythonPath s' = Some (python_of h)
  /\ reported s' = reported s ++ [(g, InitializingNotice)]
  /\ stdin_log s'
     = stdin_log s
       ++ [CmdInitialize (convertToWslPath s' workspaceRoot)
             (convertToWslPath s' (bundle_of h ctx))]
  /\ timers s' !! S (S n) = Some (InitTimeout (S n))
  /\ initialize_pending (S n) (S (S n)) (extractUserPrompt messages) g token s'.
Proof. exact (request_initializes h messages workspaceRoot ctx g token s). Qed.

Lemma first_request_initializes_witness :
  let s' := dispatch (Request host0 hi 7 9) start in
  bridgeProcess s' = Some (Process 0 true)
  /\ pythonPath s' = Some (python_of host0)
  /\ reported s' = reported start ++ [(7%nat, InitializingNotice)]
  /\ stdin_log s'
     = stdin_log start
       ++ [CmdInitialize (convertToWslPath s' (lit "/ws"))
             (convertToWslPath s' (bundle_of host0 (ExtensionContext (lit "/ext"))))]
  /\ timers s' !! 2%nat = Some (InitTimeout 1)
  /\ initialize_pending 1 2 (extractUserPrompt hi) 7 9 s'.
Proof.
  apply (first_request_initializes host0 hi (lit "/ws") (ExtensionContext (lit "/ext"))
           7 9 start).
  - constructor; reflexivity.
  - constructor; reflexivity.
  - reflexivity.
Defined.

(** X15: when the spawned worker has no stdin, the first request fails at
    once with 'Bridge stdin not available' and writes nothing; the callback
    of the failed call stays in the slot and its timer stays armed. *)
Theorem request_without_stdin (h : host) (messages : list message)
    (workspaceRoot : jsstring) (ctx : extension_context) (g token : nat) (s : state) :
  admissible h messages workspaceRoot ->
  unstarted ctx s ->
  spawnedStdin h = false ->
  let s' := dispatch (Request h messages g token) s in
  let n := next_handle s in
  let e := Error "Bridge stdin not available" in
  status s' (S n) = Some (Rejected e)
  /\ reported s' = reported s ++ [(g, InitializingNotice); (g, ErrorNotice e)]
  /\ stdin_log s' = stdin_log s
  /\ slot s' = Some (InitCallback (S n) (S (S n)))
  /\ timers s' !! S (S n) = Some (InitTimeout (S n)).
Proof.
  intros A U Hs. cbn zeta. unfold dispatch.
  rewrite (request_spawns h messages workspaceRoot ctx g token s A U).
  destruct U as [U1 U2 U3 U4]. cbn zeta.
  unfold initializeBridge, has_stdin. unfold_runtime. simpl_state.
  rewrite Hs. simpl_state. simpl_lookups. simpl_state. simpl_lookups. simpl_state.
  match goal with
  | |- context [drain ?x] =>
      rewrite (drain_one (AfterInitialize (extractUserPrompt messages) g token)
                 (Thrown (Error "Bridge stdin not available")) x)
        by (simpl_state; rewrite U4; reflexivity)
  end.
  cbn [resume progress_of]. rewrite flush_idle by reflexivity.
  unfold status, slot, progress_report. simpl_state. simpl_lookups.
  rewrite <- app_assoc.
  repeat split; reflexivity.
Qed.

Lemma request_without_stdin_witness :
  let h := Host (Some [lit "/ws"]) None false slash_join in
  let s' := dispatch (Request h hi 7 9) start in
  let e := Error "Bridge stdin not available" in
  status s' 1 = Some (Rejected e)
  /\ reported s' = reported start ++ [(7%nat, InitializingNotice); (7%nat, ErrorNotice e)]
  /\ stdin_log s' = stdin_log start
  /\ slot s' = Some (InitCallback 1 2)
  /\ timers s' !! 2%nat = Some (InitTimeout 1).
Proof.
  apply (request_without_stdin (Host (Some [lit "/ws"]) None false slash_join) hi (lit "/ws")
           (ExtensionContext (lit "/ext")) 7 9 start).
  - constructor; reflexivity.
  - constructor; reflexivity.
  - reflexivity.
Defined.

(** ** The initialize timeout *)

(** X16: when the timer of the initialize call in flight fires, the call
    is rejected with the initialization timeout and the request reports it
    and writes nothing; the callback of the call stays in the slot. *)
Theorem initialize_timeout (s : state) (p t g token : nat) (userPrompt : jsstring) :
  initialize_pending p t userPrompt g token s ->
  timers s !! t = Some (InitTimeout p) ->
  let s' := dispatch (TimerFired t) s in
  let e := Error "Bridge initialization timeout - try again or check connection" in
  status s' p = Some (Rejected e)
  /\ reported s' = reported s ++ [(g, ErrorNotice e)]
  /\ stdin_log s' = stdin_log s
  /\ isInitialized s' = isInitialized s
  /\ slot s' = Some (InitCallback p t)
  /\ timers s' !! t = None.
Proof.
  intros K Ht. cbn zeta. unfold dispatch, handle. rewrite Ht.
  unfold run_timer, reject.
  rewrite (settle_waiting p _ (AfterInitialize userPrompt g token))
    by (simpl_state; apply K).
  rewrite (drain_one (AfterInitialize userPrompt g token)
             (Thrown (Error "Bridge initialization timeout - try again or check connection")))
    by (simpl_state; rewrite (init_idle _ _ _ _ _ _ K); reflexivity).
  cbn [resume progress_of]. rewrite flush_idle by reflexivity.
  unfold status, slot, progress_report. simpl_state.
  repeat split; try reflexivity.
  - apply lookup_insert_eq.
  - apply K.
  - apply lookup_delete_eq.
Qed.

Lemma initialize_timeout_witness :
  let s' := dispatch (TimerFired 2) initializing in
  let e := Error "Bridge initialization timeout - try again or check connection" in
  status s' 1 = Some (Rejected e)
  /\ reported s' = reported initializing ++ [(7%nat, ErrorNotice e)]
  /\ stdin_log s' = stdin_log initializing
  /\ isInitialized s' = isInitialized initializing
  /\ slot s' = Some (InitCallback 1 2)
  /\ timers s' !! 2%nat = None.
Proof.
  apply (initialize_timeout initializing 1 2 7 9 (lit "hi")).
  - constructor; try reflexivity; vm_compute; lia.
  - reflexivity.
Defined.

Lemma settle_settled (p : nat) (r r0 : settlement) (s : state) :
  promises s !! p = Some r0 -> r0 <> Pending -> settle p r s = s.
Proof. unfold settle. intros -> H. destruct r0; congruence. Qed.

(** X17: a reply [initialized] that arrives after the initialize call was
    rejected still marks the bridge initialized and empties the slot; the
    call stays rejected and nothing is reported or written. *)
Theorem late_initialized_reply (s : state) (p t : nat) (e : error)
    (data : Buffer) (m : json) :
  slot s = Some (InitCallback p t) ->
  status s p = Some (Rejected e) ->
  microtasks s = [] ->
  messages_of (removelast (split_on NL (responseBuffer s ++ toString data))) = [m] ->
  is_string "initialized" (member "status" m) = true ->
  let s' := dispatch (StdoutData data) s in
  isInitialized s' = true
  /\ slot s' = None
  /\ status s' p = Some (Rejected e)
  /\ reported s' = reported s
  /\ stdin_log s' = stdin_log s.
Proof.
  unfold slot, status. intros Hs Hp Hi Hm Hd. cbn zeta.
  destruct (deliver_one data m _ s Hm Hs) as (s1 & E1 & E2).
  rewrite call_initialized in E2 by exact Hd.
  erased E1 promises G2. erased E1 microtasks G1. erased E1 reported G5.
  erased E1 stdin_log G6.
  unfold resolve in E2.
  rewrite (settle_settled p Fulfilled (Rejected e)) in E2
    by (unfold delete_current, clearTimeout; simpl_state; congruence).
  erased E2 microtasks H1. erased E2 promises H2. erased E2 pendingResponses H3.
  erased E2 isInitialized H4. erased E2 reported H5. erased E2 stdin_log H6.
  unfold delete_current, clearTimeout in *. simpl_state.
  unfold dispatch. rewrite drain_idle by congruence.
  rewrite H2, H3, H4, H5, H6, G2, G5, G6.
  repeat split; try assumption. apply lookup_delete_eq.
Qed.

Lemma late_initialized_reply_witness :
  let s := dispatch (TimerFired 2) initializing in
  let e := Error "Bridge initialization timeout - try again or check connection" in
  let s' := dispatch (StdoutData (json_line "{'status':'initialized'}")) s in
  isInitialized s' = true
  /\ slot s' = None
  /\ status s' 1 = Some (Rejected e)
  /\ reported s' = reported s
  /\ stdin_log s' = stdin_log s.
Proof.
  apply (late_initialized_reply (dispatch (TimerFired 2) initializing) 1 2 _ _
           (JObject [(lit "status", JString (lit "initialized"))])).
  - reflexivity.
  - reflexivity.
  - reflexivity.
  - vm_compute. reflexivity.
  - reflexivity.
Defined.

(** ** A request while a call is in flight *)

Section Overlap.

Variables (h : host) (messages : list message) (workspaceRoot : jsstring)
  (g' token' : nat) (s : state).

Hypothesis A : admissible h messages workspaceRoot.
Hypothesis Hi : isInitialized s = true.
Hypothesis Hs : has_stdin s = true.
Hypothesis Hm : microtasks s = [].

Lemma request_executes :
  dispatch (Request h messages g' token') s
    = upd_waiters (insert (next_handle s) (AfterExecute g'))
        (snd (executeOnBridge (extractUserPrompt messages) g' token' s)).
Proof.
  destruct A as [A1 A2 A3].
  unfold dispatch, handle, provideLanguageModelChatResponse. rewrite A1, A2, A3.
  assert (ensureBridgeProcess h s = s) as ->.
  { unfold ensureBridgeProcess, has_stdin in *.
    destruct (bridgeProcess s); [reflexivity|discriminate]. }
  assert (exists proc, bridgeProcess s = Some proc) as [proc ->].
  { unfold has_stdin in Hs. destruct (bridgeProcess s); [eauto|discriminate]. }
  rewrite Hi.
  destruct (executeOnBridge_effect (extractUserPrompt messages) g' token' s) as [Hp E].
  pose proof (status_fresh_promise (extractUserPrompt messages) g' token' s) as Hst.
  cbn zeta in Hst. rewrite Hs in Hst.
  destruct (executeOnBridge (extractUserPrompt messages) g' token' s) as [p1 s1].
  cbn [fst snd] in *. subst p1. unfold await. rewrite Hst.
  apply drain_idle. simpl_state. rewrite (exec_microtasks _ _ _ _ _ E). exact Hm.
Qed.

End Overlap.

Lemma settle_other (p q : nat) (r : settlement) (s : state) :
  p <> q -> promises (settle p r s) !! q = promises s !! q.
Proof.
  intros Hne. unfold settle. destruct (promises s !! p) as [[| |]|]; try reflexivity.
  destruct (waiters s !! p); simpl_state; apply lookup_insert_ne; exact Hne.
Qed.

(** A [done] message for a call whose promise is pending and awaited. *)
Lemma done_settles (s : state) (n t c g : nat) (data : Buffer) (m : json) :
  pendingResponses s !! "current" = Some (ExecCallback n t c g) ->
  promises s !! n = Some Pending ->
  waiters s !! n = Some (AfterExecute g) ->
  microtasks s = [] ->
  messages_of (removelast (split_on NL (responseBuffer s ++ toString data))) = [m] ->
  is_string "done" (member "type" m) = true ->
  let s' := dispatch (StdoutData data) s in
  promises s' = <[n := Fulfilled]> (promises s)
  /\ pendingResponses s' = delete "current" (pendingResponses s).
Proof.
  intros Hslot Hn Hw Hidle Hm Hd. cbn zeta.
  destruct (deliver_one data m _ s Hm Hslot) as (s1 & E1 & E2).
  rewrite call_done in E2 by exact Hd.
  erased E1 promises G2. erased E1 waiters G3. erased E1 microtasks G1.
  erased E1 pendingResponses G4.
  unfold resolve in E2.
  rewrite (settle_waiting n Fulfilled (AfterExecute g)) in E2
    by (unfold delete_current, clearTimeout; simpl_state; congruence).
  erased E2 microtasks H1. erased E2 promises H2. erased E2 pendingResponses H3.
  unfold delete_current, clearTimeout in *. simpl_state.
  unfold dispatch.
  rewrite (drain_one (AfterExecute g) Returned) by (rewrite H1, G1, Hidle; reflexivity).
  cbn [resume]. rewrite flush_idle by reflexivity.
  simpl_state. rewrite H2, H3, G2, G4. split; reflexivity.
Qed.

(** X18: a request made while an execute call is in flight takes the slot
    over. The [done] message that follows fulfils the call of the second
    request; the call of the first stays pending and the slot is empty, so
    no later message reaches it. *)
Theorem overlapping_request_takes_slot (s : state) (p t c g : nat) (received : bool)
    (h : host) (messages : list message) (workspaceRoot : jsstring) (g' token' : nat)
    (data : Buffer) (m : json) :
  execute_pending p t c g received s ->
  isInitialized s = true ->
  has_stdin s = true ->
  admissible h messages workspaceRoot ->
  messages_of (removelast (split_on NL (responseBuffer s ++ toString data))) = [m] ->
  is_string "done" (member "type" m) = true ->
  let s1 := dispatch (Request h messages g' token') s in
  let s2 := dispatch (StdoutData data) s1 in
  let n := next_handle s in
  slot s1 = Some (ExecCallback n (S (S n)) (S n) g')
  /\ stdin_log s1 = stdin_log s ++ [CmdExecute (extractUserPrompt messages)]
  /\ status s2 n = Some Fulfilled
  /\ status s2 p = Some Pending
  /\ slot s2 = None.
Proof.
  intros K Hi Hs A Hm Hd. cbn zeta.
  rewrite (request_executes h messages workspaceRoot g' token' s A Hi Hs
             (pending_idle _ _ _ _ _ _ K)).
  destruct (executeOnBridge_effect (extractUserPrompt messages) g' token' s) as [_ E].
  remember (snd (executeOnBridge (extractUserPrompt messages) g' token' s)) as s0 eqn:Hs0.
  clear Hs0.
  pose proof (pending_old _ _ _ _ _ _ K) as Hold.
  pose proof (pending_status _ _ _ _ _ _ K) as Hpend.
  destruct E as [_ _ EP EB EPr _ EM _ _ _ _ _ ES _ _]. rewrite Hs in *.
  remember (upd_waiters (insert (next_handle s) (AfterExecute g')) s0) as s1 eqn:Hs1.
  assert (pendingResponses s1 = pendingResponses s0) as F1 by (subst s1; reflexivity).
  assert (promises s1 = promises s0) as F2 by (subst s1; reflexivity).
  assert (microtasks s1 = microtasks s0) as F3 by (subst s1; reflexivity).
  assert (responseBuffer s1 = responseBuffer s0) as F4 by (subst s1; reflexivity).
  assert (stdin_log s1 = stdin_log s0) as F5 by (subst s1; reflexivity).
  assert (waiters s1 !! next_handle s = Some (AfterExecute g')) as F6
    by (subst s1; simpl_state; apply lookup_insert_eq).
  clear Hs1.
  assert (pendingResponses s1 !! "current"
          = Some (ExecCallback (next_handle s) (S (S (next_handle s)))
                    (S (next_handle s)) g')) as Hslot
    by (rewrite F1, EP; apply lookup_insert_eq).
  assert (promises s1 !! next_handle s = Some Pending) as Hn
    by (rewrite F2, EPr; apply lookup_insert_eq).
  rewrite <- EB, <- F4 in Hm.
  destruct (done_settles s1 _ _ _ _ data m Hslot Hn F6 ltac:(rewrite F3, EM; apply K) Hm Hd)
    as [D1 D2].
  unfold status, slot. rewrite D1, D2.
  split; [exact Hslot|]. split; [congruence|].
  split; [apply lookup_insert_eq|].
  split; [|apply lookup_delete_eq].
  rewrite lookup_insert_ne by lia. rewrite F2, EPr, lookup_insert_ne by lia.
  exact Hpend.
Qed.

Lemma overlapping_request_takes_slot_witness :
  let s1 := dispatch (Request host0 hi 8 10) executing in
  let s2 := dispatch (StdoutData (json_line "{'type':'done'}")) s1 in
  slot s1 = Some (ExecCallback 6 8 7 8)
  /\ stdin_log s1 = stdin_log executing ++ [CmdExecute (extractUserPrompt hi)]
  /\ status s2 6 = Some Fulfilled
  /\ status s2 3 = Some Pending
  /\ slot s2 = None.
Proof.
  apply (overlapping_request_takes_slot executing 3 5 4 7 false host0 hi (lit "/ws")
           8 10 _ (JObject [(lit "type", JString (lit "done"))])).
  - constructor; try reflexivity. vm_compute. lia.
  - reflexivity.
  - reflexivity.
  - constructor; reflexivity.
  - vm_compute. reflexivity.
  - reflexivity.
Defined.

(** ** Shutdown *)

Lemma dispatch_shutdown (s : state) (proc : process) :
  bridgeProcess s = Some proc ->
  microtasks s = [] ->
  dispatch Shutdown s
    = upd_next_handle S
        (upd_timers (insert (S (next_handle s)) (ShutdownKill (next_handle s)))
           (upd_stdin_log (fun l => l ++ if stdin proc then [CmdShutdown] else [])
              (upd_next_handle S
                 (upd_waiters (delete (next_handle s))
                    (upd_promises (insert (next_handle s) Pending) s))))).
Proof.
  intros Hp Hm. unfold dispatch, handle, shutdown. rewrite Hp.
  unfold new_promise, setTimeout, write. simpl_state.
  rewrite drain_idle by (destruct (stdin proc); exact Hm).
  destruct (stdin proc); simpl_state; [reflexivity|].
  destruct s. unfold upd_stdin_log. simpl. rewrite app_nil_r. reflexivity.
Qed.

(** X19: shutdown writes one shutdown command when the worker has a
    stdin and leaves the worker in place until its timer fires; the timer
    drops the worker, clears the initialized flag and fulfils the promise
    of shutdown, and settles no call made before. *)
Theorem shutdown_kills_on_timer (s : state) (proc : process) :
  bridgeProcess s = Some proc ->
  microtasks s = [] ->
  let n := next_handle s in
  let s1 := dispatch Shutdown s in
  let s2 := dispatch (TimerFired (S n)) s1 in
  stdin_log s1 = stdin_log s ++ (if stdin proc then [CmdShutdown] else [])
  /\ bridgeProcess s1 = Some proc
  /\ isInitialized s1 = isInitialized s
  /\ bridgeProcess s2 = None
  /\ isInitialized s2 = false
  /\ status s2 n = Some Fulfilled
  /\ stdin_log s2 = stdin_log s1
  /\ pendingResponses s2 = pendingResponses s
  /\ (forall q, q <> n -> status s2 q = status s q).
Proof.
  intros Hp Hm. cbn zeta. rewrite (dispatch_shutdown s proc Hp Hm).
  split; [reflexivity|]. split; [exact Hp|]. split; [reflexivity|].
  unfold dispatch, handle. simpl_state. simpl_lookups.
  unfold run_timer, resolve, settle. simpl_state. simpl_lookups. simpl_state.
  rewrite drain_idle by exact Hm.
  unfold status. simpl_state.
  repeat split; try reflexivity.
  - apply lookup_insert_eq.
  - intros q Hq. rewrite !lookup_insert_ne by congruence. reflexivity.
Qed.

Lemma shutdown_kills_on_timer_witness :
  let s1 := dispatch Shutdown executing in
  let s2 := dispatch (TimerFired 7) s1 in
  stdin_log s1 = stdin_log executing ++ [CmdShutdown]
  /\ bridgeProcess s1 = Some (Process 0 true)
  /\ isInitialized s1 = isInitialized executing
  /\ bridgeProcess s2 = None
  /\ isInitialized s2 = false
  /\ status s2 6 = Some Fulfilled
  /\ stdin_log s2 = stdin_log s1
  /\ pendingResponses s2 = pendingResponses executing
  /\ (forall q, q <> 6%nat -> status s2 q = status executing q).
Proof.
  apply (shutdown_kills_on_timer executing (Process 0 true)); reflexivity.
Defined.

(** ** The token estimate and the text of a message *)

(** X20: the token estimate is the least number of four-character groups
    that cover the text: it is zero exactly for the empty text, and a message
    is estimated as its text is. *)
Theorem provideTokenCount_bounds (text : jsstring) (m : message) :
  let c := Launch.provideTokenCount (inl text) in
  4 * (c - 1) < Z.of_nat (length text) <= 4 * c
  /\ (c = 0 <-> text = [])
  /\ Launch.provideTokenCount (inr m) = Launch.provideTokenCount (inl (messageToString m)).
Proof.
  cbn zeta. unfold Launch.provideTokenCount.
  pose proof (Z.div_mod (Z.of_nat (length text) + 3) 4 ltac:(lia)) as Hd.
  pose proof (Z.mod_pos_bound (Z.of_nat (length text) + 3) 4 ltac:(lia)) as Hm.
  split; [lia|]. split; [|reflexivity].
  split.
  - intros H. destruct text; [reflexivity|]. simpl length in *. lia.
  - intros ->. reflexivity.
Qed.

(** X21: the text of a message is its text parts, one per line: when no
    text part holds a newline and there is one at least, splitting the text
    at the newlines gives the text parts back, whatever other parts the
    message has. *)
Theorem messageToString_lines (m : message) :
  text_parts (content m) <> [] ->
  Forall (fun value => ~ In NL value) (text_parts (content m)) ->
  split_on NL (messageToString m) = text_parts (content m).
Proof.
  intros Hne Hall. unfold messageToString. apply split_on_join; assumption.
Qed.

Lemma messageToString_lines_witness :
  let m := Message 1 [LanguageModelTextPart (lit "fix the bug"); OtherPart 0;
                      LanguageModelTextPart (lit "in main.ts")] in
  split_on NL (messageToString m) = [lit "fix the bug"; lit "in main.ts"].
Proof.
  apply (messageToString_lines
           (Message 1 [LanguageModelTextPart (lit "fix the bug"); OtherPart 0;
                       LanguageModelTextPart (lit "in main.ts")])).
  - discriminate.
  - repeat (constructor; [apply no_newline_check; vm_compute; reflexivity|]).
    constructor.
Defined.

(** ** Paths for WSL *)

Section Paths.

Lemma slashes_no_backslash (p : jsstring) : ~ In 92 (Launch.slashes p).
Proof.
  unfold Launch.slashes. intros H. apply in_map_iff in H as (c & Hc & _).
  destruct (c =? 92) eqn:E; [discriminate|]. apply Z.eqb_neq in E. congruence.
Qed.

Lemma no_backslash_check (l : jsstring) :
  forallb (fun c => negb (c =? 92)) l = true -> ~ In 92 l.
Proof.
  intros H Hin. rewrite forallb_forall in H. specialize (H 92 Hin). discriminate.
Qed.

Lemma slashes_id (p : jsstring) : ~ In 92 p -> Launch.slashes p = p.
Proof.
  unfold Launch.slashes. induction p as [|c p IH]; intros H; [reflexivity|].
  simpl. rewrite IH by (intros Hin; apply H; right; exact Hin).
  destruct (c =? 92) eqn:E; [|reflexivity].
  apply Z.eqb_eq in E. subst. exfalso. apply H. left. reflexivity.
Qed.

Lemma to_wsl_slashes (p : jsstring) :
  to_wsl p
    = match Launch.slashes p with
      | d :: c :: r =>
          if (c =? 58) && is_letter d then lit "/mnt/" ++ [toLowerCase_letter d] ++ r
          else Launch.slashes p
      | _ => Launch.slashes p
      end.
Proof.
  unfold to_wsl. fold (Launch.slashes p).
  destruct (Launch.slashes p) as [|d [|c r]]; try reflexivity.
  destruct (Z.eqb_spec c 58) as [->|Hc]; [reflexivity|]. cbn [andb].
  destruct c as [|c|c]; try reflexivity.
  do 6 (destruct c as [c|c|]; try reflexivity). congruence.
Qed.

Lemma to_wsl_no_backslash (p : jsstring) : ~ In 92 (to_wsl p).
Proof.
  rewrite to_wsl_slashes. pose proof (slashes_no_backslash p) as H.
  destruct (Launch.slashes p) as [|d [|c r]]; try exact H.
  destruct ((c =? 58) && is_letter d) eqn:E; [|exact H].
  apply andb_true_iff in E as [_ El].
  intros Hin. apply in_app_or in Hin as [Hin|Hin].
  { revert Hin. vm_compute. intuition discriminate. }
  apply in_app_or in Hin as [[Hin|[]]|Hin].
  - unfold toLowerCase_letter, is_letter in *.
    destruct ((65 <=? d) && (d <=? 90)) eqn:E1.
    + apply andb_true_iff in E1 as [A B]. apply Z.leb_le in A, B. lia.
    + subst d. discriminate.
  - apply H. right. right. exact Hin.
Qed.

Lemma starts_with_app (a b s : jsstring) :
  starts_with (a ++ b) s = true ->
  starts_with a s = true /\ starts_with b (drop (length a) s) = true.
Proof.
  revert s. induction a as [|x a IH]; intros s H; [split; [reflexivity|exact H]|].
  destruct s as [|y s]; [discriminate|]. simpl in *.
  apply andb_true_iff in H as [H1 H2]. destruct (IH s H2) as [H3 H4].
  rewrite H1, H3. split; [reflexivity|exact H4].
Qed.

Lemma includes_here (sub s : jsstring) :
  starts_with sub s = true -> includes sub s = true.
Proof. intros H. destruct s; simpl in *; rewrite H; reflexivity. Qed.

Lemma includes_drop (sub s : jsstring) (n : nat) :
  includes sub (drop n s) = true -> includes sub s = true.
Proof.
  revert s. induction n as [|n IH]; intros s H; [rewrite drop_0 in H; exact H|].
  destruct s as [|c s]; [exact H|].
  simpl in *. rewrite (IH s H). apply orb_true_r.
Qed.

(** A string that holds [pre ++ sub ++ post] holds [sub]. *)
Lemma includes_inside (pre sub post s : jsstring) :
  includes (pre ++ sub ++ post) s = true -> includes sub s = true.
Proof.
  induction s as [|c s IH]; intros H.
  - simpl in H. rewrite orb_false_r in H.
    apply starts_with_app in H as [_ H]. apply starts_with_app in H as [H _].
    apply (includes_drop sub [] (length pre)), includes_here, H.
  - simpl in H. apply orb_true_iff in H as [H|H].
    + apply starts_with_app in H as [_ H]. apply starts_with_app in H as [H _].
      apply (includes_drop sub (c :: s) (length pre)), includes_here, H.
    + simpl. rewrite (IH H). apply orb_true_r.
Qed.

Lemma includes_head (c : Z) (sub s : jsstring) :
  includes (c :: sub) s = true -> In c s.
Proof.
  induction s as [|y s IH]; intros H; simpl in H.
  - discriminate.
  - apply orb_true_iff in H as [H|H].
    + apply andb_true_iff in H as [H _]. apply Z.eqb_eq in H. left. congruence.
    + right. apply IH, H.
Qed.

End Paths.

(** X22: the conversion of a Windows path for WSL leaves no backslash in
    the path, and converting a converted path changes nothing. *)
Theorem to_wsl_idempotent (winPath : jsstring) :
  ~ In 92 (to_wsl winPath) /\ to_wsl (to_wsl winPath) = to_wsl winPath.
Proof.
  split; [apply to_wsl_no_backslash|].
  rewrite (to_wsl_slashes (to_wsl winPath)).
  rewrite (slashes_id _ (to_wsl_no_backslash winPath)).
  rewrite to_wsl_slashes.
  destruct (Launch.slashes winPath) as [|d [|c r]] eqn:E; try reflexivity.
  destruct ((c =? 58) && is_letter d) eqn:Ec; [reflexivity|].
  rewrite Ec. reflexivity.
Qed.

(** X23: the paths of the initialize command are converted only for an
    interpreter that [ensureBridgeProcess] launches through wsl, and then
    with the conversion the script path gets. *)
Theorem convertToWslPath_only_for_wsl (s : state) (winPath : jsstring) :
  convertToWslPath s winPath <> winPath ->
  exists py,
    pythonPath s = Some py
    /\ Launch.is_wsl_python py = true
    /\ convertToWslPath s winPath = to_wsl winPath.
Proof.
  unfold convertToWslPath, Launch.is_wsl_python. intros H.
  destruct (pythonPath s) as [py|]; [|congruence].
  exists py. split; [reflexivity|].
  destruct (negb (is_empty py)); cbn [andb] in *; [|congruence].
  destruct (includes ([92] ++ lit "wsl.localhost" ++ [92]) py) eqn:E1.
  - rewrite (includes_inside _ _ _ _ E1). split; reflexivity.
  - cbn [orb] in *.
    destruct (includes ([92; 92] ++ lit "wsl$" ++ [92]) py) eqn:E2; [|congruence].
    rewrite (includes_inside _ _ _ _ E2), orb_true_r. split; reflexivity.
Qed.

Lemma convertToWslPath_only_for_wsl_witness :
  let py := [92; 92] ++ lit "wsl.localhost" ++ [92] ++ lit "Ubuntu" ++ [92] ++ lit "python3" in
  let s := upd_pythonPath (fun _ => Some py) start in
  let winPath := lit "C:" ++ [92] ++ lit "ws" in
  exists py',
    pythonPath s = Some py'
    /\ Launch.is_wsl_python py' = true
    /\ convertToWslPath s winPath = to_wsl winPath.
Proof.
  apply (convertToWslPath_only_for_wsl
           (upd_pythonPath
              (fun _ => Some ([92; 92] ++ lit "wsl.localhost" ++ [92] ++ lit "Ubuntu"
                              ++ [92] ++ lit "python3")) start)
           (lit "C:" ++ [92] ++ lit "ws")).
  vm_compute. discriminate.
Defined.

(** X24: an interpreter path written without backslashes gets no path
    conversion in the initialize command, also when it names a WSL host
    and is launched through wsl. *)
Theorem forward_slash_python_not_converted (s : state) (py winPath : jsstring) :
  pythonPath s = Some py ->
  ~ In 92 py ->
  convertToWslPath s winPath = winPath.
Proof.
  unfold convertToWslPath. intros -> H.
  destruct (includes ([92] ++ lit "wsl.localhost" ++ [92]) py) eqn:E1.
  { exfalso. apply H. exact (includes_head _ _ _ E1). }
  destruct (includes ([92; 92] ++ lit "wsl$" ++ [92]) py) eqn:E2.
  { exfalso. apply H. exact (includes_head _ _ _ E2). }
  rewrite andb_false_r. reflexivity.
Qed.

Lemma forward_slash_python_not_converted_witness :
  let py := lit "//wsl.localhost/Ubuntu/usr/bin/python3" in
  let winPath := lit "C:" ++ [92] ++ lit "ws" in
  convertToWslPath (upd_pythonPath (fun _ => Some py) start) winPath = winPath.
Proof.
  apply (forward_slash_python_not_converted
           (upd_pythonPath (fun _ => Some (lit "//wsl.localhost/Ubuntu/usr/bin/python3")) start)
           (lit "//wsl.localhost/Ubuntu/usr/bin/python3")).
  - reflexivity.
  - apply no_backslash_check. vm_compute. reflexivity.
Defined.

(** ** The command line of the worker *)

Lemma strip_prefix_no_backslash (literal p : jsstring) :
  ~ In 92 p -> ~ In 92 (Launch.strip_prefix literal p).
Proof.
  unfold Launch.strip_prefix. intros H. destruct (starts_with literal p); [|exact H].
  intros Hin. apply H. rewrite <- (take_drop (length literal) p).
  apply in_or_app. right. exact Hin.
Qed.

(** X25: for an interpreter inside WSL the worker is launched as
    [wsl --exec interpreter script], where the interpreter is an absolute
    path and neither path holds a backslash. *)
Theorem spawn_through_wsl (pythonPath bridgePath : jsstring) :
  Launch.is_wsl_python pythonPath = true ->
  exists interpreter script,
    Launch.spawn_command pythonPath bridgePath
      = (lit "wsl", [lit "--exec"; interpreter; script])
    /\ starts_with [47] interpreter = true
    /\ ~ In 92 interpreter
    /\ ~ In 92 script.
Proof.
  intros H. unfold Launch.spawn_command. rewrite H.
  exists (Launch.wslPythonPath pythonPath), (to_wsl bridgePath).
  split; [reflexivity|].
  assert (~ In 92 (Launch.strip_prefix (lit "//wsl$/Ubuntu")
                     (Launch.strip_prefix (lit "//wsl.localhost/Ubuntu")
                        (Launch.slashes pythonPath)))) as Hp
    by (do 2 apply strip_prefix_no_backslash; apply slashes_no_backslash).
  unfold Launch.wslPythonPath. cbn zeta.
  set (p := Launch.strip_prefix _ _) in *.
  destruct (starts_with [47] p) eqn:E.
  - split; [exact E|]. split; [exact Hp|apply to_wsl_no_backslash].
  - split; [reflexivity|]. split; [|apply to_wsl_no_backslash].
    intros [Hin|Hin]; [discriminate|exact (Hp Hin)].
Qed.

Lemma spawn_through_wsl_witness :
  let py := [92; 92] ++ lit "wsl.localhost" ++ [92] ++ lit "Ubuntu" ++ [92] ++ lit "venv"
            ++ [92] ++ lit "python3" in
  let bridge := lit "C:" ++ [92] ++ lit "ext" ++ [92] ++ lit "amplifier_bridge.py" in
  exists interpreter script,
    Launch.spawn_command py bridge = (lit "wsl", [lit "--exec"; interpreter; script])
    /\ starts_with [47] interpreter = true
    /\ ~ In 92 interpreter
    /\ ~ In 92 script.
Proof.
  apply (spawn_through_wsl
           ([92; 92] ++ lit "wsl.localhost" ++ [92] ++ lit "Ubuntu" ++ [92] ++ lit "venv"
            ++ [92] ++ lit "python3")).
  vm_compute. reflexivity.
Defined.

(** ** The API key *)

Section ApiKey.

Import Extension.

Lemma secretKey_inj (a b : jsstring) : secretKey a = secretKey b -> a = b.
Proof.
  unfold secretKey. intros H. apply app_inv_head in H. apply app_inv_tail in H. exact H.
Qed.

Lemma truthy_not_empty (v : option jsstring) : truthy v <> Some [].
Proof. destruct v as [[|c k]|]; discriminate. Qed.

End ApiKey.

(** X26: a key entered at the prompt is the key [getApiKey] returns for
    that provider from then on, whatever the environment holds, and the
    keys of the other providers are as before. *)
Theorem entered_key_is_returned (w : Extension.world) (providerType : jsstring)
    (entered : option jsstring) (apiKey : jsstring) :
  Extension.truthy entered = Some apiKey ->
  let w' := snd (Extension.promptForApiKey providerType entered w) in
  fst (Extension.promptForApiKey providerType entered w) = Some apiKey
  /\ Extension.getApiKey w' providerType = Some apiKey
  /\ (forall other, other <> providerType ->
        Extension.getApiKey w' other = Extension.getApiKey w other).
Proof.
  intros H. cbn zeta. unfold Extension.promptForApiKey. rewrite H. cbn [fst snd].
  split; [reflexivity|]. unfold Extension.getApiKey. cbn [Extension.secret_store Extension.process_env].
  split.
  - rewrite lookup_insert_eq.
    destruct entered as [[|c k]|]; simpl in H; try discriminate H.
    injection H as <-. reflexivity.
  - intros other Hne. rewrite lookup_insert_ne; [reflexivity|].
    intros Heq. apply secretKey_inj in Heq. congruence.
Qed.

Lemma entered_key_is_returned_witness :
  let w := Extension.World ∅ (<[lit "ANTHROPIC_API_KEY" := lit "sk-env"]> ∅) None [] in
  let w' := snd (Extension.promptForApiKey (lit "anthropic") (Some (lit "sk-ant")) w) in
  fst (Extension.promptForApiKey (lit "anthropic") (Some (lit "sk-ant")) w)
    = Some (lit "sk-ant")
  /\ Extension.getApiKey w' (lit "anthropic") = Some (lit "sk-ant")
  /\ (forall other, other <> lit "anthropic" ->
        Extension.getApiKey w' other = Extension.getApiKey w other).
Proof.
  apply (entered_key_is_returned
           (Extension.World ∅ (<[lit "ANTHROPIC_API_KEY" := lit "sk-env"]> ∅) None [])
           (lit "anthropic") (Some (lit "sk-ant")) (lit "sk-ant")).
  reflexivity.
Defined.

(** X27: after the clear command the key of the configured provider is
    the one of the environment, if there is one; a key set before the clear
    makes no difference, and the keys of the other providers are as
    before. *)
Theorem cleared_key_falls_back (w : Extension.world) (entered : option jsstring)
    (name : jsstring) :
  Extension.envKeyNames (Extension.current_provider w) = Some name ->
  let w' := Extension.clearApiKey (Extension.setApiKey entered w) in
  Extension.getApiKey w' (Extension.current_provider w)
    = Extension.truthy (Extension.process_env w !! name)
  /\ Extension.secret_store w' = Extension.secret_store (Extension.clearApiKey w)
  /\ (forall other, other <> Extension.current_provider w ->
        Extension.getApiKey w' other = Extension.getApiKey w other).
Proof.
  intros Hn. cbn zeta.
  assert (Extension.current_provider (Extension.setApiKey entered w)
          = Extension.current_provider w) as Hc.
  { unfold Extension.setApiKey, Extension.promptForApiKey, Extension.current_provider.
    destruct (Extension.truthy entered); reflexivity. }
  assert (Extension.process_env (Extension.setApiKey entered w) = Extension.process_env w)
    as He.
  { unfold Extension.setApiKey, Extension.promptForApiKey.
    destruct (Extension.truthy entered); reflexivity. }
  assert (delete (Extension.secretKey (Extension.current_provider w))
            (Extension.secret_store (Extension.setApiKey entered w))
          = delete (Extension.secretKey (Extension.current_provider w))
              (Extension.secret_store w)) as Hd.
  { unfold Extension.setApiKey, Extension.promptForApiKey.
    destruct (Extension.truthy entered); [|reflexivity].
    cbn [snd Extension.secret_store]. apply delete_insert_eq. }
  unfold Extension.clearApiKey, Extension.getApiKey. rewrite Hc.
  cbn [Extension.secret_store Extension.process_env]. rewrite He, Hd.
  split; [|split].
  - rewrite lookup_delete_eq, Hn. reflexivity.
  - reflexivity.
  - intros other Hne. rewrite lookup_delete_ne; [reflexivity|].
    intros Heq. apply secretKey_inj in Heq. congruence.
Qed.

Lemma cleared_key_falls_back_witness :
  let w :=
    Extension.World (<[Extension.secretKey (lit "openai") := lit "sk-old"]> ∅)
      (<[lit "OPENAI_API_KEY" := lit "sk-env"]> ∅) (Some (lit "openai")) [] in
  let w' := Extension.clearApiKey (Extension.setApiKey (Some (lit "sk-new")) w) in
  Extension.getApiKey w' (Extension.current_provider w)
    = Extension.truthy (Extension.process_env w !! lit "OPENAI_API_KEY")
  /\ Extension.secret_store w' = Extension.secret_store (Extension.clearApiKey w)
  /\ (forall other, other <> Extension.current_provider w ->
        Extension.getApiKey w' other = Extension.getApiKey w other).
Proof.
  apply (cleared_key_falls_back
           (Extension.World (<[Extension.secretKey (lit "openai") := lit "sk-old"]> ∅)
              (<[lit "OPENAI_API_KEY" := lit "sk-env"]> ∅) (Some (lit "openai")) [])
           (Some (lit "sk-new")) (lit "OPENAI_API_KEY")).
  reflexivity.
Defined.

(** X28: [getApiKey] never returns the empty string: an empty stored
    secret does not hide the key of the environment, and an empty variable
    of the environment counts as none. *)
Theorem getApiKey_never_empty (w : Extension.world) (providerType : jsstring) :
  Extension.getApiKey w providerType <> Some []
  /\ (Extension.secret_store w !! Extension.secretKey providerType = Some [] ->
      Extension.getApiKey w providerType
        = Extension.getApiKey
            (Extension.World (delete (Extension.secretKey providerType)
                                (Extension.secret_store w))
               (Extension.process_env w) (Extension.provider_setting w)
               (Extension.shown w))
            providerType).
Proof.
  unfold Extension.getApiKey. cbn [Extension.secret_store Extension.process_env].
  split.
  - destruct (Extension.truthy (Extension.secret_store w !! _)) as [k|] eqn:E.
    + intros [= ->]. exact (truthy_not_empty _ E).
    + apply truthy_not_empty.
  - intros ->. rewrite lookup_delete_eq. reflexivity.
Qed.

(** ** The life of the worker *)

(** X29: the worker is spawned at most once: a second call of
    [ensureBridgeProcess] changes nothing, whatever the configuration has
    become. *)
Theorem ensureBridgeProcess_idempotent (h h' : host) (s : state) :
  ensureBridgeProcess h' (ensureBridgeProcess h s) = ensureBridgeProcess h s.
Proof.
  unfold ensureBridgeProcess.
  destruct (bridgeProcess s) eqn:Hb, (context s) eqn:Hc; simpl_state;
    rewrite ?Hb, ?Hc; reflexivity.
Qed.

Lemma close_unstarted (ctx : extension_context) (code : option Z) (s : state) :
  context s = Some ctx -> microtasks s = [] ->
  dispatch (ProcessClose code) s = on_close code s
  /\ unstarted ctx (on_close code s).
Proof.
  intros Hc Hm. unfold dispatch, handle.
  rewrite drain_idle by exact Hm.
  split; [reflexivity|]. constructor; try reflexivity; assumption.
Qed.

(** X30: after the worker has closed, the next admissible request spawns
    a new worker and initializes it again: it announces the initialization,
    writes one initialize command and puts the callback of the new call
    into the slot, whatever the slot held. *)
Theorem request_after_close_initializes (h : host) (messages : list message)
    (workspaceRoot : jsstring) (ctx : extension_context) (g token : nat)
    (code : option Z) (s : state) :
  context s = Some ctx ->
  microtasks s = [] ->
  admissible h messages workspaceRoot ->
  spawnedStdin h = true ->
  let s' := run [ProcessClose code; Request h messages g token] s in
  let n := next_handle s in
  bridgeProcess s' = Some (Process n true)
  /\ isInitialized s' = false
  /\ reported s' = reported s ++ [(g, InitializingNotice)]
  /\ stdin_log s'
     = stdin_log s
       ++ [CmdInitialize (convertToWslPath s' workspaceRoot)
             (convertToWslPath s' (bundle_of h ctx))]
  /\ slot s' = Some (InitCallback (S n) (S (S n))).
Proof.
  intros Hc Hm A Hs. cbn zeta.
  change (run [ProcessClose code; Request h messages g token] s)
    with (dispatch (Request h messages g token) (dispatch (ProcessClose code) s)).
  destruct (close_unstarted ctx code s Hc Hm) as [-> U].
  destruct (request_initializes h messages workspaceRoot ctx g token _ A U Hs)
    as (H1 & H2 & H3 & H4 & H5 & H6).
  cbn zeta in *.
  remember (dispatch (Request h messages g token) (on_close code s)) as s' eqn:Hs'.
  split; [exact H1|]. split.
  - subst s'. unfold dispatch.
    rewrite (request_spawns h messages workspaceRoot ctx g token _ A U).
    cbn zeta. unfold initializeBridge, has_stdin. unfold_runtime. simpl_state.
    rewrite Hs. simpl_state. simpl_lookups. simpl_state.
    rewrite drain_idle by exact Hm. reflexivity.
  - split; [exact H3|]. split; [exact H4|]. apply H6.
Qed.

Lemma request_after_close_initializes_witness :
  let s' := run [ProcessClose (Some 1); Request host0 hi 8 10] executing in
  bridgeProcess s' = Some (Process 6 true)
  /\ isInitialized s' = false
  /\ reported s' = reported executing ++ [(8%nat, InitializingNotice)]
  /\ stdin_log s'
     = stdin_log executing
       ++ [CmdInitialize (convertToWslPath s' (lit "/ws"))
             (convertToWslPath s' (bundle_of host0 (ExtensionContext (lit "/ext"))))]
  /\ slot s' = Some (InitCallback 7 8).
Proof.
  apply (request_after_close_initializes host0 hi (lit "/ws")
           (ExtensionContext (lit "/ext")) 8 10 (Some 1) executing).
  - reflexivity.
  - reflexivity.
  - constructor; reflexivity.
  - reflexivity.
Defined.

(** * Whole traces *)

(** ** The promise of shutdown *)

Section Unawaited.

















End Unawaited.

(** ** After a cancellation *)

Section Quiet.










End Quiet.




(** ** The execute commands of a turn *)

Section Writes.







End Writes.

(** ** What a handler makes ready *)

Section Handlers.













End Handlers.

(** ** The prompt of the execute command *)





